(** * Indexing lifecycle of the MCP tool handlers

    A shallow embedding of [packages/mcp/src/handlers.ts]: the cloud
    reconciliation [syncIndexedCodebasesFromCloud], the request handler
    [handleIndexCodebase], the detached task [startBackgroundIndexing] and
    [handleClearIndex].

    The handlers are [async] methods over three kinds of state: the
    in-memory snapshot of the [SnapshotManager], the snapshot file it
    saves, and everything outside the process (vector database, core
    [Context], file system, clock).  They are embedded in a state, writer
    and exception monad [M]: a computation takes a [World] and returns a
    [Result] (a value, or the JavaScript value that was thrown), the next
    [World] and the list of [Event]s it performed, oldest first.  A
    rejected promise is a [Raise].  Console output is kept only where a
    line carries information of the lifecycle (the fallback warning, the
    completion and the failure line). *)

From Stdlib Require Import ZArith Lia.
From stdpp Require Import gmap strings list fin_maps pretty.

Local Open Scope string_scope.
Local Open Scope list_scope.
Local Open Scope Z_scope.

(** ** JavaScript values that cross the boundary *)

(** What a collaborator throws, or rejects with: an [Error] object (its
    [name] and [message]), a bare string, or no reason at all
    ([undefined], which is what [reject()] gives, or [null]).
    [handleSearchCode] and [handleClearIndex] name the first two shapes
    ("direct string throws and Error objects"); any other primitive
    behaves in every [catch] block below as the string it prints as. *)
Inductive Thrown : Type :=
  | ErrorObj (name message : string)
  | ThrownString (s : string)
  | ThrownUndefined
  | ThrownNull.

Inductive Result (A : Type) : Type :=
  | Ok (a : A)
  | Raise (e : Thrown).
Arguments Ok {A} a.
Arguments Raise {A} e.

(** [String(error)]: [Error.prototype.toString] for an error object, the
    string itself for a string. *)
Definition js_String (e : Thrown) : string :=
  match e with
  | ErrorObj n m =>
      if String.eqb n "" then m
      else if String.eqb m "" then n
      else n +:+ ": " +:+ m
  | ThrownString s => s
  | ThrownUndefined => "undefined"
  | ThrownNull => "null"
  end.

(** [error.message] where it can be read: [undefined] on a string.  On
    [undefined] and [null] the read itself throws, see [read_message]. *)
Definition js_message (e : Thrown) : option string :=
  match e with
  | ErrorObj _ m => Some m
  | _ => None
  end.

(** The values no property can be read from, as they print. *)
Definition nullish (e : Thrown) : option string :=
  match e with
  | ThrownUndefined => Some "undefined"
  | ThrownNull => Some "null"
  | _ => None
  end.

(** The [TypeError] of [error.message] when [error] is [undefined] or
    [null]. *)
Definition message_TypeError (what : string) : Thrown :=
  ErrorObj "TypeError"
    ("Cannot read properties of " +:+ what +:+ " (reading 'message')").

(** [error.message || String(error)], and the interpolation
    [`${error.message || error}`]: the empty string is falsy. *)
Definition message_or_String (e : Thrown) : string :=
  match js_message e with
  | Some m => if String.eqb m "" then js_String e else m
  | None => js_String e
  end.

(** Evaluating [error.message]. *)
Definition read_message (e : Thrown) : Result (option string) :=
  match nullish e with
  | Some what => Raise (message_TypeError what)
  | None => Ok (js_message e)
  end.

(** Evaluating [error.message || String(error)] or
    [`${error.message || error}`]: the read of [message] comes first. *)
Definition message_or (e : Thrown) : Result string :=
  match nullish e with
  | Some what => Raise (message_TypeError what)
  | None => Ok (message_or_String e)
  end.

(** The [TypeError] of [const { path: codebasePath, ... } = args] when
    [args] is [undefined] or [null]. *)
Definition destructure_TypeError (what : string) : Thrown :=
  ErrorObj "TypeError"
    ("Cannot destructure property 'path' of 'args' as it is " +:+ what +:+ ".").

(** ** Arguments and responses *)

(** The fields [handleIndexCodebase] reads from its argument object; a
    field that is absent is [None]. *)
Record IndexArgs : Type := mkIndexArgs {
  arg_path : option string;
  arg_force : option bool;
  arg_splitter : option string;
  arg_customExtensions : option (list string);
  arg_ignorePatterns : option (list string)
}.

(** [args: any]: an object, or no object at all. *)
Inductive JsArgs : Type :=
  | ArgsUndefined
  | ArgsNull
  | ArgsObject (a : IndexArgs).

(** [{ content: [{ type: "text", text }], isError }]; an absent
    [isError] is [false]. *)
Record Response : Type := mkResponse {
  text : string;
  isError : bool
}.

Definition errorResponse (t : string) : Response := mkResponse t true.
Definition textResponse (t : string) : Response := mkResponse t false.

(** ** Data of the collaborators *)

(** A row of [vectorDb.query(name, '', ['metadata'], 1)]. *)
Record Row : Type := mkRow { metadata : option string }.

Inductive IndexStatus : Type := completed | limit_reached.

(** The value [context.indexCodebase] resolves with. *)
Record Stats : Type := mkStats {
  indexedFiles : Z;
  totalChunks : Z;
  status : IndexStatus
}.

(** One call of the progress callback; [at_time] is what [Date.now()]
    answers inside that call. *)
Record Progress : Type := mkProgress {
  phase : string;
  percentage : Z;
  at_time : Z
}.

(** The calls [startBackgroundIndexing] makes on the core before it
    indexes, in source order; only whether they throw matters here. *)
Inductive PrepStep : Type :=
  | getLoadedIgnorePatterns
  | importFileSynchronizer
  | getIgnorePatterns
  | synchronizer_initialize
  | getPreparedCollection
  | getCollectionName
  | setSynchronizer
  | getEmbedding.

Definition prepSteps : list PrepStep :=
  [ getLoadedIgnorePatterns; importFileSynchronizer; getIgnorePatterns;
    synchronizer_initialize; getPreparedCollection; getCollectionName;
    setSynchronizer; getEmbedding ].

(** The arguments of one detached [startBackgroundIndexing] call. *)
Record Task : Type := mkTask {
  task_path : string;
  task_force : bool;
  task_splitter : string
}.

(** ** The snapshot *)

(** Modelled from the spec: [snapshot.ts] is not among the sources.  The
    spec's IndexRecord, one constructor per stored status; a path without
    a record is [not_found].  [indexStatus] is the [status] of the stats
    handed to [setCodebaseIndexed], which [handleGetIndexingStatus] reads
    back. *)
Inductive IndexRecord : Type :=
  | RecIndexing (indexingPercentage : Z) (lastUpdated : Z)
  | RecIndexed (files chunks : Z) (indexStatus : IndexStatus) (lastUpdated : Z)
  | RecIndexFailed (errorMessage : string)
      (lastAttemptedPercentage : option Z) (lastUpdated : Z).

Inductive CodebaseStatus : Type :=
  | st_indexed | st_indexing | st_indexfailed | st_not_found.

Abbreviation Snapshot := (gmap string IndexRecord).

Definition isIndexed (r : IndexRecord) : bool :=
  match r with RecIndexed _ _ _ _ => true | _ => false end.

Definition isIndexing (r : IndexRecord) : bool :=
  match r with RecIndexing _ _ => true | _ => false end.

Module SnapshotManager.

(** Modelled from the spec: the paths whose record is [indexed]. *)
Definition getIndexedCodebases (s : Snapshot) : list string :=
  (filter (fun kv => isIndexed kv.2 = true) (map_to_list s)).*1.

(** Modelled from the spec: the paths whose record is [indexing]. *)
Definition getIndexingCodebases (s : Snapshot) : list string :=
  (filter (fun kv => isIndexing kv.2 = true) (map_to_list s)).*1.

(** Modelled from the spec: the status of a path, [not_found] when it
    has no record. *)
Definition getCodebaseStatus (p : string) (s : Snapshot) : CodebaseStatus :=
  match s !! p with
  | Some (RecIndexed _ _ _ _) => st_indexed
  | Some (RecIndexing _ _) => st_indexing
  | Some (RecIndexFailed _ _ _) => st_indexfailed
  | None => st_not_found
  end.

(** Modelled from the spec: the record of a path. *)
Definition getCodebaseInfo (p : string) (s : Snapshot) : option IndexRecord :=
  s !! p.

(** Modelled from the spec: the percentage of a path that is
    [indexing], [undefined] otherwise. *)
Definition getIndexingProgress (p : string) (s : Snapshot) : option Z :=
  match s !! p with
  | Some (RecIndexing pct _) => Some pct
  | _ => None
  end.

(** Modelled from the spec: removal of the local record. *)
Definition removeIndexedCodebase (p : string) (s : Snapshot) : Snapshot :=
  delete p s.

(** Modelled from the spec: an explicit clear removes the record
    entirely. *)
Definition removeCodebaseCompletely (p : string) (s : Snapshot) : Snapshot :=
  delete p s.

(** Modelled from the spec: the record becomes [indexing] at the given
    percentage. *)
Definition setCodebaseIndexing (p : string) (pct now : Z) (s : Snapshot)
  : Snapshot :=
  <[p := RecIndexing pct now]> s.

(** Modelled from the spec: the record becomes [indexed] with the
    statistics of the run. *)
Definition setCodebaseIndexed (p : string) (st : Stats) (now : Z)
    (s : Snapshot) : Snapshot :=
  <[p := RecIndexed (indexedFiles st) (totalChunks st) (status st) now]> s.

(** Modelled from the spec: the record becomes [indexfailed] with the
    message and the last attempted percentage. *)
Definition setCodebaseIndexFailed (p : string) (msg : string)
    (last : option Z) (now : Z) (s : Snapshot) : Snapshot :=
  <[p := RecIndexFailed msg last now]> s.

End SnapshotManager.

(** ** Events *)

(** What a computation did, in order: every call on a collaborator with
    its outcome, every mutation and save of the snapshot, every task
    launched, and the console lines that are kept. *)
Inductive Event : Type :=
  | EvListCollections (r : Result (list string))
  | EvQuery (collection : string) (r : Result (list Row))
  | EvHasIndex (p : string) (r : Result bool)
  | EvClearIndex (p : string) (r : Result unit)
  | EvCheckCollectionLimit (r : Result bool)
  | EvAddCustomExtensions (exts : list string) (r : Result unit)
  | EvAddCustomIgnorePatterns (pats : list string) (r : Result unit)
  | EvTrackCodebasePath (p : string) (r : Result unit)
  | EvPrepare (step : PrepStep) (p : string) (r : Result unit)
  | EvIndexCodebase (p : string)
  | EvIndexCodebaseSettled (p : string) (r : Result Stats)
  | EvRemoveIndexedCodebase (p : string)
  | EvRemoveCodebaseCompletely (p : string)
  | EvSetCodebaseIndexing (p : string) (pct : Z)
  | EvSetCodebaseIndexed (p : string) (st : Stats)
  | EvSetCodebaseIndexFailed (p : string) (msg : string) (last : option Z)
  | EvSaveCodebaseSnapshot
  | EvStartBackgroundIndexing (t : Task)
  | EvConsole (line : string).

(** Equality of all of these is decidable. *)
#[global] Instance Thrown_eq_dec : EqDecision Thrown.
Proof. solve_decision. Defined.
#[global] Instance Result_eq_dec {A} `{EqDecision A} : EqDecision (Result A).
Proof. solve_decision. Defined.
#[global] Instance Row_eq_dec : EqDecision Row.
Proof. solve_decision. Defined.
#[global] Instance IndexStatus_eq_dec : EqDecision IndexStatus.
Proof. solve_decision. Defined.
#[global] Instance Stats_eq_dec : EqDecision Stats.
Proof. solve_decision. Defined.
#[global] Instance PrepStep_eq_dec : EqDecision PrepStep.
Proof. solve_decision. Defined.
#[global] Instance Task_eq_dec : EqDecision Task.
Proof. solve_decision. Defined.
#[global] Instance IndexRecord_eq_dec : EqDecision IndexRecord.
Proof. solve_decision. Defined.
#[global] Instance Event_eq_dec : EqDecision Event.
Proof. solve_decision. Defined.

(** ** The collaborators *)

(** Everything outside the handlers, over a state [R] of the outside
    world.  A call takes that state and gives its outcome and the next
    state, so that a collaborator may answer differently each time.
    [ensureAbsolutePath] and [trackCodebasePath] are the helpers of
    [utils.ts]; [COLLECTION_LIMIT_MESSAGE] is the constant of the core;
    [JSON_parse_codebasePath s] is [JSON.parse(s).codebasePath] when that
    is a string, [None] when it is anything else, and a [Raise] when any
    of the two steps throws.  The calls that are awaited may reject with
    any [Thrown]; the synchronous helpers [ensureAbsolutePath],
    [fs.statSync] and [trackCodebasePath] throw errors or strings, never
    [undefined] or [null]. *)
Class Env (R : Type) : Type := {
  COLLECTION_LIMIT_MESSAGE : string;
  ensureAbsolutePath : option string -> Result string;
  JSON_parse_codebasePath : string -> Result (option string);
  fs_existsSync : string -> R -> bool;
  fs_statSync_isDirectory : string -> R -> Result bool;
  Date_now : R -> Z;
  vectorDb_listCollections : R -> Result (list string) * R;
  vectorDb_query : string -> R -> Result (list Row) * R;
  vectorDb_checkCollectionLimit : R -> Result bool * R;
  context_hasIndex : string -> R -> Result bool * R;
  context_clearIndex : string -> R -> Result unit * R;
  context_addCustomExtensions : list string -> R -> Result unit * R;
  context_addCustomIgnorePatterns : list string -> R -> Result unit * R;
  trackCodebasePath : string -> R -> Result unit * R;
  context_prepare : PrepStep -> string -> R -> Result unit * R;
  context_indexCodebase : string -> R -> list Progress * Result Stats * R;
  ensureAbsolutePath_throws :
    forall p e, ensureAbsolutePath p = Raise e -> nullish e = None;
  fs_statSync_throws :
    forall p r e, fs_statSync_isDirectory p r = Raise e -> nullish e = None;
  trackCodebasePath_throws :
    forall p r e r', trackCodebasePath p r = (Raise e, r') -> nullish e = None
}.

(** ** The state of a run *)

(** [snapshot] is what the [SnapshotManager] holds in memory, [persisted]
    what [saveCodebaseSnapshot] last wrote, [indexingStats] the private
    field of [ToolHandlers], [remote] the outside world, and [pending]
    the [startBackgroundIndexing] calls that were launched and not
    awaited, oldest first. *)
Record World (R : Type) : Type := mkWorld {
  snapshot : Snapshot;
  persisted : Snapshot;
  indexingStats : option (Z * Z);
  remote : R;
  pending : list Task
}.
Arguments mkWorld {R} _ _ _ _ _.
Arguments snapshot {R} _.
Arguments persisted {R} _.
Arguments indexingStats {R} _.
Arguments remote {R} _.
Arguments pending {R} _.

(** ** The monad of the handlers *)

Definition M (R A : Type) : Type :=
  World R -> Result A * World R * list Event.

Definition ret {R A} (a : A) : M R A := fun w => (Ok a, w, []).

Definition throw {R A} (e : Thrown) : M R A := fun w => (Raise e, w, []).

Definition bind {R A B} (m : M R A) (k : A -> M R B) : M R B :=
  fun w =>
    match m w with
    | (Ok a, w1, ev1) =>
        match k a w1 with
        | (r, w2, ev2) => (r, w2, ev1 ++ ev2)
        end
    | (Raise e, w1, ev1) => (Raise e, w1, ev1)
    end.

(** [try { m } catch (e) { h e }]: what [m] did before it threw stays
    done. *)
Definition try_catch {R A} (m : M R A) (h : Thrown -> M R A) : M R A :=
  fun w =>
    match m w with
    | (Ok a, w1, ev1) => (Ok a, w1, ev1)
    | (Raise e, w1, ev1) =>
        match h e w1 with
        | (r, w2, ev2) => (r, w2, ev1 ++ ev2)
        end
    end.

(** The outcome of [m] as a value, for a [try] whose [catch] returns. *)
Definition attempt {R A} (m : M R A) : M R (Result A) :=
  fun w =>
    match m w with
    | (r, w1, ev1) => (Ok r, w1, ev1)
    end.

Declare Scope handler_scope.
Delimit Scope handler_scope with handler.
Notation "x <- c1 ;; c2" := (bind c1 (fun x => c2))
  (at level 100, c1 at next level, right associativity) : handler_scope.
Notation "c1 ;; c2" := (bind c1 (fun _ => c2))
  (at level 100, right associativity) : handler_scope.
Local Open Scope handler_scope.

Definition lift {R A} (r : Result A) : M R A :=
  match r with Ok a => ret a | Raise e => throw e end.

Definition emit {R} (e : Event) : M R unit := fun w => (Ok tt, w, [e]).

(** A call on a collaborator: the outside world moves on, the call is
    recorded with its outcome, and a rejection is thrown at the [await]. *)
Definition external {R X} (call : R -> Result X * R) (ev : Result X -> Event)
  : M R X :=
  fun w =>
    match call (remote w) with
    | (r, r') =>
        (r, mkWorld (snapshot w) (persisted w) (indexingStats w) r' (pending w),
         [ev r])
    end.

(** A synchronous read of the outside world. *)
Definition reads {R X} (f : R -> X) : M R X := fun w => (Ok (f (remote w)), w, []).

(** A synchronous call on the outside world that may throw. *)
Definition readsResult {R X} (f : R -> Result X) : M R X :=
  fun w => lift (f (remote w)) w.

Definition gets {R X} (f : Snapshot -> X) : M R X :=
  fun w => (Ok (f (snapshot w)), w, []).

Definition mutate {R} (f : Snapshot -> Snapshot) (ev : Event) : M R unit :=
  fun w =>
    (Ok tt,
     mkWorld (f (snapshot w)) (persisted w) (indexingStats w) (remote w)
       (pending w),
     [ev]).

(** Modelled from the spec: [saveCodebaseSnapshot] writes the in-memory
    snapshot to the snapshot file. *)
Definition saveCodebaseSnapshot {R} : M R unit :=
  fun w =>
    (Ok tt,
     mkWorld (snapshot w) (snapshot w) (indexingStats w) (remote w) (pending w),
     [EvSaveCodebaseSnapshot]).

Definition setIndexingStats {R} (v : option (Z * Z)) : M R unit :=
  fun w =>
    (Ok tt, mkWorld (snapshot w) (persisted w) v (remote w) (pending w), []).

(** A call of an [async] method that is not awaited: it is queued.  (What
    [startBackgroundIndexing] does before its first [await] is console
    output only.) *)
Definition spawn {R} (t : Task) : M R unit :=
  fun w =>
    (Ok tt,
     mkWorld (snapshot w) (persisted w) (indexingStats w) (remote w)
       (pending w ++ [t]),
     [EvStartBackgroundIndexing t]).

(** [for (const x of l) { body }] *)
Fixpoint forEach {R A} (l : list A) (body : A -> M R unit) : M R unit :=
  match l with
  | [] => ret tt
  | x :: l' => body x ;; forEach l' body
  end.

(** The three components of a run. *)
Definition result {R A} (m : M R A) (w : World R) : Result A := (m w).1.1.
Definition after {R A} (m : M R A) (w : World R) : World R := (m w).1.2.
Definition events {R A} (m : M R A) (w : World R) : list Event := (m w).2.

(** A loop that carries a local variable. *)
Fixpoint foldM {R A S} (body : S -> A -> M R S) (s : S) (l : list A) : M R S :=
  match l with
  | [] => ret s
  | x :: l' => s' <- body s x ;; foldM body s' l'
  end.

(** ** Strings *)

Definition nl : string := String (Ascii.ascii_of_nat 10) EmptyString.

Definition includes (p : string) (l : list string) : bool :=
  bool_decide (p ∈ l).

Definition startsWith (s pre : string) : bool := String.prefix pre s.

Definition upcase_ascii (c : Ascii.ascii) : Ascii.ascii :=
  let n := Ascii.nat_of_ascii c in
  if (Nat.leb 97 n && Nat.leb n 122)%bool
  then Ascii.ascii_of_nat (n - 32) else c.

Fixpoint toUpperCase (s : string) : string :=
  match s with
  | EmptyString => EmptyString
  | String c s' => String (upcase_ascii c) (toUpperCase s')
  end.

Definition join (sep : string) (l : list string) : string := String.concat sep l.

(** [`${v}`] of a value that may be [undefined]. *)
Definition show_opt (o : option string) : string := default "undefined" o.

(** [s.includes(t)] *)
Fixpoint str_includes (t s : string) : bool :=
  (String.prefix t s
   || match s with
      | EmptyString => false
      | String _ s' => str_includes t s'
      end)%bool.

(** ** The handlers *)

Module ToolHandlers.
Import SnapshotManager.

Section Handlers.
Context {R : Type} `{Env R}.

Definition removeIndexedCodebase_ (p : string) : M R unit :=
  mutate (removeIndexedCodebase p) (EvRemoveIndexedCodebase p).

Definition setCodebaseIndexing_ (p : string) (pct now : Z) : M R unit :=
  mutate (setCodebaseIndexing p pct now) (EvSetCodebaseIndexing p pct).

(** The body of [for (const collectionName of collections)]: the
    collection adds the path of its first document to
    [cloudCodebases], or adds nothing.  Its [catch] logs
    [collectionError.message || collectionError]. *)
Definition checkCollection (cloudCodebases : gset string)
    (collectionName : string) : M R (gset string) :=
  try_catch
    (if (negb (startsWith collectionName "code_chunks_")
         && negb (startsWith collectionName "hybrid_code_chunks_"))%bool
     then ret cloudCodebases
     else
       results <- external (vectorDb_query collectionName)
                    (EvQuery collectionName) ;;
       match results with
       | firstResult :: _ =>
           match metadata firstResult with
           | Some metadataStr =>
               if String.eqb metadataStr "" then ret cloudCodebases
               else
                 match JSON_parse_codebasePath metadataStr with
                 | Ok (Some codebasePath) =>
                     if String.eqb codebasePath "" then ret cloudCodebases
                     else ret ({[codebasePath]} ∪ cloudCodebases)
                 | Ok None => ret cloudCodebases
                 | Raise parseError => ret cloudCodebases
                 end
           | None => ret cloudCodebases
           end
       | [] => ret cloudCodebases
       end)
    (fun collectionError =>
       _ <- lift (message_or collectionError) ;; ret cloudCodebases).

(** The body of [for (const localCodebase of localCodebases)]; the
    carried value is [hasChanges]. *)
Definition pruneLocal (cloudCodebases : gset string) (hasChanges : bool)
    (localCodebase : string) : M R bool :=
  if bool_decide (localCodebase ∈ cloudCodebases) then ret hasChanges
  else removeIndexedCodebase_ localCodebase ;; ret true.

Definition syncIndexedCodebasesFromCloud : M R unit :=
  try_catch
    (collections <- external vectorDb_listCollections EvListCollections ;;
     if Nat.eqb (length collections) 0 then
       localCodebases <- gets getIndexedCodebases ;;
       if Nat.ltb 0 (length localCodebases) then
         forEach localCodebases removeIndexedCodebase_ ;;
         saveCodebaseSnapshot
       else ret tt
     else
       cloudCodebases <- foldM checkCollection ∅ collections ;;
       localCodebases <- gets (fun s => remove_dups (getIndexedCodebases s)) ;;
       hasChanges <- foldM (pruneLocal cloudCodebases) false localCodebases ;;
       if hasChanges then saveCodebaseSnapshot else ret tt)
    (fun error => _ <- lift (message_or error) ;; ret tt).

(** The text of the acknowledgement of [handleIndexCodebase]. *)
Definition startedText (codebasePath : option string)
    (absolutePath splitterType : string)
    (customFileExtensions customIgnorePatterns : list string) : string :=
  let pathInfo :=
    if bool_decide (codebasePath = Some absolutePath) then ""
    else nl +:+ "Note: Input path '" +:+ show_opt codebasePath
         +:+ "' was resolved to absolute path '" +:+ absolutePath +:+ "'" in
  let extensionInfo :=
    if Nat.ltb 0 (length customFileExtensions)
    then nl +:+ "Using " +:+ pretty (length customFileExtensions)
         +:+ " custom extensions: " +:+ join ", " customFileExtensions
    else "" in
  let ignoreInfo :=
    if Nat.ltb 0 (length customIgnorePatterns)
    then nl +:+ "Using " +:+ pretty (length customIgnorePatterns)
         +:+ " custom ignore patterns: " +:+ join ", " customIgnorePatterns
    else "" in
  "Started background indexing for codebase '" +:+ absolutePath
  +:+ "' using " +:+ toUpperCase splitterType +:+ " splitter." +:+ pathInfo
  +:+ extensionInfo +:+ ignoreInfo +:+ nl +:+ nl
  +:+ "Indexing is running in the background. You can search the codebase while indexing is in progress, but results may be incomplete until indexing completes.".

(** [splitter || 'ast'] *)
Definition splitterTypeOf (a : IndexArgs) : string :=
  match arg_splitter a with
  | Some s => if String.eqb s "" then "ast" else s
  | None => "ast"
  end.

Definition invalidSplitterText (splitterType : string) : string :=
  "Error: Invalid splitter type '" +:+ splitterType
  +:+ "'. Must be 'ast' or 'langchain'.".

Definition alreadyIndexingText (absolutePath : string) : string :=
  "Codebase '" +:+ absolutePath
  +:+ "' is already being indexed in the background. Please wait for completion.".

(** [handleIndexCodebase] once [args] has been destructured. *)
Definition handleIndexCodebase_object (a : IndexArgs) : M R Response :=
  let codebasePath := arg_path a in
  let forceReindex := default false (arg_force a) in
  let splitterType := splitterTypeOf a in
  let customFileExtensions := default [] (arg_customExtensions a) in
  let customIgnorePatterns := default [] (arg_ignorePatterns a) in
  try_catch
    (syncIndexedCodebasesFromCloud ;;
     if (negb (String.eqb splitterType "ast")
         && negb (String.eqb splitterType "langchain"))%bool
     then ret (errorResponse (invalidSplitterText splitterType))
     else
     absolutePath <- lift (ensureAbsolutePath codebasePath) ;;
     pathExists <- reads (fs_existsSync absolutePath) ;;
     if negb pathExists
     then ret (errorResponse ("Error: Path '" +:+ absolutePath
                              +:+ "' does not exist. Original input: '"
                              +:+ show_opt codebasePath +:+ "'"))
     else
     isDirectory <- readsResult (fs_statSync_isDirectory absolutePath) ;;
     if negb isDirectory
     then ret (errorResponse ("Error: Path '" +:+ absolutePath
                              +:+ "' is not a directory"))
     else
     indexing <- gets getIndexingCodebases ;;
     if includes absolutePath indexing
     then ret (errorResponse (alreadyIndexingText absolutePath))
     else
     (* snapshot against cloud index: a mismatch is only logged *)
     _ <- gets getIndexedCodebases ;;
     _ <- external (context_hasIndex absolutePath) (EvHasIndex absolutePath) ;;
     indexed <- gets getIndexedCodebases ;;
     if (negb forceReindex && includes absolutePath indexed)%bool
     then ret (errorResponse ("Codebase '" +:+ absolutePath
                              +:+ "' is already indexed. Use force=true to re-index."))
     else
     (if forceReindex then
        indexed' <- gets getIndexedCodebases ;;
        (if includes absolutePath indexed'
         then removeIndexedCodebase_ absolutePath else ret tt) ;;
        hasRemote <- external (context_hasIndex absolutePath)
                       (EvHasIndex absolutePath) ;;
        if hasRemote
        then external (context_clearIndex absolutePath)
               (EvClearIndex absolutePath)
        else ret tt
      else ret tt) ;;
     canCreateCollection <-
       attempt (external vectorDb_checkCollectionLimit EvCheckCollectionLimit) ;;
     match canCreateCollection with
     | Raise validationError =>
         validationMessage <- lift (message_or validationError) ;;
         ret (errorResponse ("Error validating collection creation: "
                             +:+ validationMessage))
     | Ok false => ret (errorResponse COLLECTION_LIMIT_MESSAGE)
     | Ok true =>
         (if Nat.ltb 0 (length customFileExtensions)
          then external (context_addCustomExtensions customFileExtensions)
                 (EvAddCustomExtensions customFileExtensions)
          else ret tt) ;;
         (if Nat.ltb 0 (length customIgnorePatterns)
          then external (context_addCustomIgnorePatterns customIgnorePatterns)
                 (EvAddCustomIgnorePatterns customIgnorePatterns)
          else ret tt) ;;
         (* a retry after [indexfailed] is only logged *)
         now <- reads Date_now ;;
         setCodebaseIndexing_ absolutePath 0 now ;;
         saveCodebaseSnapshot ;;
         external (trackCodebasePath absolutePath)
           (EvTrackCodebasePath absolutePath) ;;
         spawn (mkTask absolutePath forceReindex splitterType) ;;
         ret (textResponse (startedText codebasePath absolutePath splitterType
                              customFileExtensions customIgnorePatterns))
     end)
    (fun error =>
       errorMessage <- lift (message_or error) ;;
       ret (errorResponse ("Error starting indexing: " +:+ errorMessage))).

(** [handleIndexCodebase(args: any)]: the destructuring of [args] is the
    first statement of the method, above its [try]. *)
Definition handleIndexCodebase (args : JsArgs) : M R Response :=
  match args with
  | ArgsUndefined => throw (destructure_TypeError "undefined")
  | ArgsNull => throw (destructure_TypeError "null")
  | ArgsObject a => handleIndexCodebase_object a
  end.


(** The progress callback handed to [indexCodebase]; the carried value
    is [lastSaveTime]. *)
Definition onProgress (absolutePath : string) (lastSaveTime : Z)
    (progress : Progress) : M R Z :=
  setCodebaseIndexing_ absolutePath (percentage progress) (at_time progress) ;;
  let currentTime := at_time progress in
  if Z.leb 2000 (currentTime - lastSaveTime)
  then saveCodebaseSnapshot ;; ret currentTime
  else ret lastSaveTime.

(** [await contextForThisTask.indexCodebase(absolutePath, callback)]
    with [contextForThisTask = this.context]: the core calls the
    callback some number of times and then settles. *)
Definition indexCodebase_ (absolutePath : string) (lastSaveTime : Z)
  : M R Stats :=
  emit (EvIndexCodebase absolutePath) ;;
  run <- reads (context_indexCodebase absolutePath) ;;
  _ <- foldM (onProgress absolutePath) lastSaveTime run.1.1 ;;
  external (fun _ => (run.1.2, run.2)) (EvIndexCodebaseSettled absolutePath).

Definition fallbackWarning (splitterType : string) : string :=
  "[BACKGROUND-INDEX] Non-AST splitter '" +:+ splitterType
  +:+ "' requested; falling back to AST splitter".

Definition limitWarning : string :=
  nl +:+ "⚠️  Warning: Indexing stopped because the chunk limit (450,000) was reached. The index may be incomplete.".

Definition completedMessage (absolutePath splitterType : string)
    (stats : Stats) : string :=
  let message :=
    "Background indexing completed for '" +:+ absolutePath +:+ "' using "
    +:+ toUpperCase splitterType +:+ " splitter." +:+ nl +:+ "Indexed "
    +:+ pretty (indexedFiles stats) +:+ " files, "
    +:+ pretty (totalChunks stats) +:+ " chunks." in
  match status stats with
  | limit_reached => message +:+ limitWarning
  | completed => message
  end.

(** The [try] block of [startBackgroundIndexing]. *)
Definition startBackgroundIndexing_try (absolutePath : string)
    (forceReindex : bool) (splitterType : string) (lastSaveTime : Z)
  : M R unit :=
  (if negb (String.eqb splitterType "ast")
   then emit (EvConsole (fallbackWarning splitterType))
   else ret tt) ;;
  forEach prepSteps
    (fun step => external (context_prepare step absolutePath)
                   (EvPrepare step absolutePath)) ;;
  stats <- indexCodebase_ absolutePath lastSaveTime ;;
  now <- reads Date_now ;;
  mutate (setCodebaseIndexed absolutePath stats now)
    (EvSetCodebaseIndexed absolutePath stats) ;;
  setIndexingStats (Some (indexedFiles stats, totalChunks stats)) ;;
  saveCodebaseSnapshot ;;
  emit (EvConsole ("[BACKGROUND-INDEX] "
                   +:+ completedMessage absolutePath splitterType stats)).

(** Its [catch] block. *)
Definition startBackgroundIndexing_catch (absolutePath : string)
    (error : Thrown) : M R unit :=
  lastProgress <- gets (getIndexingProgress absolutePath) ;;
  errorMessage <- lift (message_or error) ;;
  now <- reads Date_now ;;
  mutate (setCodebaseIndexFailed absolutePath errorMessage lastProgress now)
    (EvSetCodebaseIndexFailed absolutePath errorMessage lastProgress) ;;
  saveCodebaseSnapshot ;;
  emit (EvConsole ("[BACKGROUND-INDEX] Indexing failed for "
                   +:+ absolutePath +:+ ": " +:+ errorMessage)).

Definition startBackgroundIndexing (codebasePath : string)
    (forceReindex : bool) (splitterType : string) : M R unit :=
  let absolutePath := codebasePath in
  let lastSaveTime := 0 in
  try_catch
    (startBackgroundIndexing_try absolutePath forceReindex splitterType
       lastSaveTime)
    (startBackgroundIndexing_catch absolutePath).

(** The event loop resumes the oldest detached call and runs it to its
    end. *)
Definition runNextTask : M R unit :=
  fun w =>
    match pending w with
    | [] => (Ok tt, w, [])
    | t :: rest =>
        startBackgroundIndexing (task_path t) (task_force t) (task_splitter t)
          (mkWorld (snapshot w) (persisted w) (indexingStats w) (remote w) rest)
    end.

(** [typeof error === 'string' ? error
     : (error instanceof Error ? error.message : String(error))] *)
Definition caughtMessage (e : Thrown) : string :=
  match e with
  | ThrownString s => s
  | ErrorObj _ m => m
  | ThrownUndefined => "undefined"
  | ThrownNull => "null"
  end.

(** [handleClearIndex] once [args] has been destructured. *)
Definition handleClearIndex_object (a : IndexArgs) : M R Response :=
  let codebasePath := arg_path a in
  indexed0 <- gets getIndexedCodebases ;;
  indexing0 <- gets getIndexingCodebases ;;
  if (Nat.eqb (length indexed0) 0 && Nat.eqb (length indexing0) 0)%bool
  then ret (textResponse "No codebases are currently indexed or being indexed.")
  else
  try_catch
    (absolutePath <- lift (ensureAbsolutePath codebasePath) ;;
     pathExists <- reads (fs_existsSync absolutePath) ;;
     if negb pathExists
     then ret (errorResponse ("Error: Path '" +:+ absolutePath
                              +:+ "' does not exist. Original input: '"
                              +:+ show_opt codebasePath +:+ "'"))
     else
     isDirectory <- readsResult (fs_statSync_isDirectory absolutePath) ;;
     if negb isDirectory
     then ret (errorResponse ("Error: Path '" +:+ absolutePath
                              +:+ "' is not a directory"))
     else
     indexed <- gets getIndexedCodebases ;;
     indexing <- gets getIndexingCodebases ;;
     if (negb (includes absolutePath indexed)
         && negb (includes absolutePath indexing))%bool
     then ret (errorResponse ("Error: Codebase '" +:+ absolutePath
                              +:+ "' is not indexed or being indexed."))
     else
     cleared <- attempt (external (context_clearIndex absolutePath)
                           (EvClearIndex absolutePath)) ;;
     match cleared with
     | Raise error =>
         errorMessage <- lift (read_message error) ;;
         ret (errorResponse ("Failed to clear " +:+ absolutePath +:+ ": "
                             +:+ show_opt errorMessage))
     | Ok _ =>
         mutate (removeCodebaseCompletely absolutePath)
           (EvRemoveCodebaseCompletely absolutePath) ;;
         setIndexingStats None ;;
         saveCodebaseSnapshot ;;
         remainingIndexed <- gets (fun s => length (getIndexedCodebases s)) ;;
         remainingIndexing <- gets (fun s => length (getIndexingCodebases s)) ;;
         let resultText := "Successfully cleared codebase '" +:+ absolutePath +:+ "'" in
         if (Nat.ltb 0 remainingIndexed || Nat.ltb 0 remainingIndexing)%bool
         then ret (textResponse
                     (resultText +:+ nl +:+ pretty remainingIndexed
                      +:+ " other indexed codebase(s) and "
                      +:+ pretty remainingIndexing
                      +:+ " indexing codebase(s) remain"))
         else ret (textResponse resultText)
     end)
    (fun error =>
       let errorMessage := caughtMessage error in
       if (String.eqb errorMessage COLLECTION_LIMIT_MESSAGE
           || str_includes COLLECTION_LIMIT_MESSAGE errorMessage)%bool
       then ret (textResponse COLLECTION_LIMIT_MESSAGE)
       else ret (errorResponse ("Error clearing index: " +:+ errorMessage))).

Definition handleClearIndex (args : JsArgs) : M R Response :=
  match args with
  | ArgsUndefined => throw (destructure_TypeError "undefined")
  | ArgsNull => throw (destructure_TypeError "null")
  | ArgsObject a => handleClearIndex_object a
  end.

End Handlers.
End ToolHandlers.

(** ** A scripted outside world

    A small implementation of [Env], used to run the handlers on concrete
    inputs: the file system, the collections and the answers of the core
    are tables. *)
Module Scripted.

Record Cloud : Type := mkCloud {
  directories : list string;
  files : list string;
  clock : Z;
  collections : Result (list string);
  rows : list (string * Result (list Row));
  remoteIndexes : list string;
  canCreateCollection : Result bool;
  indexingRun : list Progress * Result Stats
}.

(** Paths are taken as absolute; a missing path is the [TypeError] of
    [path.isAbsolute(undefined)]. *)
Definition absoluteOrThrow (p : option string) : Result string :=
  match p with
  | Some s => Ok s
  | None =>
      Raise (ErrorObj "TypeError"
               "The 'path' argument must be of type string. Received undefined")
  end.

(** Metadata is written [codebasePath=<path>]; anything else does not
    parse. *)
Definition parseCodebasePath (s : string) : Result (option string) :=
  if String.prefix "codebasePath=" s
  then Ok (Some (String.substring 13 (String.length s - 13) s))
  else Raise (ErrorObj "SyntaxError" "Unexpected token in JSON").

Definition existsSync (p : string) (c : Cloud) : bool :=
  (includes p (directories c) || includes p (files c))%bool.

Definition statSync_isDirectory (p : string) (c : Cloud) : Result bool :=
  if includes p (directories c) then Ok true
  else if includes p (files c) then Ok false
  else Raise (ErrorObj "Error" "ENOENT: no such file or directory").

Definition query (name : string) (c : Cloud) : Result (list Row) * Cloud :=
  (default (Ok []) (snd <$> List.find (fun kv => String.eqb (fst kv) name) (rows c)), c).

Definition clearIndex (p : string) (c : Cloud) : Result unit * Cloud :=
  (Ok tt,
   mkCloud (directories c) (files c) (clock c) (collections c) (rows c)
     (List.filter (fun q => negb (String.eqb q p)) (remoteIndexes c))
     (canCreateCollection c) (indexingRun c)).

Definition absoluteOrThrow_throws (p : option string) (e : Thrown) :
  absoluteOrThrow p = Raise e -> nullish e = None.
Proof. destruct p; intros Hp; [discriminate Hp|]. by injection Hp as <-. Defined.

Definition statSync_throws (p : string) (c : Cloud) (e : Thrown) :
  statSync_isDirectory p c = Raise e -> nullish e = None.
Proof.
  unfold statSync_isDirectory.
  destruct (includes p (directories c)); [discriminate|].
  destruct (includes p (files c)); [discriminate|].
  intros Hp. by injection Hp as <-.
Defined.

#[export] Instance env : Env Cloud := {|
  COLLECTION_LIMIT_MESSAGE :=
    "[Error]: Your Zilliz Cloud account has hit its collection limit.";
  ensureAbsolutePath := absoluteOrThrow;
  JSON_parse_codebasePath := parseCodebasePath;
  fs_existsSync := existsSync;
  fs_statSync_isDirectory := statSync_isDirectory;
  Date_now := clock;
  vectorDb_listCollections := fun c => (collections c, c);
  vectorDb_query := query;
  vectorDb_checkCollectionLimit := fun c => (canCreateCollection c, c);
  context_hasIndex := fun p c => (Ok (includes p (remoteIndexes c)), c);
  context_clearIndex := clearIndex;
  context_addCustomExtensions := fun _ c => (Ok tt, c);
  context_addCustomIgnorePatterns := fun _ c => (Ok tt, c);
  trackCodebasePath := fun _ c => (Ok tt, c);
  context_prepare := fun _ _ c => (Ok tt, c);
  context_indexCodebase := fun _ c => (indexingRun c, c);
  ensureAbsolutePath_throws := absoluteOrThrow_throws;
  fs_statSync_throws := statSync_throws;
  trackCodebasePath_throws := fun _ _ _ _ Hp => ltac:(discriminate Hp)
|}.

(** One repository, [/repo], whose collection exists remotely. *)
Definition repoCloud : Cloud :=
  mkCloud ["/repo"] [] 1000
    (Ok ["code_chunks_ab12"])
    [("code_chunks_ab12", Ok [mkRow (Some "codebasePath=/repo")])]
    ["/repo"]
    (Ok true)
    ([mkProgress "Processing files" 37 5000],
     Ok (mkStats 42 310 completed)).

Definition withLimit (v : Result bool) (c : Cloud) : Cloud :=
  mkCloud (directories c) (files c) (clock c) (collections c) (rows c)
    (remoteIndexes c) v (indexingRun c).

Definition withRun (run : list Progress * Result Stats) (c : Cloud) : Cloud :=
  mkCloud (directories c) (files c) (clock c) (collections c) (rows c)
    (remoteIndexes c) (canCreateCollection c) run.

Definition withCollections (v : Result (list string)) (c : Cloud) : Cloud :=
  mkCloud (directories c) (files c) (clock c) v (rows c)
    (remoteIndexes c) (canCreateCollection c) (indexingRun c).

Definition withRows (v : list (string * Result (list Row))) (c : Cloud) : Cloud :=
  mkCloud (directories c) (files c) (clock c) (collections c) v
    (remoteIndexes c) (canCreateCollection c) (indexingRun c).

Definition world (s : Snapshot) (c : Cloud) : World Cloud :=
  mkWorld s s None c [].

Definition indexedRepo : Snapshot :=
  {[ "/repo" := RecIndexed 42 310 completed 900 ]}.

Definition indexingRepo : Snapshot :=
  {[ "/repo" := RecIndexing 12 900 ]}.

Definition requestFor (p : string) (force : bool) (splitter : option string)
  : IndexArgs :=
  mkIndexArgs (Some p) (Some force) splitter None None.

Definition request (p : string) (force : bool) (splitter : option string)
  : JsArgs :=
  ArgsObject (requestFor p force splitter).

(** A second, stale record beside [/repo]. *)
Definition staleRepo : Snapshot :=
  <[ "/old" := RecIndexed 7 70 completed 800 ]> indexedRepo.

Definition networkError : Thrown := ErrorObj "Error" "network timeout".

(** Worlds of the examples. *)
Definition freshWorld : World Cloud := world ∅ repoCloud.
Definition indexingWorld : World Cloud := world indexingRepo repoCloud.
Definition indexedWorld : World Cloud := world indexedRepo repoCloud.
Definition staleWorld : World Cloud := world staleRepo repoCloud.
Definition overCapacityFresh : World Cloud :=
  world ∅ (withLimit (Ok false) repoCloud).
Definition overCapacityIndexed : World Cloud :=
  world indexedRepo (withLimit (Ok false) repoCloud).
Definition listingFails : World Cloud :=
  world indexedRepo (withCollections (Raise networkError) repoCloud).
Definition queryFails : World Cloud :=
  world indexedRepo
    (withRows [("code_chunks_ab12", Raise networkError)] repoCloud).

Definition report37 : Progress := mkProgress "Processing files" 37 5000.

(** The task fails at 37% with a message, and with none. *)
Definition timeoutAt37 : World Cloud :=
  world indexingRepo
    (withRun ([report37], Raise (ErrorObj "Error" "embedding API timeout"))
       repoCloud).
Definition noMessageAt37 : World Cloud :=
  world indexingRepo
    (withRun ([report37], Raise (ErrorObj "Error" "")) repoCloud).

(** The run hits the chunk limit. *)
Definition cappedStats : Stats := mkStats 42 310 limit_reached.
Definition cappedRun : World Cloud :=
  world indexingRepo (withRun ([report37], Ok cappedStats) repoCloud).
Definition cappedFresh : World Cloud :=
  world ∅ (withRun ([report37], Ok cappedStats) repoCloud).

(** [indexCodebase] rejects with [undefined] after the report at 37%. *)
Definition undefinedAt37 : World Cloud :=
  world indexingRepo (withRun ([report37], Raise ThrownUndefined) repoCloud).

(** [listCollections] rejects with [undefined]. *)
Definition undefinedListing : World Cloud :=
  world indexedRepo (withCollections (Raise ThrownUndefined) repoCloud).

(** The query of the only collection rejects with [null]. *)
Definition nullQuery : World Cloud :=
  world indexedRepo
    (withRows [("code_chunks_ab12", Raise ThrownNull)] repoCloud).

End Scripted.

(** ** What reconciliation computes

    A description of [syncIndexedCodebasesFromCloud] by what it reads and
    what it keeps, against which the loops of the source are proved. *)
Module Reconcile.
Import SnapshotManager ToolHandlers.

Section View.
Context {R : Type} `{Env R}.

Definition setRemote (r : R) (w : World R) : World R :=
  mkWorld (snapshot w) (persisted w) (indexingStats w) r (pending w).

Definition setSnapshot (s : Snapshot) (w : World R) : World R :=
  mkWorld s (persisted w) (indexingStats w) (remote w) (pending w).

(** A world that holds nothing but the outside. *)
Definition blank (r : R) : World R := mkWorld ∅ ∅ None r [].

(** The set [cloudCodebases] that a run reads from the outside state
    [r], with the outside state it leaves and the calls it makes;
    [None] when [listCollections] rejects, or when the loop over the
    collections is left by an exception. *)
Definition cloudView (r : R) : option (gset string) * R * list Event :=
  match vectorDb_listCollections r with
  | (Raise e, r1) => (None, r1, [EvListCollections (Raise e)])
  | (Ok cols, r1) =>
      match foldM checkCollection ∅ cols (blank r1) with
      | (res, w0, evs) =>
          (match res with Ok c => Some c | Raise _ => None end,
           remote w0, EvListCollections (Ok cols) :: evs)
      end
  end.

(** What a run settles with: it rejects only when [listCollections]
    rejects with [undefined] or [null], whose [message] the outer
    [catch] cannot read. *)
Definition syncOutcome (r : R) : Result unit :=
  match vectorDb_listCollections r with
  | (Raise e, _) =>
      match nullish e with
      | Some what => Raise (message_TypeError what)
      | None => Ok tt
      end
  | (Ok _, _) => Ok tt
  end.

(** What the loop over the collections can be left with: a set, or the
    [TypeError] of a [message] that could not be read. *)
Definition loopOutcome (res : Result (gset string)) : Prop :=
  match res with
  | Ok _ => True
  | Raise e => exists what, e = message_TypeError what
  end.

(** The records that survive: every record that is not [indexed], and
    the [indexed] ones whose path was read back. *)
Definition keepReported (cloud : gset string) (s : Snapshot) : Snapshot :=
  filter (fun kv => isIndexed kv.2 = true -> kv.1 ∈ cloud) s.

Definition reconciled (view : option (gset string)) (s : Snapshot) : Snapshot :=
  match view with
  | None => s
  | Some cloud => keepReported cloud s
  end.

(** The paths removed, in the order of the loop. *)
Definition removedPaths (view : option (gset string)) (s : Snapshot)
  : list string :=
  match view with
  | None => []
  | Some cloud => filter (fun p => p ∉ cloud) (getIndexedCodebases s)
  end.

(** The calls of reconciliation on the vector database. *)
Definition remoteCall (e : Event) : Prop :=
  match e with
  | EvListCollections _ | EvQuery _ _ => True
  | _ => False
  end.

(** Everything reconciliation can do. *)
Definition syncKind (e : Event) : Prop :=
  match e with
  | EvListCollections _ | EvQuery _ _ | EvRemoveIndexedCodebase _
  | EvSaveCodebaseSnapshot => True
  | _ => False
  end.

End View.
End Reconcile.

(** ** What the background task does

    The body of [startBackgroundIndexing] without its console lines, and
    the readings of a list of events that the statements use. *)
Module TaskView.
Import SnapshotManager ToolHandlers.

Section View.
Context {R : Type} `{Env R}.

(** The [try] block up to and including the save of the [indexed]
    record; it yields the statistics of the run. *)
Definition taskCore (absolutePath : string) (lastSaveTime : Z) : M R Stats :=
  forEach prepSteps
    (fun step => external (context_prepare step absolutePath)
                   (EvPrepare step absolutePath)) ;;
  stats <- indexCodebase_ absolutePath lastSaveTime ;;
  now <- reads Date_now ;;
  mutate (setCodebaseIndexed absolutePath stats now)
    (EvSetCodebaseIndexed absolutePath stats) ;;
  setIndexingStats (Some (indexedFiles stats, totalChunks stats)) ;;
  saveCodebaseSnapshot ;;
  ret stats.

(** The console line written before the work starts. *)
Definition fallbackLine (splitterType : string) : list Event :=
  if negb (String.eqb splitterType "ast")
  then [EvConsole (fallbackWarning splitterType)]
  else [].

Definition completedLine (absolutePath splitterType : string) (stats : Stats)
  : Event :=
  EvConsole ("[BACKGROUND-INDEX] "
             +:+ completedMessage absolutePath splitterType stats).

End View.

(** The snapshot after the callbacks for the reports [ps]. *)
Definition afterReports (P : string) (ps : list Progress) (s : Snapshot)
  : Snapshot :=
  foldl (fun s pr => setCodebaseIndexing P (percentage pr) (at_time pr) s) s ps.

Definition isConsole (e : Event) : bool :=
  match e with EvConsole _ => true | _ => false end.

(** The events that are not console lines. *)
Definition withoutConsole (evs : list Event) : list Event :=
  List.filter (fun e => negb (isConsole e)) evs.

(** The percentages the progress callback stored, in order. *)
Definition observedPercentages (evs : list Event) : list Z :=
  omap (fun e => match e with
                 | EvSetCodebaseIndexing _ pct => Some pct
                 | _ => None
                 end) evs.

(** The calls of the task on the core before it indexes. *)
Definition prepKind (e : Event) : Prop :=
  match e with EvPrepare _ _ _ => True | _ => False end.

(** What the progress callback does. *)
Definition progressKind (e : Event) : Prop :=
  match e with
  | EvSetCodebaseIndexing _ _ | EvSaveCodebaseSnapshot => True
  | _ => False
  end.

End TaskView.

(** ** The claims as they are worded, for the inputs that refute them *)
Module Worded.
Import SnapshotManager ToolHandlers.

Section Worded.
Context {R : Type} `{Env R}.

(** An error in reconciliation: a rejected [listCollections] or a
    rejected per-collection [query]. *)
Definition reconcileError (e : Event) : Prop :=
  match e with
  | EvListCollections (Raise _) | EvQuery _ (Raise _) => True
  | _ => False
  end.

(** "Whenever an error occurs, reconciliation is a no-op on the local
    snapshot and surfaces nothing." *)
Definition noopOnError (w : World R) : Prop :=
  Exists reconcileError (events syncIndexedCodebasesFromCloud w) ->
  result syncIndexedCodebasesFromCloud w = Ok tt
  /\ snapshot (after syncIndexedCodebasesFromCloud w) = snapshot w
  /\ persisted (after syncIndexedCodebasesFromCloud w) = persisted w.

(** The message an exception carries: [message] of an error object, the
    string itself when a string was thrown. *)
Definition exceptionMessage (e : Thrown) : string :=
  match e with
  | ErrorObj _ m => m
  | ThrownString s => s
  | ThrownUndefined => "undefined"
  | ThrownNull => "null"
  end.

(** "The failed record carries the message of the exception thrown by
    the task." *)
Definition failureCarriesMessage (p : string) (forceReindex : bool)
    (splitterType : string) (w : World R) : Prop :=
  forall e,
    result (startBackgroundIndexing_try p forceReindex splitterType 0) w
    = Raise e ->
    exists last t,
      snapshot (after (startBackgroundIndexing p forceReindex splitterType) w)
        !! p
      = Some (RecIndexFailed (exceptionMessage e) last t).

(** "A request whose run ends with [limit_reached] leaves the record
    [indexed] and hands a chunk-limit warning to the caller": the
    caller of [handleIndexCodebase] holds its response, the detached
    call resolves with no value; a warning would at least name the
    chunk limit. *)
Definition limitWarningReachesCaller (args : JsArgs) (p : string)
    (w : World R) : Prop :=
  getCodebaseStatus p
    (snapshot (after (handleIndexCodebase args ;; runNextTask) w))
  = st_indexed
  /\ exists response,
       result (handleIndexCodebase args) w = Ok response
       /\ str_includes "chunk limit" (text response) = true.

End Worded.
End Worded.

(** ** Readings of a run
    Predicates and projections of the events and records that the
    statements about the handlers use. *)

(** Everything [handleClearIndex] can do. *)
Definition clearKind (e : Event) : Prop :=
  match e with
  | EvClearIndex _ _ | EvRemoveCodebaseCompletely _ | EvSaveCodebaseSnapshot =>
      True
  | _ => False
  end.

(** The number of times the snapshot file was written. *)
Definition savesOf (evs : list Event) : Z :=
  Z.of_nat (length (filter (fun e => e = EvSaveCodebaseSnapshot) evs)).

(** The times at which the progress callback wrote the snapshot file:
    the events of a run of [indexCodebase] are read against the reports
    [ps] of that run, each [setCodebaseIndexing] is the start of the
    callback for the next report, and the callback saved when a save
    follows it at once. *)
Fixpoint saveTimes (ps : list Progress) (evs : list Event) : list Z :=
  match evs with
  | [] => []
  | EvSetCodebaseIndexing _ _ :: evs' =>
      match ps with
      | [] => []
      | pr :: ps' =>
          match evs' with
          | EvSaveCodebaseSnapshot :: _ => at_time pr :: saveTimes ps' evs'
          | _ => saveTimes ps' evs'
          end
      end
  | _ :: evs' => saveTimes ps evs'
  end.

(** The times of the reports at which a save is due: those that come
    2000 ms or more after the previous save, the first after
    [lastSaveTime]. *)
Fixpoint dueTimes (lastSaveTime : Z) (ps : list Progress) : list Z :=
  match ps with
  | [] => []
  | pr :: ps' =>
      if Z.leb 2000 (at_time pr - lastSaveTime)
      then at_time pr :: dueTimes (at_time pr) ps'
      else dueTimes lastSaveTime ps'
  end.

(** Times that are 2000 ms or more apart, the first that much after
    [lastSaveTime]. *)
Fixpoint spaced (lastSaveTime : Z) (times : list Z) : Prop :=
  match times with
  | [] => True
  | t :: rest => 2000 <= t - lastSaveTime /\ spaced t rest
  end.

(** A record a finished task leaves: [indexed], with [indexingStats]
    holding its files and chunks, or [indexfailed]. *)
Definition terminalRecord (r : option IndexRecord) (stats : option (Z * Z))
  : Prop :=
  match r with
  | Some (RecIndexed f c _ _) => stats = Some (f, c)
  | Some (RecIndexFailed _ _ _) => True
  | _ => False
  end.

(** The condition under which [syncIndexedCodebasesFromCloud] reads a
    collection: its name starts with [code_chunks_] or
    [hybrid_code_chunks_]. *)
Definition isCodeCollection (collectionName : string) : bool :=
  (startsWith collectionName "code_chunks_"
   || startsWith collectionName "hybrid_code_chunks_")%bool.

(** The collections that were queried, in order. *)
Definition queriedCollections (evs : list Event) : list string :=
  omap (fun e => match e with
                 | EvQuery c _ => Some c
                 | _ => None
                 end) evs.

(** ** More scripted outside worlds

    Worlds and collaborators of the examples beyond those of
    [Scripted]. *)
Module ScriptedRuns.
Import Scripted.

(** The scripted world with other answers of [clearIndex] and
    [trackCodebasePath]. *)
Definition trackAnswer (failure : option string) : Result unit :=
  match failure with
  | Some message => Raise (ErrorObj "Error" message)
  | None => Ok tt
  end.

Definition trackAnswer_throws (failure : option string) (e : Thrown) :
  trackAnswer failure = Raise e -> nullish e = None.
Proof. destruct failure; intros Hp; [|discriminate Hp]. by injection Hp as <-. Defined.

Definition envWith (clear : string -> Cloud -> Result unit * Cloud)
    (trackFailure : option string) : Env Cloud := {|
  COLLECTION_LIMIT_MESSAGE :=
    "[Error]: Your Zilliz Cloud account has hit its collection limit.";
  ensureAbsolutePath := absoluteOrThrow;
  JSON_parse_codebasePath := parseCodebasePath;
  fs_existsSync := existsSync;
  fs_statSync_isDirectory := statSync_isDirectory;
  Date_now := clock;
  vectorDb_listCollections := fun c => (collections c, c);
  vectorDb_query := query;
  vectorDb_checkCollectionLimit := fun c => (canCreateCollection c, c);
  context_hasIndex := fun p c => (Ok (includes p (remoteIndexes c)), c);
  context_clearIndex := clear;
  context_addCustomExtensions := fun _ c => (Ok tt, c);
  context_addCustomIgnorePatterns := fun _ c => (Ok tt, c);
  trackCodebasePath := fun _ c => (trackAnswer trackFailure, c);
  context_prepare := fun _ _ c => (Ok tt, c);
  context_indexCodebase := fun _ c => (indexingRun c, c);
  ensureAbsolutePath_throws := absoluteOrThrow_throws;
  fs_statSync_throws := statSync_throws;
  trackCodebasePath_throws :=
    fun _ _ _ _ Hp => trackAnswer_throws _ _ (f_equal fst Hp)
|}.

(** [clearIndex] is refused. *)
Definition refusedClear : Thrown := ErrorObj "Error" "permission denied".
Definition refusingClear : Env Cloud :=
  envWith (fun _ c => (Raise refusedClear, c)) None.

(** [clearIndex] rejects with [undefined]. *)
Definition undefinedClear : Env Cloud :=
  envWith (fun _ c => (Raise ThrownUndefined, c)) None.

(** [trackCodebasePath] throws. *)
Definition trackError : Thrown := ErrorObj "Error" "EACCES: permission denied".
Definition failingTrack : Env Cloud :=
  envWith clearIndex (Some "EACCES: permission denied").

(** [/repo] is indexed locally, and the cloud has no collection for it:
    it lists one of a tool that is not this one. *)
Definition strandedWorld : World Cloud :=
  world indexedRepo (withCollections (Ok ["documents"]) repoCloud).

(** [/repo] failed, alone and beside an indexed [/old]. *)
Definition failedRepo : Snapshot :=
  {[ "/repo" := RecIndexFailed "embedding API timeout" (Some 37) 900 ]}.
Definition failedWorld : World Cloud := world failedRepo repoCloud.
Definition failedBesideIndexed : World Cloud :=
  world (<[ "/old" := RecIndexed 7 70 completed 800 ]> failedRepo)
    (mkCloud ["/repo"; "/old"] [] 1000 (Ok []) [] [] (Ok true)
       ([], Ok (mkStats 42 310 completed))).

(** [/repo] is being indexed and its task is queued. *)
Definition taskQueued : World Cloud :=
  mkWorld indexingRepo indexingRepo None repoCloud
    [mkTask "/repo" false "ast"].

(** A run of four reports, at 5000, 5500, 7000 and 7001 ms. *)
Definition fourReports : list Progress :=
  [ mkProgress "Processing files" 10 5000;
    mkProgress "Processing files" 20 5500;
    mkProgress "Processing files" 60 7000;
    mkProgress "Processing files" 61 7001 ].
Definition reportingWorld : World Cloud :=
  world indexingRepo
    (withRun (fourReports, Ok (mkStats 42 310 completed)) repoCloud).

End ScriptedRuns.

(** ** Searching, reporting and the blocking index

    [handleSearchCode], [handleGetIndexingStatus] and [indexCodebase]
    of the same class. *)

(** The fields [handleSearchCode] reads from its argument object.
    [limit] is an integer; [extensionFilter] is [None] when it is not an
    array, and an entry of it that is not a string is [None]. *)
Record SearchArgs : Type := mkSearchArgs {
  search_path : option string;
  search_query : option string;
  search_limit : option Z;
  search_extensionFilter : option (list (option string))
}.

Inductive JsSearchArgs : Type :=
  | SearchArgsUndefined
  | SearchArgsNull
  | SearchArgsObject (a : SearchArgs).

(** The fields of a result of [semanticSearch] that [handleSearchCode]
    prints. *)
Record SearchResult : Type := mkSearchResult {
  relativePath : string;
  startLine : Z;
  endLine : Z;
  content : string;
  language : string
}.

(** The [options] object of [indexCodebase]. *)
Record IndexOptions : Type := mkIndexOptions {
  opt_forceReindex : option bool;
  opt_description : option string;
  opt_threadId : option string
}.

(** What [handleSearchCode] did: what the other handlers do, and the
    call of [context.semanticSearch(codebasePath, query, topK, 0.3,
    filterExpr)] with its outcome.  The threshold is the constant [0.3]
    of the only call. *)
Inductive SearchEvent : Type :=
  | SevHandler (e : Event)
  | SevSemanticSearch (codebasePath : string) (query : option string)
      (topK : Z) (filterExpr : option string)
      (r : Result (list SearchResult)).

#[global] Instance SearchResult_eq_dec : EqDecision SearchResult.
Proof. solve_decision. Defined.
#[global] Instance Response_eq_dec : EqDecision Response.
Proof. solve_decision. Defined.
#[global] Instance SearchEvent_eq_dec : EqDecision SearchEvent.
Proof. solve_decision. Defined.

(** The collaborators of these three methods that [Env] does not have:
    [String.prototype.trim], [/\s/.test], [JSON.stringify] of an array of
    strings, [truncateContent] of [utils.ts], [path.basename],
    [new Date(t).toLocaleString()], [context.semanticSearch] at the
    threshold [0.3], and [context.indexCodebase] called without a
    progress callback, with [forceReindex], [description] and
    [threadId]. *)
Class SearchEnv (R : Type) : Type := {
  String_trim : string -> string;
  hasWhitespace : string -> bool;
  JSON_stringify : list string -> string;
  truncateContent : string -> Z -> string;
  path_basename : string -> string;
  Date_toLocaleString : Z -> string;
  context_semanticSearch :
    string -> option string -> Z -> option string -> R ->
    Result (list SearchResult) * R;
  context_indexCodebase_blocking :
    string -> bool -> option string -> option string -> R ->
    Result Stats * R
}.

(** The monad of [handleSearchCode]: [M] with the wider events. *)
Definition MS (R A : Type) : Type :=
  World R -> Result A * World R * list SearchEvent.

Definition inHandler {R A} (m : M R A) : MS R A :=
  fun w =>
    match m w with
    | (r, w1, ev1) => (r, w1, map SevHandler ev1)
    end.

Definition retS {R A} (a : A) : MS R A := fun w => (Ok a, w, []).

Definition bindS {R A B} (m : MS R A) (k : A -> MS R B) : MS R B :=
  fun w =>
    match m w with
    | (Ok a, w1, ev1) =>
        match k a w1 with
        | (r, w2, ev2) => (r, w2, ev1 ++ ev2)
        end
    | (Raise e, w1, ev1) => (Raise e, w1, ev1)
    end.

Definition try_catchS {R A} (m : MS R A) (h : Thrown -> MS R A) : MS R A :=
  fun w =>
    match m w with
    | (Ok a, w1, ev1) => (Ok a, w1, ev1)
    | (Raise e, w1, ev1) =>
        match h e w1 with
        | (r, w2, ev2) => (r, w2, ev1 ++ ev2)
        end
    end.

Definition externalS {R X} (call : R -> Result X * R)
    (ev : Result X -> SearchEvent) : MS R X :=
  fun w =>
    match call (remote w) with
    | (r, r') =>
        (r, mkWorld (snapshot w) (persisted w) (indexingStats w) r' (pending w),
         [ev r])
    end.

Definition resultS {R A} (m : MS R A) (w : World R) : Result A := (m w).1.1.
Definition afterS {R A} (m : MS R A) (w : World R) : World R := (m w).1.2.
Definition eventsS {R A} (m : MS R A) (w : World R) : list SearchEvent :=
  (m w).2.

Declare Scope search_scope.
Delimit Scope search_scope with search.
Notation "x <- c1 ;; c2" := (bindS c1 (fun x => c2))
  (at level 100, c1 at next level, right associativity) : search_scope.
Notation "c1 ;; c2" := (bindS c1 (fun _ => c2))
  (at level 100, right associativity) : search_scope.

(** The double quote. *)
Definition dquote : string := String (Ascii.ascii_of_nat 34) EmptyString.

(** [n.toFixed(1)] of an integer. *)
Definition toFixed1 (n : Z) : string := pretty n +:+ ".0".

(** [`${indexStatus}`] *)
Definition showIndexStatus (st : IndexStatus) : string :=
  match st with
  | completed => "completed"
  | limit_reached => "limit_reached"
  end.

Module SearchHandlers.
Import SnapshotManager ToolHandlers.

Section Handlers.
Context {R : Type} `{HE : Env R} `{HS : SearchEnv R}.

(** [limit = 10] of the destructuring, then [limit || 10]. *)
Definition resultLimitOf (a : SearchArgs) : Z :=
  match search_limit a with
  | Some limit => if Z.eqb limit 0 then 10 else limit
  | None => 10
  end.

(** [e.startsWith('.') && e.length > 1 && !/\s/.test(e)] *)
Definition validExtension (e : string) : bool :=
  (startsWith e "." && Nat.ltb 1 (String.length e)
   && negb (hasWhitespace e))%bool.

(** The strings of the filter, trimmed, without the empty ones. *)
Definition cleanedExtensions (extensionFilter : list (option string))
  : list string :=
  List.filter (fun v => Nat.ltb 0 (String.length v))
    (map String_trim (omap id extensionFilter)).

(** The block that builds [filterExpr]: the invalid entries when there
    are some, and the filter expression otherwise ([None] is
    [undefined]). *)
Definition buildFilterExpr (extensionFilter : option (list (option string)))
  : list string + option string :=
  match extensionFilter with
  | Some (first :: others) =>
      let cleaned := cleanedExtensions (first :: others) in
      let invalid := List.filter (fun e => negb (validExtension e)) cleaned in
      if Nat.ltb 0 (length invalid) then inl invalid
      else
        let quoted := join ", " (map (fun e => "'" +:+ e +:+ "'") cleaned) in
        inr (Some ("fileExtension in [" +:+ quoted +:+ "]"))
  | _ => inr None
  end.

(** One entry of [formattedResults]. *)
Definition formatResult (absolutePath : string) (index : nat)
    (result : SearchResult) : string :=
  let location :=
    relativePath result +:+ ":" +:+ pretty (startLine result) +:+ "-"
    +:+ pretty (endLine result) in
  let context := truncateContent (content result) 5000 in
  let codebaseInfo := path_basename absolutePath in
  pretty (index + 1)%nat +:+ ". Code snippet (" +:+ language result +:+ ") ["
  +:+ codebaseInfo +:+ "]" +:+ nl
  +:+ "   Location: " +:+ location +:+ nl
  +:+ "   Rank: " +:+ pretty (index + 1)%nat +:+ nl
  +:+ "   Context: " +:+ nl +:+ "```" +:+ language result +:+ nl +:+ context
  +:+ nl +:+ "```" +:+ nl.

Definition indexingStatusMessage (isIndexing : bool) : string :=
  if isIndexing
  then nl +:+ "⚠️  **Indexing in Progress**: This codebase is currently being indexed in the background. Search results may be incomplete until indexing completes."
  else "".

Definition noResultsMessage (query : option string) (absolutePath : string)
    (isIndexing : bool) : string :=
  "No results found for query: " +:+ dquote +:+ show_opt query +:+ dquote
  +:+ " in codebase '" +:+ absolutePath +:+ "'"
  +:+ (if isIndexing
       then nl +:+ nl +:+ "Note: This codebase is still being indexed. Try searching again after indexing completes, or the query may not match any indexed content."
       else "").

Definition resultMessage (query : option string) (absolutePath : string)
    (isIndexing : bool) (searchResults : list SearchResult) : string :=
  "Found " +:+ pretty (length searchResults) +:+ " results for query: "
  +:+ dquote +:+ show_opt query +:+ dquote +:+ " in codebase '"
  +:+ absolutePath +:+ "'" +:+ indexingStatusMessage isIndexing +:+ nl +:+ nl
  +:+ join nl (imap (formatResult absolutePath) searchResults)
  +:+ (if isIndexing
       then nl +:+ nl +:+ "💡 **Tip**: This codebase is still being indexed. More results may become available as indexing progresses."
       else "").

Definition notIndexedText (absolutePath : string) : string :=
  "Error: Codebase '" +:+ absolutePath
  +:+ "' is not indexed. Please index it first using the index_codebase tool.".

Definition invalidExtensionsText (invalid : list string) : string :=
  "Error: Invalid file extensions in extensionFilter: "
  +:+ JSON_stringify invalid +:+ ". Use proper extensions like '.ts', '.py'.".

Local Open Scope search_scope.

(** [handleSearchCode] once [args] has been destructured.
    [getEmbedding] and the name of its provider are read for the log, as
    in the task; the later [getProvider()] of the same provider in a log
    line is taken to answer as the first one did. *)
Definition handleSearchCode_object (a : SearchArgs) : MS R Response :=
  let codebasePath := search_path a in
  let query := search_query a in
  let resultLimit := resultLimitOf a in
  try_catchS
    (inHandler syncIndexedCodebasesFromCloud ;;
     absolutePath <- inHandler (lift (ensureAbsolutePath codebasePath)) ;;
     pathExists <- inHandler (reads (fs_existsSync absolutePath)) ;;
     if negb pathExists
     then retS (errorResponse ("Error: Path '" +:+ absolutePath
                               +:+ "' does not exist. Original input: '"
                               +:+ show_opt codebasePath +:+ "'"))
     else
     isDirectory <-
       inHandler (readsResult (fs_statSync_isDirectory absolutePath)) ;;
     if negb isDirectory
     then retS (errorResponse ("Error: Path '" +:+ absolutePath
                               +:+ "' is not a directory"))
     else
     inHandler (external (trackCodebasePath absolutePath)
                  (EvTrackCodebasePath absolutePath)) ;;
     isIndexed <-
       inHandler (gets (fun s => includes absolutePath (getIndexedCodebases s))) ;;
     isIndexing <-
       inHandler (gets (fun s => includes absolutePath (getIndexingCodebases s))) ;;
     if (negb isIndexed && negb isIndexing)%bool
     then retS (errorResponse (notIndexedText absolutePath))
     else
     inHandler (external (context_prepare getEmbedding absolutePath)
                  (EvPrepare getEmbedding absolutePath)) ;;
     match buildFilterExpr (search_extensionFilter a) with
     | inl invalid => retS (errorResponse (invalidExtensionsText invalid))
     | inr filterExpr =>
         searchResults <-
           externalS
             (context_semanticSearch absolutePath query
                (Z.min resultLimit 50) filterExpr)
             (SevSemanticSearch absolutePath query (Z.min resultLimit 50)
                filterExpr) ;;
         if Nat.eqb (length searchResults) 0
         then retS (textResponse
                      (noResultsMessage query absolutePath isIndexing))
         else retS (textResponse
                      (resultMessage query absolutePath isIndexing
                         searchResults))
     end)
    (fun error =>
       let errorMessage := caughtMessage error in
       if (String.eqb errorMessage COLLECTION_LIMIT_MESSAGE
           || str_includes COLLECTION_LIMIT_MESSAGE errorMessage)%bool
       then retS (textResponse COLLECTION_LIMIT_MESSAGE)
       else retS (errorResponse
                    ("Error searching code: " +:+ errorMessage
                     +:+ " Please check if the codebase has been indexed first."))).

(** [handleSearchCode(args: any)]: the destructuring stands above the
    [try]. *)
Definition handleSearchCode (args : JsSearchArgs) : MS R Response :=
  match args with
  | SearchArgsUndefined =>
      fun w => (Raise (destructure_TypeError "undefined"), w, [])
  | SearchArgsNull => fun w => (Raise (destructure_TypeError "null"), w, [])
  | SearchArgsObject a => handleSearchCode_object a
  end.

Local Close Scope search_scope.

(** The [switch] of [handleGetIndexingStatus];
    [indexingPercentage || 0] is the percentage itself. *)
Definition statusMessage (absolutePath : string) (status : CodebaseStatus)
    (info : option IndexRecord) : string :=
  match status with
  | st_indexed =>
      match info with
      | Some (RecIndexed files chunks indexStatus lastUpdated) =>
          "✅ Codebase '" +:+ absolutePath
          +:+ "' is fully indexed and ready for search."
          +:+ nl +:+ "📊 Statistics: " +:+ pretty files +:+ " files, "
          +:+ pretty chunks +:+ " chunks"
          +:+ nl +:+ "📅 Status: " +:+ showIndexStatus indexStatus
          +:+ nl +:+ "🕐 Last updated: " +:+ Date_toLocaleString lastUpdated
      | _ =>
          "✅ Codebase '" +:+ absolutePath
          +:+ "' is fully indexed and ready for search."
      end
  | st_indexing =>
      match info with
      | Some (RecIndexing indexingPercentage lastUpdated) =>
          let progressPercentage := indexingPercentage in
          "🔄 Codebase '" +:+ absolutePath
          +:+ "' is currently being indexed. Progress: "
          +:+ toFixed1 progressPercentage +:+ "%"
          +:+ (if Z.ltb progressPercentage 10
               then " (Preparing and scanning files...)"
               else if Z.ltb progressPercentage 100
               then " (Processing files and generating embeddings...)"
               else "")
          +:+ nl +:+ "🕐 Last updated: " +:+ Date_toLocaleString lastUpdated
      | _ =>
          "🔄 Codebase '" +:+ absolutePath +:+ "' is currently being indexed."
      end
  | st_indexfailed =>
      match info with
      | Some (RecIndexFailed errorMessage lastAttemptedPercentage lastUpdated) =>
          "❌ Codebase '" +:+ absolutePath +:+ "' indexing failed."
          +:+ nl +:+ "🚨 Error: " +:+ errorMessage
          +:+ match lastAttemptedPercentage with
              | Some pct =>
                  nl +:+ "📊 Failed at: " +:+ toFixed1 pct +:+ "% progress"
              | None => ""
              end
          +:+ nl +:+ "🕐 Failed at: " +:+ Date_toLocaleString lastUpdated
          +:+ nl +:+ "💡 You can retry indexing by running the index_codebase command again."
      | _ =>
          "❌ Codebase '" +:+ absolutePath
          +:+ "' indexing failed. You can retry indexing."
      end
  | st_not_found =>
      "❌ Codebase '" +:+ absolutePath
      +:+ "' is not indexed. Please use the index_codebase tool to index it first."
  end.

(** [handleGetIndexingStatus] once [args] has been destructured. *)
Definition handleGetIndexingStatus_object (a : IndexArgs) : M R Response :=
  let codebasePath := arg_path a in
  try_catch
    (absolutePath <- lift (ensureAbsolutePath codebasePath) ;;
     pathExists <- reads (fs_existsSync absolutePath) ;;
     if negb pathExists
     then ret (errorResponse ("Error: Path '" +:+ absolutePath
                              +:+ "' does not exist. Original input: '"
                              +:+ show_opt codebasePath +:+ "'"))
     else
     isDirectory <- readsResult (fs_statSync_isDirectory absolutePath) ;;
     if negb isDirectory
     then ret (errorResponse ("Error: Path '" +:+ absolutePath
                              +:+ "' is not a directory"))
     else
     status <- gets (getCodebaseStatus absolutePath) ;;
     info <- gets (getCodebaseInfo absolutePath) ;;
     let pathInfo :=
       if bool_decide (codebasePath = Some absolutePath) then ""
       else nl +:+ "Note: Input path '" +:+ show_opt codebasePath
            +:+ "' was resolved to absolute path '" +:+ absolutePath +:+ "'" in
     ret (textResponse (statusMessage absolutePath status info +:+ pathInfo)))
    (fun error =>
       errorMessage <- lift (message_or error) ;;
       ret (errorResponse ("Error getting indexing status: "
                           +:+ errorMessage))).

Definition handleGetIndexingStatus (args : JsArgs) : M R Response :=
  match args with
  | ArgsUndefined => throw (destructure_TypeError "undefined")
  | ArgsNull => throw (destructure_TypeError "null")
  | ArgsObject a => handleGetIndexingStatus_object a
  end.

(** [indexCodebase(codebasePath, options)]: the core indexes while the
    caller waits; [indexingStats] keeps the files and chunks of the
    result. *)
Definition indexCodebase (codebasePath : option string)
    (options : IndexOptions) : M R Response :=
  try_catch
    (absolutePath <- lift (ensureAbsolutePath codebasePath) ;;
     pathExists <- reads (fs_existsSync absolutePath) ;;
     if negb pathExists
     then ret (errorResponse ("❌ Path '" +:+ absolutePath
                              +:+ "' does not exist. Original input: '"
                              +:+ show_opt codebasePath +:+ "'"))
     else
     isDirectory <- readsResult (fs_statSync_isDirectory absolutePath) ;;
     if negb isDirectory
     then ret (errorResponse ("❌ Path '" +:+ absolutePath
                              +:+ "' is not a directory"))
     else
     emit (EvIndexCodebase absolutePath) ;;
     result <- external
                 (context_indexCodebase_blocking absolutePath
                    (default false (opt_forceReindex options))
                    (opt_description options) (opt_threadId options))
                 (EvIndexCodebaseSettled absolutePath) ;;
     setIndexingStats (Some (indexedFiles result, totalChunks result)) ;;
     ret (textResponse
            ("✅ Codebase indexed successfully!" +:+ nl +:+ nl +:+ "Path: "
             +:+ absolutePath +:+ nl +:+ "Indexed Files: "
             +:+ pretty (indexedFiles result) +:+ nl +:+ "Total Chunks: "
             +:+ pretty (totalChunks result) +:+ nl +:+ "Status: "
             +:+ showIndexStatus (status result))))
    (fun error =>
       errorMessage <- lift (message_or error) ;;
       ret (errorResponse ("❌ Error indexing codebase: " +:+ errorMessage))).

End Handlers.
End SearchHandlers.

(** An entry of [extensionFilter] that the cleaning drops: not a string,
    or blank. *)
Definition blankEntry `{SearchEnv R} (v : option string) : Prop :=
  match v with
  | Some s => String_trim s = ""
  | None => True
  end.

(** ** A scripted outside world for the search

    [SearchEnv] over the [Cloud] of the examples: the search answers
    what the script says, whatever it is asked. *)
Module ScriptedSearch.
Import Scripted.

Definition isSpace (c : Ascii.ascii) : bool :=
  let n := Ascii.nat_of_ascii c in
  (Nat.eqb n 32 || (Nat.leb 9 n && Nat.leb n 13))%bool.

Fixpoint trimStart (s : string) : string :=
  match s with
  | EmptyString => EmptyString
  | String c s' => if isSpace c then trimStart s' else s
  end.

Definition reverseString (s : string) : string :=
  String.string_of_list_ascii (rev (String.list_ascii_of_string s)).

Definition trim (s : string) : string :=
  reverseString (trimStart (reverseString (trimStart s))).

Definition anySpace (s : string) : bool :=
  existsb isSpace (String.list_ascii_of_string s).

(** Without escapes: the examples have none. *)
Definition stringify (l : list string) : string :=
  "[" +:+ join "," (map (fun s => dquote +:+ s +:+ dquote) l) +:+ "]".

Definition truncate (s : string) (maxLength : Z) : string :=
  if Z.leb (Z.of_nat (String.length s)) maxLength then s
  else String.substring 0 (Z.to_nat maxLength) s +:+ "...".

(** The part after the last [/]. *)
Fixpoint basenameFrom (acc s : string) : string :=
  match s with
  | EmptyString => acc
  | String c s' =>
      if Nat.eqb (Ascii.nat_of_ascii c) 47 then basenameFrom s' s' else basenameFrom acc s'
  end.

Definition basename (p : string) : string := basenameFrom p p.

Definition searchEnv (answer : Result (list SearchResult)) : SearchEnv Cloud := {|
  String_trim := trim;
  hasWhitespace := anySpace;
  JSON_stringify := stringify;
  truncateContent := truncate;
  path_basename := basename;
  Date_toLocaleString := fun t => pretty t;
  context_semanticSearch := fun _ _ _ _ c => (answer, c);
  context_indexCodebase_blocking := fun _ _ _ _ c => ((indexingRun c).2, c)
|}.

Definition hit : SearchResult :=
  mkSearchResult "src/main.ts" 10 20 "export function main() {}" "typescript".

(** The search finds one snippet. *)
Definition finds : SearchEnv Cloud := searchEnv (Ok [hit]).

(** The search is refused: the account is at its collection limit. *)
Definition refuses : SearchEnv Cloud :=
  searchEnv (Raise (ThrownString
                      "[Error]: Your Zilliz Cloud account has hit its collection limit.")).

Definition searchFor (p : string) (limit : option Z)
    (extensions : option (list (option string))) : SearchArgs :=
  mkSearchArgs (Some p) (Some "main function") limit extensions.

Definition statusOf (p : string) : IndexArgs :=
  mkIndexArgs (Some p) None None None None.

End ScriptedSearch.

(** * Proofs *)

Import SnapshotManager ToolHandlers Reconcile.

(** ** The snapshot *)

Lemma elem_of_getIndexedCodebases (p : string) (s : Snapshot) :
  p ∈ getIndexedCodebases s <-> exists r, s !! p = Some r /\ isIndexed r = true.
Proof.
  unfold getIndexedCodebases. rewrite list_elem_of_fmap. split.
  - intros [[k r] [-> Hin]]. apply list_elem_of_filter in Hin as [Hi Hin].
    apply elem_of_map_to_list in Hin. eauto.
  - intros [r [Hl Hi]]. exists (p, r). split; [done|].
    apply list_elem_of_filter. split; [done|]. by apply elem_of_map_to_list.
Qed.

Lemma elem_of_getIndexingCodebases (p : string) (s : Snapshot) :
  p ∈ getIndexingCodebases s <-> exists r, s !! p = Some r /\ isIndexing r = true.
Proof.
  unfold getIndexingCodebases. rewrite list_elem_of_fmap. split.
  - intros [[k r] [-> Hin]]. apply list_elem_of_filter in Hin as [Hi Hin].
    apply elem_of_map_to_list in Hin. eauto.
  - intros [r [Hl Hi]]. exists (p, r). split; [done|].
    apply list_elem_of_filter. split; [done|]. by apply elem_of_map_to_list.
Qed.

Lemma NoDup_getIndexedCodebases (s : Snapshot) : NoDup (getIndexedCodebases s).
Proof.
  unfold getIndexedCodebases.
  assert (Hnd : NoDup ((map_to_list s).*1)) by apply NoDup_fst_map_to_list.
  revert Hnd. generalize (map_to_list s). intros l.
  induction l as [|[k r] l IH]; simpl; [constructor|].
  intros Hnd. apply NoDup_cons in Hnd as [Hk Hnd].
  rewrite filter_cons. case_decide; simpl; [|by apply IH].
  apply NoDup_cons. split; [|by apply IH].
  intros Hin. apply Hk. apply list_elem_of_fmap in Hin as [[k' r'] [-> Hin]].
  apply list_elem_of_filter in Hin as [_ Hin].
  apply list_elem_of_fmap. by exists (k', r').
Qed.

Lemma includes_true (p : string) (l : list string) :
  includes p l = true <-> p ∈ l.
Proof. unfold includes. apply bool_decide_eq_true. Qed.

Lemma includes_false (p : string) (l : list string) :
  includes p l = false <-> p ∉ l.
Proof. unfold includes. apply bool_decide_eq_false. Qed.

(** Removing the paths of [l] one after the other. *)
Lemma lookup_foldl_delete (l : list string) (s : Snapshot) (k : string) :
  foldl (fun s p => removeIndexedCodebase p s) s l !! k
  = if decide (k ∈ l) then None else s !! k.
Proof.
  revert s. induction l as [|p l IH]; intros s; simpl.
  - destruct (decide (k ∈ [])) as [Hk|Hk]; [by apply elem_of_nil in Hk|done].
  - rewrite IH. unfold removeIndexedCodebase.
    destruct (decide (k ∈ l)) as [Hl|Hl];
      destruct (decide (k ∈ p :: l)) as [Hpl|Hpl]; try done.
    + exfalso. apply Hpl. by right.
    + apply elem_of_cons in Hpl as [->|?]; [by rewrite lookup_delete_eq|done].
    + rewrite lookup_delete_ne; [done|]. intros ->. apply Hpl. left.
Qed.

Lemma lookup_keepReported (cloud : gset string) (s : Snapshot) (k : string) :
  keepReported cloud s !! k
  = match s !! k with
    | Some r => if decide (isIndexed r = true -> k ∈ cloud) then Some r else None
    | None => None
    end.
Proof.
  unfold keepReported. rewrite map_lookup_filter.
  destruct (s !! k) as [r|]; simpl; [|done].
  destruct (decide (isIndexed r = true -> k ∈ cloud)) as [Hd|Hd].
  - by rewrite option_guard_True.
  - by rewrite option_guard_False.
Qed.

(** The paths the loop removes leave exactly the records that are kept. *)
Lemma foldl_delete_keepReported (cloud : gset string) (s : Snapshot) :
  foldl (fun s p => removeIndexedCodebase p s) s
    (filter (fun p => p ∉ cloud) (getIndexedCodebases s))
  = keepReported cloud s.
Proof.
  apply map_eq. intros k.
  rewrite lookup_foldl_delete, lookup_keepReported.
  destruct (decide (k ∈ _)) as [Hk|Hk].
  - apply list_elem_of_filter in Hk as [Hnc Hin].
    apply elem_of_getIndexedCodebases in Hin as [r [-> Hi]].
    case_decide; [tauto|done].
  - destruct (s !! k) as [r|] eqn:Hl; [|done].
    destruct (decide _) as [Hd|Hd]; [done|]. exfalso. apply Hk.
    apply list_elem_of_filter. split.
    + intros Hc. apply Hd. done.
    + apply elem_of_getIndexedCodebases. exists r. split; [done|].
      destruct (isIndexed r); [done|]. exfalso. apply Hd. done.
Qed.

Lemma keepReported_id_iff (cloud : gset string) (s : Snapshot) :
  keepReported cloud s = s
  <-> filter (fun p => p ∉ cloud) (getIndexedCodebases s) = [].
Proof.
  split.
  - intros Heq. destruct (filter _ _) as [|p l] eqn:Hf; [done|].
    assert (Hin : p ∈ filter (fun p => p ∉ cloud) (getIndexedCodebases s))
      by (rewrite Hf; left).
    apply list_elem_of_filter in Hin as [Hnc Hin].
    apply elem_of_getIndexedCodebases in Hin as [r [Hl Hi]].
    assert (Hk : keepReported cloud s !! p = Some r) by (by rewrite Heq).
    rewrite lookup_keepReported, Hl in Hk. case_decide; [tauto|done].
  - intros Hf. rewrite <- foldl_delete_keepReported, Hf. done.
Qed.

Lemma keepReported_idemp (cloud : gset string) (s : Snapshot) :
  keepReported cloud (keepReported cloud s) = keepReported cloud s.
Proof.
  apply map_eq. intros k. rewrite !lookup_keepReported.
  destruct (s !! k) as [r|]; [|done].
  case_decide; [|done]. case_decide; done.
Qed.

Lemma keepReported_lookup_Some (cloud : gset string) (s : Snapshot)
    (k : string) (r : IndexRecord) :
  keepReported cloud s !! k = Some r -> s !! k = Some r.
Proof.
  rewrite lookup_keepReported. destruct (s !! k); [|done].
  case_decide; done.
Qed.

Lemma keepReported_not_indexed (cloud : gset string) (s : Snapshot)
    (k : string) (r : IndexRecord) :
  s !! k = Some r -> isIndexed r = false -> keepReported cloud s !! k = Some r.
Proof.
  intros Hl Hi. rewrite lookup_keepReported, Hl.
  destruct (decide _) as [Hd|Hd]; [done|]. exfalso. apply Hd. congruence.
Qed.

Lemma remove_dups_NoDup {A} `{EqDecision A} (l : list A) :
  NoDup l -> remove_dups l = l.
Proof.
  induction 1 as [|x l Hx Hnd IH]; simpl; [done|].
  destruct (decide_rel elem_of x l); [done|]. by rewrite IH.
Qed.

Lemma filter_not_elem_of_empty (cloud : gset string) (l : list string) :
  cloud = ∅ -> filter (fun p => p ∉ cloud) l = l.
Proof.
  intros ->. induction l as [|x l IH]; [done|].
  rewrite filter_cons. destruct (decide (x ∉ (∅ : gset string))) as [|Hn].
  - by rewrite IH.
  - exfalso. apply Hn. set_solver.
Qed.

(** ** Reconciliation *)

(** Closes [Forall K evs] for a literal list [evs] whose members are of
    kind [K] by computation. *)
Ltac all_of_kind :=
  repeat first [ apply List.Forall_nil
               | apply List.Forall_cons; [exact I|] ].

(** Splits a collection run into the cases of the source. *)
Ltac collection_cases c r e :=
  unfold checkCollection, try_catch, bind, external, ret, lift, throw, blank;
  destruct (negb (startsWith c "code_chunks_")
            && negb (startsWith c "hybrid_code_chunks_"))%bool; cbn;
  [|destruct (vectorDb_query c r) as [[[|firstResult rest]|e] ?] eqn:?; cbn;
    [|destruct (metadata firstResult) as [metadataStr|];
      [destruct (String.eqb metadataStr "");
       [|destruct (JSON_parse_codebasePath metadataStr) as [[p|]|?];
         [destruct (String.eqb p "")| |]]|]; cbn
     |destruct e as [n m|t| |]; cbn]].

Section SyncProofs.
Context {R : Type} `{Env R}.

Lemma setSnapshot_id (w : World R) : setSnapshot (snapshot w) w = w.
Proof. by destruct w. Qed.

Lemma setRemote_id (w : World R) : setRemote (remote w) w = w.
Proof. by destruct w. Qed.

Lemma forEach_remove_run (l : list string) (w : World R) :
  forEach l removeIndexedCodebase_ w
  = (Ok tt,
     setSnapshot (foldl (fun s p => removeIndexedCodebase p s) (snapshot w) l) w,
     map EvRemoveIndexedCodebase l).
Proof.
  revert w. induction l as [|p l IH]; intros w; simpl.
  - by rewrite setSnapshot_id.
  - unfold bind. unfold removeIndexedCodebase_ at 1. unfold mutate.
    rewrite IH. done.
Qed.

Lemma foldM_pruneLocal_run (cloud : gset string) (b : bool)
    (l : list string) (w : World R) :
  foldM (pruneLocal cloud) b l w
  = (Ok (b || bool_decide (filter (fun p => p ∉ cloud) l <> []))%bool,
     setSnapshot
       (foldl (fun s p => removeIndexedCodebase p s) (snapshot w)
          (filter (fun p => p ∉ cloud) l)) w,
     map EvRemoveIndexedCodebase (filter (fun p => p ∉ cloud) l)).
Proof.
  revert b w. induction l as [|p l IH]; intros b w; simpl.
  - rewrite setSnapshot_id. unfold ret. by rewrite orb_false_r.
  - unfold bind, pruneLocal at 1. rewrite filter_cons.
    destruct (decide (p ∈ cloud)) as [Hin|Hnin].
    + rewrite bool_decide_eq_true_2 by done.
      destruct (decide (p ∉ cloud)); [done|].
      unfold ret at 1. rewrite IH. done.
    + rewrite bool_decide_eq_false_2 by done.
      destruct (decide (p ∉ cloud)); [|done].
      unfold bind, removeIndexedCodebase_, mutate, ret. rewrite IH. simpl.
      by rewrite orb_true_r.
Qed.

Lemma nullish_message_TypeError (what : string) :
  nullish (message_TypeError what) = None.
Proof. reflexivity. Qed.

Lemma message_or_TypeError (what : string) :
  message_or (message_TypeError what)
  = Ok ("Cannot read properties of " +:+ what +:+ " (reading 'message')").
Proof.
  unfold message_or, message_or_String. cbn.
  destruct what; reflexivity.
Qed.

(** One collection: the world changes in its outside part only, and the
    calls are queries. *)
Lemma checkCollection_blank (acc : gset string) (c : string) (r : R) :
  exists res r' evs,
    Forall remoteCall evs /\ loopOutcome res
    /\ checkCollection acc c (blank r) = (res, blank r', evs).
Proof.
  collection_cases c r e.
  all: eexists _, _, _; (split; [|split; [|reflexivity]]).
  all: try (simpl; all_of_kind).
  all: simpl; eauto.
Qed.

Lemma checkCollection_frame (acc : gset string) (c : string) (w : World R) :
  checkCollection acc c w
  = (result (checkCollection acc c) (blank (remote w)),
     setRemote (remote (after (checkCollection acc c) (blank (remote w)))) w,
     events (checkCollection acc c) (blank (remote w))).
Proof.
  unfold result, after, events.
  collection_cases c (remote w) e.
  all: try reflexivity.
  by rewrite setRemote_id.
Qed.

Lemma checkCollection_run (acc : gset string) (c : string) (w0 : World R) :
  exists res r' evs,
    Forall remoteCall evs /\ loopOutcome res
    /\ forall w, remote w = remote w0 ->
         checkCollection acc c w = (res, setRemote r' w, evs).
Proof.
  destruct (checkCollection_blank acc c (remote w0))
    as (res & r' & evs & Hk & Hres & Hb).
  exists res, r', evs. split; [done|]. split; [done|]. intros w Hw.
  rewrite checkCollection_frame. unfold result, after, events.
  rewrite Hw, Hb. done.
Qed.

Lemma collect_run (acc : gset string) (cols : list string) (w0 : World R) :
  exists res r' evs,
    Forall remoteCall evs /\ loopOutcome res
    /\ forall w, remote w = remote w0 ->
         foldM checkCollection acc cols w = (res, setRemote r' w, evs).
Proof.
  revert acc w0. induction cols as [|c cols IH]; intros acc w0; simpl.
  - exists (Ok acc), (remote w0), []. split; [constructor|]. split; [done|].
    intros w <-. by rewrite setRemote_id.
  - destruct (checkCollection_run acc c w0)
      as (res1 & r1 & evs1 & Hk1 & Hres1 & Hrun1).
    destruct res1 as [cloud1|e1].
    + destruct (IH cloud1 (setRemote r1 w0))
        as (res2 & r2 & evs2 & Hk2 & Hres2 & Hrun2).
      exists res2, r2, (evs1 ++ evs2). split; [by apply Forall_app|].
      split; [done|].
      intros w Hw. unfold bind. rewrite (Hrun1 w Hw).
      rewrite (Hrun2 (setRemote r1 w)) by done. done.
    + exists (Raise e1), r1, evs1. split; [done|]. split; [done|].
      intros w Hw. unfold bind. by rewrite (Hrun1 w Hw).
Qed.

(** The whole of reconciliation, in closed form. *)
Lemma sync_run (w : World R) :
  let view := (cloudView (remote w)).1.1 in
  let s' := reconciled view (snapshot w) in
  let changed := bool_decide (s' <> snapshot w) in
  syncIndexedCodebasesFromCloud w
  = (syncOutcome (remote w),
     mkWorld s' (if changed then s' else persisted w) (indexingStats w)
       (cloudView (remote w)).1.2 (pending w),
     (cloudView (remote w)).2
     ++ map EvRemoveIndexedCodebase (removedPaths view (snapshot w))
     ++ (if changed then [EvSaveCodebaseSnapshot] else [])).
Proof.
  unfold syncIndexedCodebasesFromCloud, cloudView, syncOutcome, try_catch, bind.
  unfold external at 1.
  destruct (vectorDb_listCollections (remote w)) as [[cols|e] r1] eqn:Hl.
  2:{ simpl. rewrite bool_decide_eq_false_2 by (intros Hne; by apply Hne).
      unfold lift, message_or.
      destruct (nullish e); unfold ret, throw; simpl; done. }
  set (w1 := mkWorld (snapshot w) (persisted w) (indexingStats w) r1 (pending w)).
  destruct (collect_run ∅ cols w1) as (res & r2 & evs & _ & Hres & Hrun).
  rewrite (Hrun (blank r1)) by done.
  destruct res as [cloud|e].
  - simpl.
    assert (Hch : bool_decide (keepReported cloud (snapshot w) <> snapshot w)
                  = bool_decide (filter (fun p => p ∉ cloud)
                                   (getIndexedCodebases (snapshot w)) <> [])).
    { apply bool_decide_ext. by rewrite keepReported_id_iff. }
    destruct cols as [|c cols].
    + simpl in Hrun. specialize (Hrun w1 eq_refl).
      injection Hrun as Hc <- <-. symmetry in Hc.
      simpl. rewrite Hch, (filter_not_elem_of_empty cloud) by done.
      rewrite <- (foldl_delete_keepReported cloud).
      rewrite (filter_not_elem_of_empty cloud) by done.
      destruct (getIndexedCodebases (snapshot w)) as [|p l] eqn:Hidx.
      * rewrite bool_decide_eq_false_2 by (intros Hne; by apply Hne).
        reflexivity.
      * rewrite bool_decide_eq_true_2 by done.
        cbn [length Nat.ltb Nat.leb]. rewrite forEach_remove_run. reflexivity.
    + cbn [length Nat.eqb]. rewrite (Hrun w1) by done. simpl.
      rewrite remove_dups_NoDup by apply NoDup_getIndexedCodebases.
      rewrite foldM_pruneLocal_run. simpl.
      rewrite Hch, foldl_delete_keepReported. clear Hch.
      destruct (bool_decide _); simpl; rewrite ?app_nil_r; reflexivity.
  - destruct cols as [|c cols].
    { simpl in Hrun. specialize (Hrun w1 eq_refl). discriminate Hrun. }
    cbn [length Nat.eqb]. rewrite (Hrun w1) by done.
    destruct Hres as [what ->].
    unfold lift. rewrite message_or_TypeError. unfold ret. simpl.
    rewrite bool_decide_eq_false_2 by (intros Hne; by apply Hne).
    by rewrite !app_nil_r.
Qed.

End SyncProofs.

Section SyncFacts.
Context {R : Type} `{Env R}.

Lemma cloudView_calls (r : R) : Forall remoteCall (cloudView r).2.
Proof.
  unfold cloudView.
  destruct (vectorDb_listCollections r) as [[cols|e] r1]; [|simpl; all_of_kind].
  destruct (collect_run ∅ cols (blank r1)) as (res & r2 & evs & Hk & _ & Hrun).
  rewrite (Hrun (blank r1)) by done. simpl.
  apply List.Forall_cons; [exact I|done].
Qed.

Lemma sync_result (w : World R) :
  result syncIndexedCodebasesFromCloud w = syncOutcome (remote w).
Proof. unfold result. by rewrite sync_run. Qed.

(** Reconciliation resolves, or rejects with the [TypeError] of its own
    [catch]. *)
Lemma sync_result_cases (w : World R) :
  result syncIndexedCodebasesFromCloud w = Ok tt
  \/ exists what,
       result syncIndexedCodebasesFromCloud w = Raise (message_TypeError what).
Proof.
  rewrite sync_result. unfold syncOutcome.
  destruct (vectorDb_listCollections (remote w)) as [[cols|e] r1]; [by left|].
  destruct (nullish e) as [what|]; [right; by exists what|by left].
Qed.

Lemma sync_snapshot (w : World R) :
  snapshot (after syncIndexedCodebasesFromCloud w)
  = reconciled (cloudView (remote w)).1.1 (snapshot w).
Proof. unfold after. by rewrite sync_run. Qed.

Lemma sync_persisted (w : World R) :
  persisted (after syncIndexedCodebasesFromCloud w)
  = if bool_decide (snapshot (after syncIndexedCodebasesFromCloud w)
                    <> snapshot w)
    then snapshot (after syncIndexedCodebasesFromCloud w)
    else persisted w.
Proof. rewrite sync_snapshot. unfold after. by rewrite sync_run. Qed.

Lemma sync_pending (w : World R) :
  pending (after syncIndexedCodebasesFromCloud w) = pending w.
Proof. unfold after. by rewrite sync_run. Qed.

Lemma sync_indexingStats (w : World R) :
  indexingStats (after syncIndexedCodebasesFromCloud w) = indexingStats w.
Proof. unfold after. by rewrite sync_run. Qed.

Lemma sync_events_kind (w : World R) :
  Forall syncKind (events syncIndexedCodebasesFromCloud w).
Proof.
  unfold events. rewrite sync_run. simpl.
  repeat apply Forall_app_2.
  - eapply Forall_impl; [apply cloudView_calls|].
    by intros [].
  - apply Forall_fmap, Forall_true. by intros p.
  - destruct (bool_decide _); all_of_kind.
Qed.

(** Reconciliation only removes, and only records that are [indexed]. *)
Lemma sync_lookup_Some (w : World R) (p : string) (r : IndexRecord) :
  snapshot (after syncIndexedCodebasesFromCloud w) !! p = Some r ->
  snapshot w !! p = Some r.
Proof.
  rewrite sync_snapshot. destruct ((cloudView (remote w)).1.1); simpl; [|done].
  apply keepReported_lookup_Some.
Qed.

Lemma sync_keeps_not_indexed (w : World R) (p : string) (r : IndexRecord) :
  snapshot w !! p = Some r -> isIndexed r = false ->
  snapshot (after syncIndexedCodebasesFromCloud w) !! p = Some r.
Proof.
  intros Hl Hi. rewrite sync_snapshot.
  destruct ((cloudView (remote w)).1.1); simpl; [|done].
  by apply keepReported_not_indexed.
Qed.

Lemma sync_lookup_None (w : World R) (p : string) :
  snapshot w !! p = None ->
  snapshot (after syncIndexedCodebasesFromCloud w) !! p = None.
Proof.
  intros Hl.
  destruct (snapshot (after syncIndexedCodebasesFromCloud w) !! p) as [r|] eqn:Hr;
    [|done].
  apply sync_lookup_Some in Hr. congruence.
Qed.

(** What one collection does to the set, by the way its query settles
    and its metadata parses. *)
Lemma checkCollection_skips (acc : gset string) (c : string) (w : World R)
    (e : Thrown) (r' : R) :
  vectorDb_query c (remote w) = (Raise e, r') ->
  isCodeCollection c = true ->
  result (checkCollection acc c) w
  = match nullish e with
    | Some what => Raise (message_TypeError what)
    | None => Ok acc
    end.
Proof.
  intros Hq Hc. unfold isCodeCollection in Hc.
  unfold result, checkCollection, try_catch, bind, external, ret, lift, throw.
  destruct (startsWith c "code_chunks_"),
    (startsWith c "hybrid_code_chunks_"); try discriminate Hc; cbn.
  all: rewrite Hq; cbn.
  all: destruct e as [n m|t| |]; reflexivity.
Qed.

Lemma checkCollection_malformed (acc : gset string) (c : string)
    (w : World R) (m : string) (rest : list Row) (r' : R) (e : Thrown) :
  vectorDb_query c (remote w) = (Ok (mkRow (Some m) :: rest), r') ->
  JSON_parse_codebasePath m = Raise e ->
  result (checkCollection acc c) w = Ok acc.
Proof.
  intros Hq Hp.
  unfold result, checkCollection, try_catch, bind, external, ret.
  destruct (negb (startsWith c "code_chunks_")
            && negb (startsWith c "hybrid_code_chunks_"))%bool; cbn;
    [done|].
  rewrite Hq. cbn. destruct (String.eqb m ""); cbn; [done|].
  rewrite Hp. done.
Qed.

End SyncFacts.

(** ** Running a handler path by path *)

(** Membership of an event in the events of a run: the list is taken
    apart, and a member of a part known by the kind of its events is
    confronted with that kind. *)
Ltac event_cases H :=
  repeat match type of H with
         | _ ∈ _ ++ _ => apply elem_of_app in H; destruct H as [H|H]
         | _ ∈ _ :: _ => apply elem_of_cons in H; destruct H as [H|H]
         | _ ∈ [] => by apply elem_of_nil in H
         end;
  try match type of H with
      | ?x ∈ ?l =>
          match goal with
          | HF : Forall _ l |- _ =>
              rewrite Forall_forall in HF; specialize (HF _ H);
              simpl in HF; first [contradiction | discriminate HF | idtac]
          end
      | _ = _ => try discriminate H
      end.

(** The innermost scrutinee of a stuck [match] is case-split. *)
Ltac split_scrutinee t :=
  lazymatch t with
  | context [match ?y with _ => _ end] => split_scrutinee y
  | _ => destruct t eqn:?
  end.

Ltac run_path H :=
  repeat (simpl in H;
          match type of H with
          | context [match ?x with _ => _ end] => split_scrutinee x
          end);
  simpl in H.

#[local] Arguments includes : simpl never.
#[local] Arguments String.append : simpl never.
#[local] Arguments String.eqb : simpl never.
#[local] Arguments getIndexedCodebases : simpl never.
#[local] Arguments getIndexingCodebases : simpl never.
#[local] Arguments getCodebaseStatus : simpl never.
#[local] Arguments getIndexingProgress : simpl never.
#[local] Arguments removeIndexedCodebase : simpl never.
#[local] Arguments removeCodebaseCompletely : simpl never.
#[local] Arguments setCodebaseIndexing : simpl never.
#[local] Arguments setCodebaseIndexed : simpl never.
#[local] Arguments setCodebaseIndexFailed : simpl never.
#[local] Arguments startedText : simpl never.
#[local] Arguments alreadyIndexingText : simpl never.
#[local] Arguments invalidSplitterText : simpl never.
#[local] Arguments splitterTypeOf : simpl never.
#[local] Arguments completedMessage : simpl never.
#[local] Arguments fallbackWarning : simpl never.
#[local] Arguments message_or_String : simpl never.
#[local] Arguments Nat.ltb : simpl never.
#[local] Arguments arg_path : simpl never.
#[local] Arguments arg_force : simpl never.
#[local] Arguments arg_splitter : simpl never.
#[local] Arguments arg_customExtensions : simpl never.
#[local] Arguments arg_ignorePatterns : simpl never.
#[local] Arguments str_includes : simpl never.
#[local] Arguments caughtMessage : simpl never.
#[local] Arguments show_opt : simpl never.
#[local] Arguments pretty : simpl never.
#[local] Arguments message_TypeError : simpl never.

Section IndexFacts.
Context {R : Type} `{Env R}.

(** What a handler needs to know of the reconciliation it starts
    with. *)
Lemma sync_summary (w : World R) :
  exists res w1 ev1,
    syncIndexedCodebasesFromCloud w = (res, w1, ev1)
    /\ res = result syncIndexedCodebasesFromCloud w
    /\ w1 = after syncIndexedCodebasesFromCloud w
    /\ ev1 = events syncIndexedCodebasesFromCloud w
    /\ (res = Ok tt \/ exists what, res = Raise (message_TypeError what))
    /\ Forall syncKind ev1
    /\ pending w1 = pending w
    /\ (forall p r, snapshot w1 !! p = Some r -> snapshot w !! p = Some r)
    /\ (forall p r, snapshot w !! p = Some r -> isIndexed r = false ->
                    snapshot w1 !! p = Some r).
Proof.
  exists (result syncIndexedCodebasesFromCloud w),
         (after syncIndexedCodebasesFromCloud w),
         (events syncIndexedCodebasesFromCloud w).
  split; [|split; [done|split; [done|split; [done|split; [|repeat split]]]]].
  - unfold result, after, events.
    by destruct (syncIndexedCodebasesFromCloud w) as [[r0 w1] ev1].
  - apply sync_result_cases.
  - apply sync_events_kind.
  - apply sync_pending.
  - apply sync_lookup_Some.
  - apply sync_keeps_not_indexed.
Qed.

Lemma lookup_removeIndexedCodebase_Some (p q : string) (s : Snapshot)
    (r : IndexRecord) :
  removeIndexedCodebase p s !! q = Some r -> s !! q = Some r.
Proof.
  unfold removeIndexedCodebase. intros Hl.
  apply lookup_delete_Some in Hl. tauto.
Qed.

Lemma status_indexing_lookup (p : string) (s : Snapshot) :
  getCodebaseStatus p s = st_indexing
  <-> exists pct t, s !! p = Some (RecIndexing pct t).
Proof.
  unfold getCodebaseStatus. split.
  - destruct (s !! p) as [[]|]; try done. eauto.
  - by intros (pct & t & ->).
Qed.

End IndexFacts.

(** Starts the path-by-path run of [handleIndexCodebase_object a w] held
    in [Hrun]: the reconciliation is replaced by its summary and every
    branch of the handler becomes a goal. *)
(** A synchronous helper does not throw [undefined] or [null]. *)
Ltac helper_throws :=
  match goal with
  | Hn : nullish ?e = Some _, Hp : ensureAbsolutePath _ = Raise ?e |- _ =>
      rewrite (ensureAbsolutePath_throws _ _ Hp) in Hn; discriminate Hn
  | Hn : nullish ?e = Some _, Hp : fs_statSync_isDirectory _ _ = Raise ?e
    |- _ =>
      rewrite (fs_statSync_throws _ _ _ Hp) in Hn; discriminate Hn
  | Hn : nullish ?e = Some _, Hp : trackCodebasePath _ _ = (Raise ?e, _)
    |- _ =>
      rewrite (trackCodebasePath_throws _ _ _ _ Hp) in Hn; discriminate Hn
  end.

(** Replaces the reconciliation a handler starts with by its summary,
    in the two ways it can settle. *)
Ltac sync_cases Hs w :=
  let res := fresh "res" in
  let w1 := fresh "w1" in
  let ev1 := fresh "ev1" in
  let Hres := fresh "Hres" in
  let Hw1 := fresh "Hw1" in
  let Hev1 := fresh "Hev1" in
  let Hsettle := fresh "Hsettle" in
  let Hk := fresh "Hk" in
  let Hpend := fresh "Hpend" in
  let Hsub := fresh "Hsub" in
  let Hkeep := fresh "Hkeep" in
  let what := fresh "what" in
  try fold (result syncIndexedCodebasesFromCloud w) in *;
  destruct (sync_summary w)
    as (res & w1 & ev1 & Hs & Hres & Hw1 & Hev1 & Hsettle & Hk & Hpend
        & Hsub & Hkeep);
  rewrite <- ?Hres, <- ?Hw1, <- ?Hev1 in *;
  clear Hres Hw1 Hev1;
  destruct Hsettle as [->|[what ->]].

Ltac index_paths Hrun w :=
  let Hs := fresh "Hs" in
  sync_cases Hs w;
  unfold handleIndexCodebase_object, try_catch in Hrun;
  unfold bind at 1 in Hrun; rewrite Hs in Hrun; clear Hs;
  unfold readsResult, removeIndexedCodebase_, setCodebaseIndexing_ in Hrun;
  unfold bind, lift, reads, gets, external, attempt, ret, throw,
    mutate, saveCodebaseSnapshot, spawn, message_or in Hrun;
  simpl in Hrun; rewrite ?nullish_message_TypeError in Hrun;
  run_path Hrun;
  first [helper_throws | injection Hrun as <- <- <-].

(** ** The background task *)

Import TaskView.

Section TaskFacts.
Context {R : Type} `{Env R}.

Lemma progress_run (P : string) (ps : list Progress) (t0 : Z) (w : World R) :
  exists t' pers evs,
    foldM (onProgress P) t0 ps w
    = (Ok t',
       mkWorld (afterReports P ps (snapshot w)) pers (indexingStats w)
         (remote w) (pending w),
       evs)
    /\ Forall progressKind evs
    /\ observedPercentages evs = map percentage ps.
Proof.
  revert t0 w. induction ps as [|pr ps IH]; intros t0 w.
  - exists t0, (persisted w), []. simpl. split; [by destruct w|].
    split; [constructor|done].
  - simpl. unfold bind at 1. unfold onProgress at 1.
    unfold bind, setCodebaseIndexing_, mutate. simpl.
    destruct (2000 <=? at_time pr - t0).
    + unfold saveCodebaseSnapshot, ret. simpl.
      match goal with
      | |- context [foldM _ ?t ps ?w1] =>
          destruct (IH t w1) as (t' & pers & evs & Hrun & Hk & Hobs)
      end.
      rewrite Hrun. simpl in *.
      eexists _, _, _. split; [reflexivity|].
      split; [by repeat (apply List.Forall_cons; [exact I|])|].
      simpl. by rewrite Hobs.
    + unfold ret. simpl.
      match goal with
      | |- context [foldM _ ?t ps ?w1] =>
          destruct (IH t w1) as (t' & pers & evs & Hrun & Hk & Hobs)
      end.
      rewrite Hrun. simpl in *.
      eexists _, _, _. split; [reflexivity|].
      split; [by repeat (apply List.Forall_cons; [exact I|])|].
      simpl. by rewrite Hobs.
Qed.

Lemma getIndexingProgress_afterReports (P : string) (ps : list Progress)
    (s : Snapshot) :
  getIndexingProgress P (afterReports P ps s)
  = match last (map percentage ps) with
    | Some pct => Some pct
    | None => getIndexingProgress P s
    end.
Proof.
  revert s. induction ps as [|pr ps IH]; intros s; [done|].
  unfold afterReports in *. simpl. rewrite IH.
  destruct ps as [|pr' ps]; simpl.
  - unfold getIndexingProgress, setCodebaseIndexing. by rewrite lookup_insert_eq.
  - change (last (percentage pr :: percentage pr' :: map percentage ps))
      with (last (percentage pr' :: map percentage ps)).
    destruct (last (percentage pr' :: map percentage ps)) eqn:Hl; [done|].
    apply last_None in Hl. discriminate Hl.
Qed.

Lemma afterReports_other (P q : string) (ps : list Progress) (s : Snapshot) :
  q <> P -> afterReports P ps s !! q = s !! q.
Proof.
  intros Hne. revert s. induction ps as [|pr ps IH]; intros s; [done|].
  unfold afterReports in *. simpl. rewrite IH.
  unfold setCodebaseIndexing. by rewrite lookup_insert_ne.
Qed.

Lemma prep_run (P : string) (steps : list PrepStep) (w : World R) :
  exists res r' evs,
    forEach steps (fun step => external (context_prepare step P)
                                 (EvPrepare step P)) w
    = (res, setRemote r' w, evs)
    /\ Forall prepKind evs
    /\ (forall e, res = Raise e ->
          exists step, EvPrepare step P (Raise e) ∈ evs).
Proof.
  revert w. induction steps as [|st steps IH]; intros w; simpl.
  - exists (Ok tt), (remote w), []. rewrite setRemote_id.
    split; [done|]. split; [constructor|]. intros e [=].
  - unfold bind, external at 1.
    destruct (context_prepare st P (remote w)) as [[u|e] r1].
    + match goal with
      | |- context [forEach steps _ ?w1] =>
          destruct (IH w1) as (res & r' & evs & Hrun & Hk & Hraise)
      end.
      rewrite Hrun. simpl.
      exists res, r', (EvPrepare st P (Ok u) :: evs).
      split; [done|]. split; [by apply List.Forall_cons|].
      intros e He. destruct (Hraise e He) as [step Hin].
      exists step. apply elem_of_cons. by right.
    + exists (Raise e), r1, [EvPrepare st P (Raise e)].
      split; [done|]. split; [by apply List.Forall_cons|].
      intros e' [= <-]. exists st. apply elem_of_cons. by left.
Qed.

Lemma indexCodebase_run (P : string) (t0 : Z) (w : World R) :
  exists pers evs,
    indexCodebase_ P t0 w
    = ((context_indexCodebase P (remote w)).1.2,
       mkWorld (afterReports P (context_indexCodebase P (remote w)).1.1
                  (snapshot w))
         pers (indexingStats w) (context_indexCodebase P (remote w)).2
         (pending w),
       EvIndexCodebase P
       :: evs ++ [EvIndexCodebaseSettled P
                    (context_indexCodebase P (remote w)).1.2])
    /\ Forall progressKind evs
    /\ observedPercentages evs
       = map percentage (context_indexCodebase P (remote w)).1.1.
Proof.
  unfold indexCodebase_. unfold bind at 1. unfold emit at 1.
  unfold bind at 1. unfold reads at 1. unfold bind at 1.
  destruct (context_indexCodebase P (remote w)) as [[ps res] r'] eqn:Hc.
  cbn [fst snd].
  destruct (progress_run P ps t0 w) as (t' & pers & evs & Hrun & Hk & Hobs).
  rewrite Hrun. unfold external. cbn.
  exists pers, evs. split; [|done].
  destruct res; reflexivity.
Qed.

(** The three ways the core of the task can end. *)
Lemma taskCore_cases (P : string) (t0 : Z) (w : World R) :
  exists evp,
    Forall prepKind evp
    /\ ((exists e r',
           taskCore P t0 w = (Raise e, setRemote r' w, evp)
           /\ exists step, EvPrepare step P (Raise e) ∈ evp)
        \/ (exists e wb evg,
              taskCore P t0 w
              = (Raise e, wb,
                 evp ++ EvIndexCodebase P
                        :: evg ++ [EvIndexCodebaseSettled P (Raise e)])
              /\ Forall progressKind evg
              /\ getIndexingProgress P (snapshot wb)
                 = match last (observedPercentages evg) with
                   | Some pct => Some pct
                   | None => getIndexingProgress P (snapshot w)
                   end)
        \/ (exists st wf evg,
              taskCore P t0 w
              = (Ok st, wf,
                 evp ++ EvIndexCodebase P
                        :: evg ++ [EvIndexCodebaseSettled P (Ok st);
                                   EvSetCodebaseIndexed P st;
                                   EvSaveCodebaseSnapshot])
              /\ Forall progressKind evg
              /\ snapshot wf !! P
                 = Some (RecIndexed (indexedFiles st) (totalChunks st)
                           (status st) (Date_now (remote wf)))
              /\ persisted wf = snapshot wf
              /\ pending wf = pending w)).
Proof.
  destruct (prep_run P prepSteps w)
    as (res & r1 & evp & Hprep & Hkp & Hraise).
  exists evp. split; [done|].
  destruct res as [u|e].
  2:{ left. exists e, r1. split; [|by apply Hraise].
      unfold taskCore, bind. by rewrite Hprep. }
  right.
  destruct (indexCodebase_run P t0 (setRemote r1 w))
    as (pers & evg & Hidx & Hkg & Hobs).
  destruct (context_indexCodebase P (remote (setRemote r1 w)))
    as [[ps res] r2] eqn:Hc. cbn [fst snd] in *.
  destruct res as [st|e].
  - right. eexists st, _, evg.
    split.
    { unfold taskCore. unfold bind at 1. rewrite Hprep.
      unfold bind at 1. rewrite Hidx. cbn.
      rewrite <- !app_assoc. reflexivity. }
    split; [done|]. cbn.
    split; [unfold setCodebaseIndexed; by rewrite lookup_insert_eq|done].
  - left. eexists e, _, evg.
    split.
    { unfold taskCore. unfold bind at 1. rewrite Hprep.
      unfold bind at 1. rewrite Hidx. reflexivity. }
    split; [done|]. cbn.
    by rewrite getIndexingProgress_afterReports, Hobs.
Qed.

(** The [try] block is its core between two console lines. *)
Lemma try_as_core (P : string) (f : bool) (sp : string) (t0 : Z)
    (w : World R) :
  startBackgroundIndexing_try P f sp t0 w
  = match taskCore P t0 w with
    | (Ok st, w', evs) =>
        (Ok tt, w', fallbackLine sp ++ evs ++ [completedLine P sp st])
    | (Raise e, w', evs) => (Raise e, w', fallbackLine sp ++ evs)
    end.
Proof.
  unfold startBackgroundIndexing_try, taskCore, fallbackLine, completedLine.
  unfold bind.
  destruct (negb (String.eqb sp "ast")); unfold emit, ret;
    (destruct (forEach prepSteps _ w) as [[[u|e] w1] evp]; [|reflexivity]);
    (destruct (indexCodebase_ P t0 w1) as [[[st|e] w2] evi]; [|reflexivity]);
    cbn; by rewrite <- ?app_assoc.
Qed.

End TaskFacts.

Lemma prefix_refl (t : string) : String.prefix t t = true.
Proof.
  induction t as [|c t IH]; [done|]. simpl.
  destruct (Ascii.ascii_dec c c); [done|congruence].
Qed.

Lemma str_includes_append (s t : string) : str_includes t (s +:+ t) = true.
Proof.
  induction s as [|c s IH].
  - change ("" +:+ t) with t.
    assert (Hp : forall u, str_includes u u = true).
    { intros [|a u]; [reflexivity|].
      change (str_includes (String a u) (String a u))
        with (String.prefix (String a u) (String a u)
              || str_includes (String a u) u)%bool.
      by rewrite prefix_refl. }
    apply Hp.
  - change (String c s +:+ t) with (String c (s +:+ t)).
    change (str_includes t (String c (s +:+ t)))
      with (String.prefix t (String c (s +:+ t))
            || str_includes t (s +:+ t))%bool.
    rewrite IH. apply orb_true_r.
Qed.

Lemma observed_prepKind (l : list Event) :
  Forall prepKind l -> observedPercentages l = [].
Proof.
  induction 1 as [|e l He Hl IH]; [done|].
  destruct e; try (simpl in He; contradiction). exact IH.
Qed.

Lemma observed_app (l1 l2 : list Event) :
  observedPercentages (l1 ++ l2)
  = observedPercentages l1 ++ observedPercentages l2.
Proof. apply omap_app. Qed.

Lemma observed_index_run (P : string) (evg : list Event) (r : Result Stats) :
  observedPercentages
    (EvIndexCodebase P :: evg ++ [EvIndexCodebaseSettled P r])
  = observedPercentages evg.
Proof.
  change (observedPercentages (evg ++ [EvIndexCodebaseSettled P r])
          = observedPercentages evg).
  rewrite observed_app. apply app_nil_r.
Qed.

Lemma observed_fallbackLine (sp : string) :
  observedPercentages (fallbackLine sp) = [].
Proof. unfold fallbackLine. by destruct (negb _). Qed.

Section TaskRunFacts.
Context {R : Type} `{Env R}.

(** The task, by the way its [try] block ends. *)
Lemma task_cases (P : string) (f : bool) (sp : string) (w : World R) :
  match startBackgroundIndexing_try P f sp 0 w with
  | (Ok _, w1, evs) => startBackgroundIndexing P f sp w = (Ok tt, w1, evs)
  | (Raise e, w1, evs) =>
      match nullish e with
      | Some what =>
          startBackgroundIndexing P f sp w
          = (Raise (message_TypeError what), w1, evs)
      | None =>
          let s' :=
            setCodebaseIndexFailed P (message_or_String e)
              (getIndexingProgress P (snapshot w1)) (Date_now (remote w1))
              (snapshot w1) in
          startBackgroundIndexing P f sp w
          = (Ok tt,
             mkWorld s' s' (indexingStats w1) (remote w1) (pending w1),
             evs ++ [EvSetCodebaseIndexFailed P (message_or_String e)
                       (getIndexingProgress P (snapshot w1));
                     EvSaveCodebaseSnapshot;
                     EvConsole ("[BACKGROUND-INDEX] Indexing failed for "
                                +:+ P +:+ ": " +:+ message_or_String e)])
      end
  end.
Proof.
  unfold startBackgroundIndexing, try_catch.
  destruct (startBackgroundIndexing_try P f sp 0 w) as [[[[]|e] w1] evs].
  - reflexivity.
  - unfold startBackgroundIndexing_catch, bind, gets, lift, message_or,
      reads, mutate, saveCodebaseSnapshot, emit.
    destruct (nullish e); cbn; by rewrite ?app_nil_r.
Qed.

Lemma fallbackLine_console (sp : string) :
  Forall (fun e => isConsole e = true) (fallbackLine sp).
Proof. unfold fallbackLine. destruct (negb _); by repeat constructor. Qed.

(** Where a [try] block that throws leaves the progress of its path. *)
Lemma failed_try_progress (P : string) (f : bool) (sp : string)
    (w : World R) (e : Thrown) :
  result (startBackgroundIndexing_try P f sp 0) w = Raise e ->
  getIndexingProgress P
    (snapshot (after (startBackgroundIndexing_try P f sp 0) w))
  = match last (observedPercentages
                  (events (startBackgroundIndexing_try P f sp 0) w)) with
    | Some pct => Some pct
    | None => getIndexingProgress P (snapshot w)
    end.
Proof.
  unfold result, after, events. rewrite try_as_core.
  destruct (taskCore_cases P 0 w) as (evp & Hkp & [Hc|[Hc|Hc]]).
  - destruct Hc as (e' & r' & -> & _). cbn. intros _.
    by rewrite observed_app, observed_fallbackLine, observed_prepKind.
  - destruct Hc as (e' & wb & evg & -> & Hkg & Hlast). cbn. intros _.
    rewrite !observed_app, observed_fallbackLine, observed_prepKind by done.
    by rewrite observed_index_run.
  - destruct Hc as (st & wf & evg & -> & _). cbn. intros [=].
Qed.

Lemma progress_indexing (p : string) (s : Snapshot) :
  getCodebaseStatus p s = st_indexing
  <-> exists pct, getIndexingProgress p s = Some pct.
Proof.
  unfold getCodebaseStatus, getIndexingProgress.
  destruct (s !! p) as [[]|]; split; try done; eauto.
  all: by intros [pct Hp].
Qed.

(** A [try] block that throws leaves a path that was [indexing] so. *)
Lemma failed_try_keeps_indexing (P : string) (f : bool) (sp : string)
    (w : World R) (e : Thrown) :
  result (startBackgroundIndexing_try P f sp 0) w = Raise e ->
  getCodebaseStatus P (snapshot w) = st_indexing ->
  getCodebaseStatus P
    (snapshot (after (startBackgroundIndexing_try P f sp 0) w))
  = st_indexing.
Proof.
  intros Hr Hst. apply progress_indexing.
  rewrite (failed_try_progress _ _ _ _ _ Hr).
  apply progress_indexing in Hst as [pct0 Hp].
  destruct (last _) as [pct|]; eauto.
Qed.

(** The [try] block never marks a record failed. *)
Lemma try_marks_no_failure (P : string) (f : bool) (sp : string)
    (w : World R) (q msg : string) (pct : option Z) :
  EvSetCodebaseIndexFailed q msg pct
    ∉ events (startBackgroundIndexing_try P f sp 0) w.
Proof.
  unfold events. rewrite try_as_core.
  pose proof (fallbackLine_console sp) as Hfb.
  destruct (taskCore_cases P 0 w) as (evp & Hkp & [Hc|[Hc|Hc]]).
  - destruct Hc as (e' & r' & -> & _). cbn. intros Hin. event_cases Hin.
  - destruct Hc as (e' & wb & evg & -> & Hkg & Hlast). cbn. intros Hin.
    event_cases Hin.
  - destruct Hc as (st & wf & evg & -> & Hkg & _). cbn. intros Hin.
    event_cases Hin.
Qed.
End TaskRunFacts.


(** ** The boundary of the handlers *)

Section BoundaryFacts.
Context {R : Type} `{Env R}.

Lemma index_object_settles (a : IndexArgs) (w : World R) :
  (exists response,
      result (handleIndexCodebase (ArgsObject a)) w = Ok response)
  \/ (exists what,
        result (handleIndexCodebase (ArgsObject a)) w
        = Raise (message_TypeError what)).
Proof.
  unfold result. cbn [handleIndexCodebase].
  destruct (handleIndexCodebase_object a w) as [[res w'] evs] eqn:Hrun.
  cbn [fst snd].
  index_paths Hrun w.
  all: solve [left; eauto | right; eauto].
Qed.

Lemma clear_object_returns (a : IndexArgs) (w : World R) :
  exists response, result (handleClearIndex (ArgsObject a)) w = Ok response.
Proof.
  unfold result. cbn [handleClearIndex].
  destruct (handleClearIndex_object a w) as [[res w'] evs] eqn:Hrun.
  cbn [fst snd].
  unfold handleClearIndex_object, try_catch in Hrun.
  unfold readsResult in Hrun.
  unfold bind, lift, reads, gets, external, attempt, ret, throw,
    mutate, saveCodebaseSnapshot, setIndexingStats in Hrun.
  run_path Hrun.
  all: injection Hrun as <- <- <-.
  all: eauto.
Qed.

Lemma unsupported_splitter_rejected (a : IndexArgs) (w : World R) :
  splitterTypeOf a <> "ast" -> splitterTypeOf a <> "langchain" ->
  (exists response,
      result (handleIndexCodebase (ArgsObject a)) w = Ok response
      /\ isError response = true
      /\ (result syncIndexedCodebasesFromCloud w = Ok tt ->
          response
          = errorResponse (invalidSplitterText (splitterTypeOf a))))
  /\ pending (after (handleIndexCodebase (ArgsObject a)) w) = pending w.
Proof.
  intros Ha Hl.
  apply String.eqb_neq in Ha, Hl.
  unfold result, after. cbn [handleIndexCodebase].
  destruct (handleIndexCodebase_object a w) as [[res w'] evs] eqn:Hrun.
  cbn [fst snd].
  index_paths Hrun w.
  all: rewrite ?Ha, ?Hl in *; simplify_eq/=.
  all: split; [eexists; split; [reflexivity|split; [done|]]|done].
  all: by intros.
Qed.

Lemma langchain_request_starts (a : IndexArgs) (w : World R) (P : string)
    (b : bool) (r2 r3 r4 : R) :
  arg_splitter a = Some "langchain" ->
  default false (arg_force a) = false ->
  default [] (arg_customExtensions a) = [] ->
  default [] (arg_ignorePatterns a) = [] ->
  ensureAbsolutePath (arg_path a) = Ok P ->
  fs_existsSync P (remote (after syncIndexedCodebasesFromCloud w)) = true ->
  fs_statSync_isDirectory P (remote (after syncIndexedCodebasesFromCloud w))
  = Ok true ->
  P ∉ getIndexingCodebases (snapshot (after syncIndexedCodebasesFromCloud w)) ->
  P ∉ getIndexedCodebases (snapshot (after syncIndexedCodebasesFromCloud w)) ->
  context_hasIndex P (remote (after syncIndexedCodebasesFromCloud w))
  = (Ok b, r2) ->
  vectorDb_checkCollectionLimit r2 = (Ok true, r3) ->
  trackCodebasePath P r3 = (Ok tt, r4) ->
  result syncIndexedCodebasesFromCloud w = Ok tt ->
  result (handleIndexCodebase (ArgsObject a)) w
  = Ok (textResponse (startedText (arg_path a) P "langchain" [] []))
  /\ pending (after (handleIndexCodebase (ArgsObject a)) w)
     = pending w ++ [mkTask P false "langchain"]
  /\ snapshot (after (handleIndexCodebase (ArgsObject a)) w) !! P
     = Some (RecIndexing 0 (Date_now r3)).
Proof.
  intros Hsp Hforce Hext Hpat Hpath Hex Hdir Hni Hnd Hhas Hlim Htrack Hsync.
  apply includes_false in Hni, Hnd.
  assert (Hst : splitterTypeOf a = "langchain")
    by (unfold splitterTypeOf; by rewrite Hsp).
  unfold result, after. cbn [handleIndexCodebase].
  destruct (handleIndexCodebase_object a w) as [[res w'] evs] eqn:Hrun.
  cbn [fst snd]. fold (after syncIndexedCodebasesFromCloud w) in *.
  index_paths Hrun w.
  all: try rewrite Hpath in *.
  all: simplify_eq.
  all: rewrite ?Hst, ?Hforce, ?Hext, ?Hpat, ?Hex, ?Hdir, ?Hni, ?Hnd, ?Hhas in *;
    repeat match goal with
           | Hb : context [String.eqb _ _] |- _ => progress (vm_compute in Hb)
           | Hb : context [Nat.ltb _ _] |- _ => progress (vm_compute in Hb)
           end;
    simplify_eq/=.
  all: rewrite ?Hlim in *; simplify_eq/=.
  all: rewrite ?Htrack in *; simplify_eq/=.
  split; [done|]. split; [by rewrite Hpend|].
  unfold setCodebaseIndexing. by rewrite lookup_insert_eq.
Qed.
End BoundaryFacts.

(** * The claims *)

(** Membership of an event in a literal list after the events of
    reconciliation. *)
Ltac event_here :=
  solve [ apply elem_of_app; right; repeat constructor
        | repeat constructor ].

(** Uses the hypothesis that every [hasIndex] of the run answered
    [true]. *)
Ltac all_hasIndex_true Hhas :=
  repeat match type of Hhas with
         | forall res, EvHasIndex ?P res ∈ ?evs -> res = Ok true =>
             match evs with
             | context [EvHasIndex P ?r] =>
                 lazymatch r with
                 | Ok true => fail
                 | _ =>
                     let Hx := fresh "Hx" in
                     assert (Hx : r = Ok true) by (apply Hhas; event_here);
                     first [discriminate Hx | injection Hx as ->]
                 end
             end
         end.

Section IndexClaims.
Context {R : Type} `{Env R}.

(** C1.  Whenever a call of [handleIndexCodebase] reaches the preflight
    and [checkCollectionLimit] answers [false], the call returns the
    capacity-exceeded error result ([COLLECTION_LIMIT_MESSAGE] with
    [isError]) and does nothing after the preflight, no record is set
    to [indexing] (no path that was not [indexing] before the call is
    [indexing] after it), no background task is started and
    [indexCodebase] is not invoked. *)
Theorem capacity_exceeded_is_terminal (a : IndexArgs) (w : World R) :
  EvCheckCollectionLimit (Ok false)
    ∈ events (handleIndexCodebase (ArgsObject a)) w ->
  result (handleIndexCodebase (ArgsObject a)) w
  = Ok (errorResponse COLLECTION_LIMIT_MESSAGE)
  /\ last (events (handleIndexCodebase (ArgsObject a)) w)
     = Some (EvCheckCollectionLimit (Ok false))
  /\ (forall p pct,
        EvSetCodebaseIndexing p pct
          ∉ events (handleIndexCodebase (ArgsObject a)) w)
  /\ (forall p,
        getCodebaseStatus p
          (snapshot (after (handleIndexCodebase (ArgsObject a)) w))
        = st_indexing ->
        getCodebaseStatus p (snapshot w) = st_indexing)
  /\ pending (after (handleIndexCodebase (ArgsObject a)) w) = pending w
  /\ (forall t,
        EvStartBackgroundIndexing t
          ∉ events (handleIndexCodebase (ArgsObject a)) w)
  /\ (forall p,
        EvIndexCodebase p ∉ events (handleIndexCodebase (ArgsObject a)) w).
Proof.
  unfold result, after, events. cbn [handleIndexCodebase].
  destruct (handleIndexCodebase_object a w) as [[res w'] evs] eqn:Hrun.
  cbn [fst snd]. intros Hin.
  index_paths Hrun w.
  all: try (event_cases Hin; fail).
  all: (split; [reflexivity|]).
  all: (split; [by rewrite last_app|]).
  all: (split; [intros p pct Hx; event_cases Hx|]).
  all: (split;
        [intros p Hst; apply status_indexing_lookup in Hst as (pct & t & Hl);
         apply status_indexing_lookup; exists pct, t; simpl in Hl;
         try apply lookup_removeIndexedCodebase_Some in Hl; by apply Hsub|]).
  all: (split; [exact Hpend|]).
  all: (split; [intros t Hx; event_cases Hx|intros p Hx; event_cases Hx]).
Qed.




End IndexClaims.

Section ReconcileClaims.
Context {R : Type} `{Env R}.


(** C7.  Reconciliation never adds a path: the paths recorded after a
    run are among those recorded before it.  A second run to which the
    cloud reports the same set of codebases as to the first changes
    neither the snapshot nor the saved snapshot, and does nothing but
    call the vector database. *)
Theorem reconcile_shrinks_and_settles (w : World R) :
  dom (snapshot (after syncIndexedCodebasesFromCloud w)) ⊆ dom (snapshot w)
  /\ ((cloudView (remote (after syncIndexedCodebasesFromCloud w))).1.1
      = (cloudView (remote w)).1.1 ->
      snapshot (after syncIndexedCodebasesFromCloud
                  (after syncIndexedCodebasesFromCloud w))
      = snapshot (after syncIndexedCodebasesFromCloud w)
      /\ persisted (after syncIndexedCodebasesFromCloud
                     (after syncIndexedCodebasesFromCloud w))
         = persisted (after syncIndexedCodebasesFromCloud w)
      /\ Forall remoteCall
           (events syncIndexedCodebasesFromCloud
              (after syncIndexedCodebasesFromCloud w))).
Proof.
  split.
  { intros p Hp. apply elem_of_dom in Hp as [r Hr].
    apply elem_of_dom. exists r. by apply sync_lookup_Some. }
  intros Hsame.
  set (w1 := after syncIndexedCodebasesFromCloud w) in *.
  assert (Hfix : reconciled (cloudView (remote w1)).1.1 (snapshot w1)
                 = snapshot w1).
  { rewrite Hsame. unfold w1. rewrite sync_snapshot.
    destruct ((cloudView (remote w)).1.1) as [cloud|]; simpl; [|done].
    apply keepReported_idemp. }
  assert (Hsnap : snapshot (after syncIndexedCodebasesFromCloud w1)
                  = snapshot w1) by (by rewrite sync_snapshot).
  split; [done|]. split.
  { rewrite sync_persisted, Hsnap.
    by rewrite bool_decide_eq_false_2 by (intros Hne; by apply Hne). }
  unfold events. rewrite sync_run. cbn [snd].
  rewrite Hfix.
  rewrite bool_decide_eq_false_2 by (intros Hne; by apply Hne).
  assert (Hnone : removedPaths (cloudView (remote w1)).1.1 (snapshot w1) = []).
  { revert Hfix. destruct ((cloudView (remote w1)).1.1) as [cloud|]; simpl;
      [|done]. apply keepReported_id_iff. }
  rewrite Hnone. simpl. rewrite app_nil_r. apply cloudView_calls.
Qed.

End ReconcileClaims.

Section TaskClaims.
Context {R : Type} `{Env R}.


(** C8 (amended).  When [indexCodebase] resolves with
    [status = limit_reached], the task resolves, the record of [P]
    becomes [indexed] with the returned [indexedFiles] and
    [totalChunks], it is saved, the record is never set to
    [indexfailed], and the chunk-limit warning is the end of the last
    line the task writes to the console. *)
Theorem limit_reached_is_indexed (P : string) (f : bool) (sp : string)
    (w : World R) (st : Stats) :
  EvIndexCodebaseSettled P (Ok st) ∈ events (startBackgroundIndexing P f sp) w ->
  status st = limit_reached ->
  result (startBackgroundIndexing P f sp) w = Ok tt
  /\ snapshot (after (startBackgroundIndexing P f sp) w) !! P
     = Some (RecIndexed (indexedFiles st) (totalChunks st) limit_reached
               (Date_now (remote (after (startBackgroundIndexing P f sp) w))))
  /\ persisted (after (startBackgroundIndexing P f sp) w)
     = snapshot (after (startBackgroundIndexing P f sp) w)
  /\ (forall msg lastPct,
        EvSetCodebaseIndexFailed P msg lastPct
          ∉ events (startBackgroundIndexing P f sp) w)
  /\ last (events (startBackgroundIndexing P f sp) w)
     = Some (completedLine P sp st)
  /\ str_includes limitWarning (completedMessage P sp st) = true.
Proof.
  pose proof (task_cases P f sp w) as Ht. rewrite try_as_core in Ht.
  unfold result, after, events.
  pose proof (fallbackLine_console sp) as Hfb.
  destruct (taskCore_cases P 0 w) as (evp & Hkp & [Hc|[Hc|Hc]]).
  - destruct Hc as (e & r' & Hc & _). rewrite Hc in Ht.
    destruct (nullish e); cbv zeta in Ht; rewrite Ht; cbn; intros Hin _;
      exfalso; event_cases Hin.
  - destruct Hc as (e & wb & evg & Hc & Hkg & Hlast). rewrite Hc in Ht.
    destruct (nullish e); cbv zeta in Ht; rewrite Ht; cbn; intros Hin _;
      exfalso; event_cases Hin.
  - destruct Hc as (st' & wf & evg & Hc & Hkg & Hrec & Hpers & Hpend).
    rewrite Hc in Ht. rewrite Ht.
    cbn [fst snd]. intros Hin Hst.
    assert (st' = st) as ->.
    { event_cases Hin. by injection Hin. }
    rewrite Hst in Hrec.
    split; [done|]. split; [done|]. split; [done|].
    split.
    { intros msg lastPct Hx. event_cases Hx. }
    split.
    { rewrite !app_assoc. apply last_snoc. }
    unfold completedMessage. rewrite Hst. apply str_includes_append.
Qed.

End TaskClaims.

Section SplitterClaims.
Context {R : Type} `{Env R}.

Lemma withoutConsole_fallbackLine (sp : string) :
  withoutConsole (fallbackLine sp) = [].
Proof. unfold fallbackLine. by destruct (negb _). Qed.

(** The requested splitter reaches the console only. *)
Lemma task_ignores_requested_splitter (P : string) (f : bool) (sp : string)
    (w : World R) :
  result (startBackgroundIndexing P f sp) w
  = result (startBackgroundIndexing P f "ast") w
  /\ after (startBackgroundIndexing P f sp) w
     = after (startBackgroundIndexing P f "ast") w
  /\ withoutConsole (events (startBackgroundIndexing P f sp) w)
     = withoutConsole (events (startBackgroundIndexing P f "ast") w).
Proof.
  pose proof (task_cases P f sp w) as Hs.
  pose proof (task_cases P f "ast" w) as Ha.
  rewrite try_as_core in Hs, Ha.
  unfold result, after, events.
  pose proof (withoutConsole_fallbackLine sp) as Hfb.
  pose proof (withoutConsole_fallbackLine "ast") as Hfa.
  unfold withoutConsole in *.
  destruct (taskCore P 0 w) as [[[st|e] w1] evs].
  - rewrite Hs, Ha. cbn [fst snd].
    split; [done|]. split; [done|].
    by rewrite !List.filter_app, Hfb, Hfa.
  - destruct (nullish e); cbv zeta in Hs, Ha; rewrite Hs, Ha; cbn [fst snd].
    all: split; [done|]; split; [done|].
    all: by rewrite !List.filter_app, Hfb, Hfa.
Qed.

Lemma langchain_task_warns (P : string) (f : bool) (w : World R) :
  head (events (startBackgroundIndexing P f "langchain") w)
  = Some (EvConsole (fallbackWarning "langchain")).
Proof.
  pose proof (task_cases P f "langchain" w) as Hs.
  rewrite try_as_core in Hs. unfold events.
  destruct (taskCore P 0 w) as [[[st|e] w1] evs].
  - by rewrite Hs.
  - destruct (nullish e); cbv zeta in Hs; by rewrite Hs.
Qed.

(** Whatever splitter was requested, the task calls [indexCodebase] on
    the handler's [Context] once its preparation has resolved, and the
    way that call settles decides the record. *)
Lemma task_indexes (P : string) (f : bool) (sp : string) (w : World R) :
  (forall step res,
      EvPrepare step P res ∈ events (startBackgroundIndexing P f sp) w ->
      exists u, res = Ok u) ->
  EvIndexCodebase P ∈ events (startBackgroundIndexing P f sp) w
  /\ exists settled,
       EvIndexCodebaseSettled P settled
         ∈ events (startBackgroundIndexing P f sp) w
       /\ match settled with
          | Ok st =>
              result (startBackgroundIndexing P f sp) w = Ok tt
              /\ snapshot (after (startBackgroundIndexing P f sp) w) !! P
                 = Some (RecIndexed (indexedFiles st) (totalChunks st)
                           (status st)
                           (Date_now (remote (after (startBackgroundIndexing
                                                       P f sp) w))))
          | Raise e =>
              match nullish e with
              | None =>
                  result (startBackgroundIndexing P f sp) w = Ok tt
                  /\ exists lastProgress,
                       snapshot (after (startBackgroundIndexing P f sp) w)
                         !! P
                       = Some (RecIndexFailed (message_or_String e)
                                 lastProgress
                                 (Date_now
                                    (remote (after (startBackgroundIndexing
                                                      P f sp) w))))
              | Some what =>
                  result (startBackgroundIndexing P f sp) w
                  = Raise (message_TypeError what)
              end
          end.
Proof.
  pose proof (task_cases P f sp w) as Ht. rewrite try_as_core in Ht.
  unfold result, after, events.
  destruct (taskCore_cases P 0 w) as (evp & Hkp & [Hc|[Hc|Hc]]).
  - destruct Hc as (e & r' & Hc & step & Hstep). rewrite Hc in Ht.
    intros Hprep. exfalso.
    destruct (Hprep step (Raise e)) as [u [=]].
    destruct (nullish e); cbv zeta in Ht; rewrite Ht; cbn [fst snd].
    all: rewrite ?elem_of_app; auto.
  - destruct Hc as (e & wb & evg & Hc & Hkg & Hlast). rewrite Hc in Ht.
    intros _.
    destruct (nullish e) as [what|] eqn:Hn; cbv zeta in Ht; rewrite Ht;
      cbn [fst snd].
    + split; [rewrite !elem_of_app, elem_of_cons; auto|].
      exists (Raise e). rewrite Hn. split; [|done].
      rewrite !elem_of_app, elem_of_cons, elem_of_app, list_elem_of_singleton.
      auto.
    + split; [rewrite !elem_of_app, elem_of_cons; auto|].
      exists (Raise e). rewrite Hn. split.
      { rewrite !elem_of_app, elem_of_cons, elem_of_app,
          list_elem_of_singleton. auto 7. }
      split; [done|]. eexists. cbn.
      unfold setCodebaseIndexFailed. by rewrite lookup_insert_eq.
  - destruct Hc as (st & wf & evg & Hc & Hkg & Hrec & Hpers & Hpend).
    rewrite Hc in Ht. rewrite Ht. cbn [fst snd]. intros _.
    split; [rewrite !elem_of_app, elem_of_cons; auto|].
    exists (Ok st). split; [|done].
    rewrite !elem_of_app, elem_of_cons, elem_of_app, elem_of_cons. auto 7.
Qed.


End SplitterClaims.

Section BoundaryClaims.
Context {R : Type} `{Env R}.

(** C5 (the code at the failing input).  Called without an argument
    object, [handleIndexCodebase] and [handleClearIndex] reject with the
    [TypeError] of the destructuring that stands above their [try]; no
    result payload is returned.  Called with an argument object,
    [handleClearIndex] always returns a payload, and
    [handleIndexCodebase] returns a payload or rejects with the
    [TypeError] of reading [message] of [undefined] or [null] in its
    [catch] block. *)
Theorem missing_arguments_escape (w : World R) :
  handleIndexCodebase ArgsUndefined w
  = (Raise (destructure_TypeError "undefined"), w, [])
  /\ handleIndexCodebase ArgsNull w
     = (Raise (destructure_TypeError "null"), w, [])
  /\ handleClearIndex ArgsUndefined w
     = (Raise (destructure_TypeError "undefined"), w, [])
  /\ (forall a,
        (exists response,
            result (handleIndexCodebase (ArgsObject a)) w = Ok response)
        \/ (exists what,
              result (handleIndexCodebase (ArgsObject a)) w
              = Raise (message_TypeError what)))
  /\ (forall a, exists response,
         result (handleClearIndex (ArgsObject a)) w = Ok response).
Proof.
  split; [reflexivity|]. split; [reflexivity|]. split; [reflexivity|].
  split; intros a; [apply index_object_settles|apply clear_object_returns].
Qed.

End BoundaryClaims.

(** * Further properties of the handlers

    What the handlers do beyond the claims: the edges of
    [handleClearIndex] and [handleIndexCodebase], the background task,
    reconciliation, and the three methods [handleSearchCode],
    [handleGetIndexingStatus] and [indexCodebase]. *)

(** ** Strings *)

Lemma prefix_append (s t : string) : String.prefix s (s +:+ t) = true.
Proof.
  induction s as [|c s IH]; [by destruct t|].
  change (String c s +:+ t) with (String c (s +:+ t)). simpl.
  destruct (Ascii.ascii_dec c c); [done|congruence].
Qed.

Lemma prefix_app_cancel (u s t : string) :
  String.prefix s t = true -> String.prefix (u +:+ s) (u +:+ t) = true.
Proof.
  intros Hp. induction u as [|c u IH]; [exact Hp|].
  change (String c u +:+ s) with (String c (u +:+ s)).
  change (String c u +:+ t) with (String c (u +:+ t)). simpl.
  destruct (Ascii.ascii_dec c c); [done|congruence].
Qed.

Lemma prefix_app_r (s t v : string) :
  String.prefix s t = true -> String.prefix s (t +:+ v) = true.
Proof.
  revert t. induction s as [|c s IH]; intros t Hp.
  - by destruct (t +:+ v).
  - destruct t as [|c' t]; [discriminate Hp|].
    change (String c' t +:+ v) with (String c' (t +:+ v)). simpl in *.
    destruct (Ascii.ascii_dec c c'); [by apply IH|done].
Qed.

(** [s] is a prefix of a concatenation that starts with the pieces of
    [s]. *)
Ltac prefix_of_append :=
  repeat first [ apply prefix_refl
               | apply prefix_append
               | apply prefix_app_cancel
               | apply prefix_app_r ].

Lemma str_includes_cons (t : string) (c : Ascii.ascii) (s : string) :
  str_includes t s = true -> str_includes t (String c s) = true.
Proof.
  intros Hs.
  change (str_includes t (String c s))
    with (String.prefix t (String c s) || str_includes t s)%bool.
  rewrite Hs. apply orb_true_r.
Qed.

Lemma str_includes_right (t u s : string) :
  str_includes t s = true -> str_includes t (u +:+ s) = true.
Proof.
  intros Hs. induction u as [|c u IH]; [exact Hs|].
  change (String c u +:+ s) with (String c (u +:+ s)).
  by apply str_includes_cons.
Qed.

(** ** Clearing an index *)

(** Starts the path-by-path run of [handleClearIndex_object a w] held in
    [Hrun]. *)
Ltac clear_paths Hrun :=
  unfold handleClearIndex_object, try_catch in Hrun;
  unfold readsResult in Hrun;
  unfold bind, lift, reads, gets, external, attempt, ret, throw,
    mutate, saveCodebaseSnapshot, setIndexingStats, read_message in Hrun;
  run_path Hrun;
  first [helper_throws | injection Hrun as <- <- <-].

Section ClearProperties.
Context {R : Type} `{Env R}.

Lemma listed_record (P : string) (s : Snapshot) :
  (negb (includes P (getIndexedCodebases s))
   && negb (includes P (getIndexingCodebases s)))%bool = false ->
  exists r, s !! P = Some r /\ (isIndexed r = true \/ isIndexing r = true).
Proof.
  intros Hb. apply andb_false_iff in Hb as [Hb|Hb];
    apply negb_false_iff in Hb; apply includes_true in Hb.
  - apply elem_of_getIndexedCodebases in Hb as (r & Hl & Hi). eauto.
  - apply elem_of_getIndexingCodebases in Hb as (r & Hl & Hi). eauto.
Qed.

Lemma listed_includes (P : string) (s : Snapshot) (rec : IndexRecord) :
  s !! P = Some rec -> isIndexed rec = true \/ isIndexing rec = true ->
  (negb (includes P (getIndexedCodebases s))
   && negb (includes P (getIndexingCodebases s)))%bool = false
  /\ (Nat.eqb (length (getIndexedCodebases s)) 0
      && Nat.eqb (length (getIndexingCodebases s)) 0)%bool = false.
Proof.
  intros Hl [Hi|Hi].
  - assert (Hin : P ∈ getIndexedCodebases s)
      by (apply elem_of_getIndexedCodebases; eauto).
    split.
    + apply includes_true in Hin. by rewrite Hin.
    + destruct (getIndexedCodebases s); [by apply elem_of_nil in Hin|done].
  - assert (Hin : P ∈ getIndexingCodebases s)
      by (apply elem_of_getIndexingCodebases; eauto).
    split.
    + apply includes_true in Hin. rewrite Hin. apply andb_false_r.
    + destruct (getIndexingCodebases s); [by apply elem_of_nil in Hin|].
      apply andb_false_r.
Qed.

(** X1.  [handleClearIndex] does nothing but call [clearIndex], remove a
    record and save; it starts and cancels no task, and it adds no
    record.  A record is gone after the call only if it is the record
    of the requested path, it was [indexed] or [indexing], and the call
    was exactly: [clearIndex] resolved, the record was removed, the
    snapshot was saved. *)
Theorem clear_removes_only_requested (a : IndexArgs) (w : World R) :
  Forall clearKind (events (handleClearIndex (ArgsObject a)) w)
  /\ pending (after (handleClearIndex (ArgsObject a)) w) = pending w
  /\ (forall q r,
        snapshot (after (handleClearIndex (ArgsObject a)) w) !! q = Some r ->
        snapshot w !! q = Some r)
  /\ (forall q r,
        snapshot w !! q = Some r ->
        snapshot (after (handleClearIndex (ArgsObject a)) w) !! q = Some r
        \/ (ensureAbsolutePath (arg_path a) = Ok q
            /\ (isIndexed r = true \/ isIndexing r = true)
            /\ events (handleClearIndex (ArgsObject a)) w
               = [EvClearIndex q (Ok tt); EvRemoveCodebaseCompletely q;
                  EvSaveCodebaseSnapshot])).
Proof.
  unfold result, after, events. cbn [handleClearIndex].
  destruct (handleClearIndex_object a w) as [[res w'] evs] eqn:Hrun.
  cbn [fst snd].
  clear_paths Hrun.
  all: (split; [all_of_kind|]).
  all: (split; [reflexivity|]).
  all: try (split; [intros q r Hq; exact Hq|intros q r Hq; left; exact Hq];
            fail).
  all: match goal with
       | Hb : (negb (includes ?P _) && _)%bool = false |- _ =>
           apply listed_record in Hb as (rec0 & Hl0 & Hi0)
       end.
  all: split.
  all: try (intros q rq Hq; simpl in Hq; try exact Hq;
            unfold removeCodebaseCompletely in Hq;
            apply lookup_delete_Some in Hq; tauto).
  all: intros q rq Hq; simpl; unfold removeCodebaseCompletely.
  all: try (left; exact Hq).
  all: match goal with
       | |- delete ?P _ !! _ = _ \/ _ =>
           destruct (decide (q = P)) as [->|Hne];
           [right|left; by rewrite lookup_delete_ne]
       end.
  all: rewrite Hq in Hl0; injection Hl0 as <-.
  all: split; [done|]. all: split; [done|].
  all: match goal with u : unit |- _ => destruct u end; reflexivity.
Qed.

Lemma clear_run (a : IndexArgs) (w : World R) (P : string)
    (rec : IndexRecord) (r' : R) :
  ensureAbsolutePath (arg_path a) = Ok P ->
  fs_existsSync P (remote w) = true ->
  fs_statSync_isDirectory P (remote w) = Ok true ->
  snapshot w !! P = Some rec ->
  isIndexed rec = true \/ isIndexing rec = true ->
  context_clearIndex P (remote w) = (Ok tt, r') ->
  (exists response,
      result (handleClearIndex (ArgsObject a)) w = Ok response
      /\ isError response = false
      /\ startsWith (text response)
           ("Successfully cleared codebase '" +:+ P +:+ "'") = true)
  /\ events (handleClearIndex (ArgsObject a)) w
     = [EvClearIndex P (Ok tt); EvRemoveCodebaseCompletely P;
        EvSaveCodebaseSnapshot]
  /\ getCodebaseStatus P (snapshot (after (handleClearIndex (ArgsObject a)) w))
     = st_not_found
  /\ (forall q, q <> P ->
        snapshot (after (handleClearIndex (ArgsObject a)) w) !! q
        = snapshot w !! q)
  /\ persisted (after (handleClearIndex (ArgsObject a)) w)
     = snapshot (after (handleClearIndex (ArgsObject a)) w)
  /\ indexingStats (after (handleClearIndex (ArgsObject a)) w) = None
  /\ pending (after (handleClearIndex (ArgsObject a)) w) = pending w.
Proof.
  intros Hpath Hex Hdir Hl Hi Hclear.
  destruct (listed_includes P (snapshot w) rec Hl Hi) as [Hinc Hany].
  unfold result, after, events. cbn [handleClearIndex].
  destruct (handleClearIndex_object a w) as [[res w'] evs] eqn:Hrun.
  cbn [fst snd].
  clear_paths Hrun.
  all: try rewrite Hpath in *.
  all: simplify_eq.
  all: rewrite ?Hex, ?Hdir, ?Hinc, ?Hclear in *; simplify_eq/=.
  all: (split;
        [eexists; split; [reflexivity|]; split; [reflexivity|];
         cbn [text textResponse]; unfold startsWith; prefix_of_append|]).
  all: (split; [reflexivity|]).
  all: (split; [unfold getCodebaseStatus, removeCodebaseCompletely;
                 by rewrite lookup_delete_eq|]).
  all: (split; [intros q Hq; unfold removeCodebaseCompletely;
                 by rewrite lookup_delete_ne|done]).
Qed.

(** X2.  Clearing an existing directory whose record is [indexed] or
    [indexing], when [clearIndex] resolves: the answer is the success
    message and no error, [clearIndex] is called before the record is
    removed and the snapshot is saved last, the path is [not_found]
    afterwards, no other record changes, the saved snapshot is the one
    in memory, [indexingStats] is reset, and the queue of tasks is as it
    was. *)
Theorem clear_success (a : IndexArgs) (w : World R) (P : string)
    (rec : IndexRecord) (r' : R) :
  ensureAbsolutePath (arg_path a) = Ok P ->
  fs_existsSync P (remote w) = true ->
  fs_statSync_isDirectory P (remote w) = Ok true ->
  snapshot w !! P = Some rec ->
  isIndexed rec = true \/ isIndexing rec = true ->
  context_clearIndex P (remote w) = (Ok tt, r') ->
  (exists response,
      result (handleClearIndex (ArgsObject a)) w = Ok response
      /\ isError response = false
      /\ startsWith (text response)
           ("Successfully cleared codebase '" +:+ P +:+ "'") = true)
  /\ events (handleClearIndex (ArgsObject a)) w
     = [EvClearIndex P (Ok tt); EvRemoveCodebaseCompletely P;
        EvSaveCodebaseSnapshot]
  /\ getCodebaseStatus P (snapshot (after (handleClearIndex (ArgsObject a)) w))
     = st_not_found
  /\ (forall q, q <> P ->
        snapshot (after (handleClearIndex (ArgsObject a)) w) !! q
        = snapshot w !! q)
  /\ persisted (after (handleClearIndex (ArgsObject a)) w)
     = snapshot (after (handleClearIndex (ArgsObject a)) w)
  /\ indexingStats (after (handleClearIndex (ArgsObject a)) w) = None
  /\ pending (after (handleClearIndex (ArgsObject a)) w) = pending w.
Proof. apply clear_run. Qed.

(** X3.  When [clearIndex] rejects, the record stays: the answer is the
    error [Failed to clear <path>: <message>] (the message is
    [undefined] when a string was thrown), or, when [undefined] or
    [null] was thrown, the answer of the outer [catch] block to the
    [TypeError] that reading [error.message] threw: the error
    [Error clearing index: <message of the TypeError>], unless that
    message contains [COLLECTION_LIMIT_MESSAGE]; nothing is removed,
    nothing is saved and [indexingStats] is kept. *)
Theorem clear_failure_keeps_record (a : IndexArgs) (w : World R) (P : string)
    (rec : IndexRecord) (e : Thrown) (r' : R) :
  ensureAbsolutePath (arg_path a) = Ok P ->
  fs_existsSync P (remote w) = true ->
  fs_statSync_isDirectory P (remote w) = Ok true ->
  snapshot w !! P = Some rec ->
  isIndexed rec = true \/ isIndexing rec = true ->
  context_clearIndex P (remote w) = (Raise e, r') ->
  result (handleClearIndex (ArgsObject a)) w
  = Ok match nullish e with
       | None =>
           errorResponse ("Failed to clear " +:+ P +:+ ": "
                          +:+ show_opt (js_message e))
       | Some what =>
           let errorMessage := caughtMessage (message_TypeError what) in
           if (String.eqb errorMessage COLLECTION_LIMIT_MESSAGE
               || str_includes COLLECTION_LIMIT_MESSAGE errorMessage)%bool
           then textResponse COLLECTION_LIMIT_MESSAGE
           else errorResponse ("Error clearing index: " +:+ errorMessage)
       end
  /\ events (handleClearIndex (ArgsObject a)) w = [EvClearIndex P (Raise e)]
  /\ snapshot (after (handleClearIndex (ArgsObject a)) w) = snapshot w
  /\ persisted (after (handleClearIndex (ArgsObject a)) w) = persisted w
  /\ indexingStats (after (handleClearIndex (ArgsObject a)) w)
     = indexingStats w.
Proof.
  intros Hpath Hex Hdir Hl Hi Hclear.
  destruct (listed_includes P (snapshot w) rec Hl Hi) as [Hinc Hany].
  unfold result, after, events. cbn [handleClearIndex].
  destruct (handleClearIndex_object a w) as [[res w'] evs] eqn:Hrun.
  cbn [fst snd].
  clear_paths Hrun.
  all: try rewrite Hpath in *.
  all: simplify_eq.
  all: rewrite ?Hex, ?Hdir, ?Hinc, ?Hclear in *; simplify_eq/=.
  all: match goal with Hn : nullish _ = _ |- _ => rewrite Hn end.
  all: cbv zeta.
  all: try match goal with Hb : orb _ _ = _ |- _ => rewrite Hb end.
  all: done.
Qed.

(** X4.  A record that is [indexfailed] cannot be cleared: for an
    existing directory with such a record the call changes nothing and
    calls nothing.  It answers that no codebase is indexed (not an
    error) when no path at all is [indexed] or [indexing], and otherwise
    the error that the codebase is not indexed or being indexed. *)
Theorem failed_record_is_not_cleared (a : IndexArgs) (w : World R)
    (P msg : string) (lastPct : option Z) (t : Z) :
  ensureAbsolutePath (arg_path a) = Ok P ->
  fs_existsSync P (remote w) = true ->
  fs_statSync_isDirectory P (remote w) = Ok true ->
  snapshot w !! P = Some (RecIndexFailed msg lastPct t) ->
  handleClearIndex (ArgsObject a) w
  = (Ok (if bool_decide (getIndexedCodebases (snapshot w) = []
                         /\ getIndexingCodebases (snapshot w) = [])
         then textResponse
                "No codebases are currently indexed or being indexed."
         else errorResponse ("Error: Codebase '" +:+ P
                             +:+ "' is not indexed or being indexed.")),
     w, []).
Proof.
  intros Hpath Hex Hdir Hl.
  assert (Hinc : (negb (includes P (getIndexedCodebases (snapshot w)))
                  && negb (includes P (getIndexingCodebases (snapshot w))))%bool
                 = true).
  { apply andb_true_iff. split; apply negb_true_iff, includes_false.
    - intros Hin. apply elem_of_getIndexedCodebases in Hin as (r0 & Hr & Hi).
      rewrite Hl in Hr. by injection Hr as <-.
    - intros Hin. apply elem_of_getIndexingCodebases in Hin as (r0 & Hr & Hi).
      rewrite Hl in Hr. by injection Hr as <-. }
  cbn [handleClearIndex].
  destruct (handleClearIndex_object a w) as [[res w'] evs] eqn:Hrun.
  clear_paths Hrun.
  all: try rewrite Hpath in *.
  all: simplify_eq.
  all: rewrite ?Hex, ?Hdir, ?Hinc in *; simplify_eq/=.
  - rewrite bool_decide_eq_true_2; [done|].
    apply andb_true_iff in Heqb as [H1 H2].
    apply Nat.eqb_eq in H1, H2.
    split; by apply nil_length_inv.
  - rewrite bool_decide_eq_false_2; [done|].
    intros [H1 H2]. rewrite H1, H2 in Heqb. discriminate Heqb.
Qed.

End ClearProperties.

(** ** Requests to index *)

Section IndexProperties.
Context {R : Type} `{Env R}.

(** X5.  Whenever [handleIndexCodebase] starts a background task, the
    task is for the resolved path of the request with the force flag
    and the splitter of the request, the answer is the acknowledgement,
    and before the task was started the record of the path was set to
    [indexing] at 0% and the snapshot was saved: the last four steps of
    the call are the set, the save, [trackCodebasePath] and the start of
    the task.  The saved snapshot is the one in memory and the task is
    the newest in the queue. *)
Theorem acknowledged_request_is_recorded (a : IndexArgs) (w : World R)
    (t : Task) :
  EvStartBackgroundIndexing t ∈ events (handleIndexCodebase (ArgsObject a)) w ->
  ensureAbsolutePath (arg_path a) = Ok (task_path t)
  /\ task_force t = default false (arg_force a)
  /\ task_splitter t = splitterTypeOf a
  /\ result (handleIndexCodebase (ArgsObject a)) w
     = Ok (textResponse
             (startedText (arg_path a) (task_path t) (splitterTypeOf a)
                (default [] (arg_customExtensions a))
                (default [] (arg_ignorePatterns a))))
  /\ (exists now,
        snapshot (after (handleIndexCodebase (ArgsObject a)) w) !! task_path t
        = Some (RecIndexing 0 now))
  /\ persisted (after (handleIndexCodebase (ArgsObject a)) w)
     = snapshot (after (handleIndexCodebase (ArgsObject a)) w)
  /\ pending (after (handleIndexCodebase (ArgsObject a)) w) = pending w ++ [t]
  /\ exists pre,
       events (handleIndexCodebase (ArgsObject a)) w
       = pre ++ [EvSetCodebaseIndexing (task_path t) 0;
                 EvSaveCodebaseSnapshot;
                 EvTrackCodebasePath (task_path t) (Ok tt);
                 EvStartBackgroundIndexing t].
Proof.
  unfold result, after, events. cbn [handleIndexCodebase].
  destruct (handleIndexCodebase_object a w) as [[res w'] evs] eqn:Hrun.
  cbn [fst snd]. intros Hin.
  index_paths Hrun w.
  all: try (event_cases Hin; fail).
  all: event_cases Hin.
  all: injection Hin as ->.
  all: cbn [task_path task_force task_splitter].
  all: repeat match goal with u : unit |- _ => destruct u end.
  all: (split; [reflexivity|]).
  all: (split; [reflexivity|]).
  all: (split; [reflexivity|]).
  all: (split; [reflexivity|]).
  all: (split; [eexists; cbn; unfold setCodebaseIndexing;
                 by rewrite lookup_insert_eq|]).
  all: (split; [reflexivity|]).
  all: (split; [cbn; by rewrite Hpend|]).
  all: rewrite ?app_nil_r.
  all: match goal with
       | |- exists pre, ?ev ++ ?l = _ =>
           exists (ev ++ take (length l - 4) l)
       end.
  all: by rewrite <- app_assoc.
Qed.

(** X6.  A path whose record is [indexfailed] can be indexed again
    without [force]: with reconciliation resolved, for an existing
    directory, a supported splitter and a preflight that passes, the
    request is acknowledged, the record
    becomes [indexing] at 0% (the failure is dropped), it is saved, and
    the task is queued. *)
Theorem failed_path_can_be_retried (a : IndexArgs) (w : World R) (P : string)
    (msg : string) (lastPct : option Z) (t : Z) (b : bool) (r2 r3 r4 : R) :
  result syncIndexedCodebasesFromCloud w = Ok tt ->
  default false (arg_force a) = false ->
  splitterTypeOf a = "ast" \/ splitterTypeOf a = "langchain" ->
  default [] (arg_customExtensions a) = [] ->
  default [] (arg_ignorePatterns a) = [] ->
  ensureAbsolutePath (arg_path a) = Ok P ->
  fs_existsSync P (remote (after syncIndexedCodebasesFromCloud w)) = true ->
  fs_statSync_isDirectory P (remote (after syncIndexedCodebasesFromCloud w))
  = Ok true ->
  snapshot w !! P = Some (RecIndexFailed msg lastPct t) ->
  context_hasIndex P (remote (after syncIndexedCodebasesFromCloud w))
  = (Ok b, r2) ->
  vectorDb_checkCollectionLimit r2 = (Ok true, r3) ->
  trackCodebasePath P r3 = (Ok tt, r4) ->
  result (handleIndexCodebase (ArgsObject a)) w
  = Ok (textResponse (startedText (arg_path a) P (splitterTypeOf a) [] []))
  /\ snapshot (after (handleIndexCodebase (ArgsObject a)) w) !! P
     = Some (RecIndexing 0 (Date_now r3))
  /\ persisted (after (handleIndexCodebase (ArgsObject a)) w)
     = snapshot (after (handleIndexCodebase (ArgsObject a)) w)
  /\ pending (after (handleIndexCodebase (ArgsObject a)) w)
     = pending w ++ [mkTask P false (splitterTypeOf a)].
Proof.
  intros Hsync Hforce Hsp Hext Hpat Hpath Hex Hdir Hrec Hhas Hlim Htrack.
  assert (Hrec1 : snapshot (after syncIndexedCodebasesFromCloud w) !! P
                  = Some (RecIndexFailed msg lastPct t))
    by (by apply sync_keeps_not_indexed).
  assert (Hnd : includes P (getIndexedCodebases
                  (snapshot (after syncIndexedCodebasesFromCloud w))) = false).
  { apply includes_false. intros Hx.
    apply elem_of_getIndexedCodebases in Hx as (r & Hl & Hi).
    rewrite Hrec1 in Hl. by injection Hl as <-. }
  assert (Hni : includes P (getIndexingCodebases
                  (snapshot (after syncIndexedCodebasesFromCloud w))) = false).
  { apply includes_false. intros Hx.
    apply elem_of_getIndexingCodebases in Hx as (r & Hl & Hi).
    rewrite Hrec1 in Hl. by injection Hl as <-. }
  unfold result, after. cbn [handleIndexCodebase].
  destruct (handleIndexCodebase_object a w) as [[res w'] evs] eqn:Hrun.
  cbn [fst snd]. fold (after syncIndexedCodebasesFromCloud w) in *.
  index_paths Hrun w.
  all: try rewrite Hpath in *.
  all: simplify_eq.
  all: destruct Hsp as [Hsp|Hsp];
    rewrite ?Hsp, ?Hforce, ?Hext, ?Hpat, ?Hex, ?Hdir, ?Hni, ?Hnd, ?Hhas in *;
    repeat match goal with
           | Hb : context [String.eqb _ _] |- _ => progress (vm_compute in Hb)
           | Hb : context [Nat.ltb _ _] |- _ => progress (vm_compute in Hb)
           end;
    simplify_eq/=.
  all: rewrite ?Hlim in *; simplify_eq/=.
  all: rewrite ?Htrack in *; simplify_eq/=.
  all: (split; [done|]).
  all: (split; [unfold setCodebaseIndexing; by rewrite lookup_insert_eq|]).
  all: (split; [done|by rewrite Hpend]).
Qed.

(** X7.  A request without [force] for an existing directory whose
    record is [indexed] after a reconciliation that resolved is refused
    with the
    "already indexed, use force=true" error: beyond reconciliation the
    call only asks [hasIndex], it changes neither the snapshot nor the
    saved snapshot and starts no task. *)
Theorem indexed_needs_force (a : IndexArgs) (w : World R) (P : string)
    (f c : Z) (st : IndexStatus) (t : Z) (b : bool) (r2 : R) :
  result syncIndexedCodebasesFromCloud w = Ok tt ->
  default false (arg_force a) = false ->
  splitterTypeOf a = "ast" \/ splitterTypeOf a = "langchain" ->
  ensureAbsolutePath (arg_path a) = Ok P ->
  fs_existsSync P (remote (after syncIndexedCodebasesFromCloud w)) = true ->
  fs_statSync_isDirectory P (remote (after syncIndexedCodebasesFromCloud w))
  = Ok true ->
  snapshot (after syncIndexedCodebasesFromCloud w) !! P
  = Some (RecIndexed f c st t) ->
  context_hasIndex P (remote (after syncIndexedCodebasesFromCloud w))
  = (Ok b, r2) ->
  result (handleIndexCodebase (ArgsObject a)) w
  = Ok (errorResponse ("Codebase '" +:+ P
                       +:+ "' is already indexed. Use force=true to re-index."))
  /\ events (handleIndexCodebase (ArgsObject a)) w
     = events syncIndexedCodebasesFromCloud w ++ [EvHasIndex P (Ok b)]
  /\ snapshot (after (handleIndexCodebase (ArgsObject a)) w)
     = snapshot (after syncIndexedCodebasesFromCloud w)
  /\ persisted (after (handleIndexCodebase (ArgsObject a)) w)
     = persisted (after syncIndexedCodebasesFromCloud w)
  /\ pending (after (handleIndexCodebase (ArgsObject a)) w) = pending w.
Proof.
  intros Hsync Hforce Hsp Hpath Hex Hdir Hrec Hhas.
  assert (Hinc : includes P (getIndexedCodebases
                   (snapshot (after syncIndexedCodebasesFromCloud w))) = true).
  { apply includes_true, elem_of_getIndexedCodebases. eauto. }
  assert (Hninc : includes P (getIndexingCodebases
                    (snapshot (after syncIndexedCodebasesFromCloud w))) = false).
  { apply includes_false. intros Hx.
    apply elem_of_getIndexingCodebases in Hx as (r & Hl & Hi).
    rewrite Hrec in Hl. by injection Hl as <-. }
  unfold result, after, events. cbn [handleIndexCodebase].
  destruct (handleIndexCodebase_object a w) as [[res w'] evs] eqn:Hrun.
  cbn [fst snd]. fold (after syncIndexedCodebasesFromCloud w) in *.
  fold (events syncIndexedCodebasesFromCloud w) in *.
  index_paths Hrun w.
  all: try rewrite Hpath in *.
  all: simplify_eq.
  all: destruct Hsp as [Hsp|Hsp];
    rewrite ?Hsp, ?Hex, ?Hdir, ?Hinc, ?Hninc, ?Hforce, ?Hhas in *;
    repeat match goal with
           | Hb : context [String.eqb _ _] |- _ => progress (vm_compute in Hb)
           end;
    simplify_eq/=.
  all: done.
Qed.

(** X8.  When reconciliation resolved, a request for a path that does
    not exist, or that exists and is not a directory, does exactly what
    reconciliation does and answers with the error that names the path:
    the world and the events of the call are those of
    [syncIndexedCodebasesFromCloud]. *)
Theorem invalid_directory_only_reconciles (a : IndexArgs) (w : World R)
    (P : string) :
  result syncIndexedCodebasesFromCloud w = Ok tt ->
  splitterTypeOf a = "ast" \/ splitterTypeOf a = "langchain" ->
  ensureAbsolutePath (arg_path a) = Ok P ->
  fs_existsSync P (remote (after syncIndexedCodebasesFromCloud w)) = false
  \/ fs_statSync_isDirectory P (remote (after syncIndexedCodebasesFromCloud w))
     = Ok false ->
  handleIndexCodebase (ArgsObject a) w
  = (Ok (errorResponse
           (if fs_existsSync P (remote (after syncIndexedCodebasesFromCloud w))
            then "Error: Path '" +:+ P +:+ "' is not a directory"
            else "Error: Path '" +:+ P
                 +:+ "' does not exist. Original input: '"
                 +:+ show_opt (arg_path a) +:+ "'")),
     after syncIndexedCodebasesFromCloud w,
     events syncIndexedCodebasesFromCloud w).
Proof.
  intros Hsync Hsp Hpath Hbad.
  cbn [handleIndexCodebase].
  destruct (handleIndexCodebase_object a w) as [[res w'] evs] eqn:Hrun.
  index_paths Hrun w.
  all: try rewrite Hpath in *.
  all: simplify_eq.
  all: destruct Hsp as [Hsp|Hsp];
    rewrite ?Hsp in *;
    repeat match goal with
           | Hb : context [String.eqb _ _] |- _ => progress (vm_compute in Hb)
           end;
    simplify_eq/=.
  all: repeat match goal with
              | Hb : negb _ = true |- _ => apply negb_true_iff in Hb
              | Hb : negb _ = false |- _ => apply negb_false_iff in Hb
              end.
  all: destruct Hbad as [Hbad|Hbad]; try congruence.
  all: rewrite ?app_nil_r.
  all: repeat match goal with Hb : fs_existsSync _ _ = _ |- _ => rewrite Hb end.
  all: try reflexivity.
  all: simplify_eq.
Qed.

(** X9.  When [trackCodebasePath] throws, the call answers with the
    error [Error starting indexing: ...] and starts no task, but the
    record of the path has already been set to [indexing] at 0% and
    saved: it stays [indexing] with no task behind it. *)
Theorem failed_tracking_leaves_indexing (a : IndexArgs) (w : World R)
    (P : string) (e : Thrown) :
  EvTrackCodebasePath P (Raise e)
    ∈ events (handleIndexCodebase (ArgsObject a)) w ->
  result (handleIndexCodebase (ArgsObject a)) w
  = Ok (errorResponse ("Error starting indexing: " +:+ message_or_String e))
  /\ (exists now,
        snapshot (after (handleIndexCodebase (ArgsObject a)) w) !! P
        = Some (RecIndexing 0 now))
  /\ persisted (after (handleIndexCodebase (ArgsObject a)) w)
     = snapshot (after (handleIndexCodebase (ArgsObject a)) w)
  /\ pending (after (handleIndexCodebase (ArgsObject a)) w) = pending w
  /\ forall t,
       EvStartBackgroundIndexing t
         ∉ events (handleIndexCodebase (ArgsObject a)) w.
Proof.
  unfold result, after, events. cbn [handleIndexCodebase].
  destruct (handleIndexCodebase_object a w) as [[res w'] evs] eqn:Hrun.
  cbn [fst snd]. intros Hin.
  index_paths Hrun w.
  all: try (event_cases Hin; fail).
  all: event_cases Hin.
  all: injection Hin as -> ->.
  all: (split; [reflexivity|]).
  all: (split; [eexists; cbn; unfold setCodebaseIndexing;
                 by rewrite lookup_insert_eq|]).
  all: (split; [reflexivity|]).
  all: (split; [exact Hpend|]).
  all: intros t Hx; event_cases Hx.
Qed.

(** X10.  A call of [handleIndexCodebase] leaves the record of every
    path but the one it resolves as reconciliation left it. *)
Theorem index_request_touches_one_path (a : IndexArgs) (w : World R)
    (q : string) :
  ensureAbsolutePath (arg_path a) <> Ok q ->
  snapshot (after (handleIndexCodebase (ArgsObject a)) w) !! q
  = snapshot (after syncIndexedCodebasesFromCloud w) !! q.
Proof.
  intros Hq.
  unfold result, after, events. cbn [handleIndexCodebase].
  destruct (handleIndexCodebase_object a w) as [[res w'] evs] eqn:Hrun.
  cbn [fst snd]. fold (after syncIndexedCodebasesFromCloud w) in *.
  index_paths Hrun w.
  all: try reflexivity.
  all: cbn; unfold setCodebaseIndexing, removeIndexedCodebase.
  all: rewrite ?lookup_insert_ne, ?lookup_delete_ne by congruence.
  all: reflexivity.
Qed.

Lemma started_run (a : IndexArgs) (w : World R) (t : Task) :
  EvStartBackgroundIndexing t ∈ events (handleIndexCodebase (ArgsObject a)) w ->
  exists response,
    result (handleIndexCodebase (ArgsObject a)) w = Ok response
    /\ pending (after (handleIndexCodebase (ArgsObject a)) w) = pending w ++ [t]
    /\ exists now,
         snapshot (after (handleIndexCodebase (ArgsObject a)) w) !! task_path t
         = Some (RecIndexing 0 now).
Proof.
  unfold result, after, events. cbn [handleIndexCodebase].
  destruct (handleIndexCodebase_object a w) as [[res w'] evs] eqn:Hrun.
  cbn [fst snd]. intros Hin.
  index_paths Hrun w.
  all: try (event_cases Hin; fail).
  all: event_cases Hin.
  all: injection Hin as ->.
  all: eexists; split; [reflexivity|split; [cbn; by rewrite Hpend|]].
  all: eexists; cbn; unfold setCodebaseIndexing; by rewrite lookup_insert_eq.
Qed.

End IndexProperties.

(** ** The background task, and what follows a request *)

Section TaskProperties.
Context {R : Type} `{Env R}.

Lemma savesOf_app (l1 l2 : list Event) :
  savesOf (l1 ++ l2) = savesOf l1 + savesOf l2.
Proof. unfold savesOf. rewrite filter_app, length_app. lia. Qed.

Lemma progress_saves (P : string) (ps : list Progress) (t0 T : Z)
    (w : World R) :
  t0 <= T -> Forall (fun pr => at_time pr <= T) ps ->
  exists t',
    result (foldM (onProgress P) t0 ps) w = Ok t'
    /\ t' <= T
    /\ 2000 * savesOf (events (foldM (onProgress P) t0 ps) w) <= t' - t0.
Proof.
  intros Ht Hall. revert t0 w Ht.
  induction Hall as [|pr ps Hpr Hall IH]; intros t0 w Ht.
  - exists t0. unfold result, events. cbn. split; [done|].
    split; [lia|]. change (savesOf []) with 0. lia.
  - assert (Hstep : exists t1 w1 ev1,
               onProgress P t0 pr w = (Ok t1, w1, ev1)
               /\ t1 <= T /\ 2000 * savesOf ev1 <= t1 - t0).
    { unfold onProgress, bind, setCodebaseIndexing_, mutate.
      destruct (2000 <=? at_time pr - t0) eqn:Hle.
      - apply Z.leb_le in Hle. eexists _, _, _. split; [reflexivity|].
        split; [done|].
        change (savesOf _) with 1. lia.
      - eexists _, _, _. split; [reflexivity|]. split; [done|].
        change (savesOf _) with 0. lia. }
    destruct Hstep as (t1 & w1 & ev1 & Hstep & Ht1 & Hs1).
    destruct (IH t1 w1 Ht1) as (t' & Hres & Hb & Hs).
    unfold result, events in *. cbn [foldM]. unfold bind. rewrite Hstep.
    destruct (foldM (onProgress P) t1 ps w1) as [[res w2] evs].
    cbn [fst snd] in *. subst res. exists t'.
    split; [done|]. split; [done|]. rewrite savesOf_app. lia.
Qed.

Lemma saveTimes_nil (evs : list Event) : saveTimes [] evs = [].
Proof. induction evs as [|[] evs IH]; done. Qed.

(** One call of the callback. *)
Lemma onProgress_step (P : string) (t0 : Z) (pr : Progress) (w : World R) :
  exists w1,
    onProgress P t0 pr w
    = (Ok (if 2000 <=? at_time pr - t0 then at_time pr else t0), w1,
       EvSetCodebaseIndexing P (percentage pr)
       :: (if 2000 <=? at_time pr - t0 then [EvSaveCodebaseSnapshot]
           else [])).
Proof.
  unfold onProgress, bind, setCodebaseIndexing_, mutate.
  destruct (2000 <=? at_time pr - t0); eexists; reflexivity.
Qed.

(** The callbacks of a run start with a [setCodebaseIndexing]. *)
Lemma progress_head (P : string) (ps : list Progress) (t0 : Z) (w : World R)
    (rest : list Event) :
  match rest with EvSaveCodebaseSnapshot :: _ => False | _ => True end ->
  match events (foldM (onProgress P) t0 ps) w ++ rest with
  | EvSaveCodebaseSnapshot :: _ => False
  | _ => True
  end.
Proof.
  intros Hrest. destruct ps as [|pr ps]; [exact Hrest|].
  destruct (onProgress_step P t0 pr w) as [w1 Hstep].
  unfold events. cbn [foldM]. unfold bind. rewrite Hstep.
  by destruct (foldM _ _ _ _) as [[? ?] ?].
Qed.

(** The callback saves exactly at the reports at which a save is due. *)
Lemma progress_saveTimes (P : string) (ps : list Progress) (t0 : Z)
    (w : World R) (rest : list Event) :
  match rest with EvSaveCodebaseSnapshot :: _ => False | _ => True end ->
  saveTimes ps (events (foldM (onProgress P) t0 ps) w ++ rest)
  = dueTimes t0 ps.
Proof.
  intros Hrest. revert t0 w.
  induction ps as [|pr ps IH]; intros t0 w; [apply saveTimes_nil|].
  destruct (onProgress_step P t0 pr w) as [w1 Hstep].
  pose proof (progress_head P ps) as Hhead.
  unfold events in *. cbn [foldM dueTimes]. unfold bind. rewrite Hstep.
  destruct (2000 <=? at_time pr - t0).
  - specialize (IH (at_time pr) w1).
    destruct (foldM _ (at_time pr) ps w1) as [[r2 w2] ev2].
    cbn in *. by rewrite IH.
  - specialize (IH t0 w1). specialize (Hhead t0 w1 rest Hrest).
    destruct (foldM _ t0 ps w1) as [[r2 w2] ev2].
    cbn in *. rewrite <- IH.
    destruct (ev2 ++ rest) as [|[] l]; done.
Qed.

Lemma dueTimes_spaced (t0 : Z) (ps : list Progress) :
  spaced t0 (dueTimes t0 ps).
Proof.
  revert t0. induction ps as [|pr ps IH]; intros t0; [done|].
  cbn [dueTimes]. destruct (2000 <=? at_time pr - t0) eqn:Hle; [|apply IH].
  split; [by apply Z.leb_le|apply IH].
Qed.

Lemma progress_save_count (P : string) (ps : list Progress) (t0 : Z)
    (w : World R) :
  savesOf (events (foldM (onProgress P) t0 ps) w)
  = Z.of_nat (length (dueTimes t0 ps)).
Proof.
  revert t0 w. induction ps as [|pr ps IH]; intros t0 w; [done|].
  destruct (onProgress_step P t0 pr w) as [w1 Hstep].
  unfold events in *. cbn [foldM dueTimes]. unfold bind. rewrite Hstep.
  destruct (2000 <=? at_time pr - t0).
  - specialize (IH (at_time pr) w1).
    destruct (foldM _ (at_time pr) ps w1) as [[r2 w2] ev2].
    cbn [fst snd length] in *.
    change ((EvSetCodebaseIndexing P (percentage pr)
             :: [EvSaveCodebaseSnapshot]) ++ ev2)
      with ([EvSetCodebaseIndexing P (percentage pr)]
            ++ [EvSaveCodebaseSnapshot] ++ ev2).
    rewrite !savesOf_app, IH.
    change (savesOf [EvSetCodebaseIndexing P (percentage pr)]) with 0.
    change (savesOf [EvSaveCodebaseSnapshot]) with 1. lia.
  - specialize (IH t0 w1).
    destruct (foldM _ t0 ps w1) as [[r2 w2] ev2].
    cbn [fst snd] in *.
    rewrite !savesOf_app, IH.
    change (savesOf [EvSetCodebaseIndexing P (percentage pr)]) with 0. lia.
Qed.

(** The events of [indexCodebase] around those of its callbacks. *)
Lemma indexCodebase_events (P : string) (t0 : Z) (w : World R) :
  events (indexCodebase_ P t0) w
  = EvIndexCodebase P
    :: events (foldM (onProgress P) t0
                 (context_indexCodebase P (remote w)).1.1) w
    ++ [EvIndexCodebaseSettled P (context_indexCodebase P (remote w)).1.2].
Proof.
  unfold events. unfold indexCodebase_.
  unfold bind at 1. unfold emit at 1.
  unfold bind at 1. unfold reads at 1. unfold bind at 1.
  destruct (context_indexCodebase P (remote w)) as [[ps res] r'].
  cbn [fst snd].
  destruct (progress_run P ps t0 w) as (t' & pers & evs & Hrun & _).
  rewrite Hrun. unfold external. cbn. by destruct res.
Qed.

(** X11.  The progress callback writes the snapshot file at most once
    per 2000 ms, and whenever that much has passed.  In a run of
    [indexCodebase] whose last save was at [t0], the callback saves
    exactly at the reports that come 2000 ms or more after the previous
    save (after [t0] for the first); so two saves are 2000 ms or more
    apart, the number of writes of the file is the number of those
    reports, and when every report comes no later than [T] there are at
    most [(T - t0) / 2000] of them. *)
Theorem progress_saves_are_debounced (P : string) (t0 : Z) (w : World R) :
  let ps := (context_indexCodebase P (remote w)).1.1 in
  let evs := events (indexCodebase_ P t0) w in
  saveTimes ps evs = dueTimes t0 ps
  /\ spaced t0 (saveTimes ps evs)
  /\ savesOf evs = Z.of_nat (length (saveTimes ps evs))
  /\ forall T,
       t0 <= T -> Forall (fun pr => at_time pr <= T) ps ->
       2000 * savesOf evs <= T - t0.
Proof.
  cbv zeta. rewrite indexCodebase_events.
  set (ps := (context_indexCodebase P (remote w)).1.1).
  set (res := (context_indexCodebase P (remote w)).1.2).
  assert (Hdue : saveTimes ps
                   (EvIndexCodebase P
                    :: events (foldM (onProgress P) t0 ps) w
                    ++ [EvIndexCodebaseSettled P res])
                 = dueTimes t0 ps).
  { change (saveTimes ps (events (foldM (onProgress P) t0 ps) w
                          ++ [EvIndexCodebaseSettled P res])
            = dueTimes t0 ps).
    by apply progress_saveTimes. }
  assert (Hcount : savesOf (EvIndexCodebase P
                            :: events (foldM (onProgress P) t0 ps) w
                            ++ [EvIndexCodebaseSettled P res])
                   = savesOf (events (foldM (onProgress P) t0 ps) w)).
  { change (EvIndexCodebase P
            :: events (foldM (onProgress P) t0 ps) w
            ++ [EvIndexCodebaseSettled P res])
      with ([EvIndexCodebase P]
            ++ events (foldM (onProgress P) t0 ps) w
            ++ [EvIndexCodebaseSettled P res]).
    rewrite !savesOf_app.
    change (savesOf [EvIndexCodebase P]) with 0.
    assert (savesOf [EvIndexCodebaseSettled P res] = 0) as ->; [|lia].
    unfold savesOf. rewrite filter_cons.
    destruct (decide (EvIndexCodebaseSettled P res = EvSaveCodebaseSnapshot));
      [discriminate|done]. }
  rewrite Hdue, Hcount.
  split; [done|]. split; [apply dueTimes_spaced|].
  split; [apply progress_save_count|].
  intros T Ht Hall.
  destruct (progress_saves P ps t0 T w Ht Hall) as (t' & Hres & Hb & Hs).
  lia.
Qed.

(** The world the core of the task leaves. *)
Lemma taskCore_world (P : string) (t0 : Z) (w : World R) :
  let run := taskCore P t0 w in
  pending run.1.2 = pending w
  /\ (forall q, q <> P -> snapshot run.1.2 !! q = snapshot w !! q)
  /\ match run.1.1 with
     | Ok st =>
         snapshot run.1.2 !! P
         = Some (RecIndexed (indexedFiles st) (totalChunks st) (status st)
                   (Date_now (remote run.1.2)))
         /\ indexingStats run.1.2 = Some (indexedFiles st, totalChunks st)
         /\ persisted run.1.2 = snapshot run.1.2
     | Raise _ => indexingStats run.1.2 = indexingStats w
     end.
Proof.
  cbv zeta.
  destruct (taskCore P t0 w) as [[rc wc] evc] eqn:Hc. cbn [fst snd].
  destruct (prep_run P prepSteps w) as (res & r1 & evp & Hprep & Hkp & _).
  unfold taskCore in Hc. unfold bind at 1 in Hc. rewrite Hprep in Hc.
  destruct res as [u|e]; [|by injection Hc as <- <- <-].
  destruct (indexCodebase_run P t0 (setRemote r1 w))
    as (pers & evg & Hidx & Hkg & Hobs).
  unfold bind at 1 in Hc. rewrite Hidx in Hc.
  destruct (context_indexCodebase P (remote (setRemote r1 w)))
    as [[ps res] r2]. cbn [fst snd] in Hc.
  destruct res as [st|e]; cbn in Hc; injection Hc as <- <- <-; cbn.
  - split; [done|]. split.
    + intros q Hq. unfold setCodebaseIndexed.
      rewrite lookup_insert_ne by done. by apply afterReports_other.
    + unfold setCodebaseIndexed. by rewrite lookup_insert_eq.
  - split; [done|]. split; [|done].
    intros q Hq. by apply afterReports_other.
Qed.

(** The task resolves, unless its [try] block threw [undefined] or
    [null]. *)
Lemma task_settles (P : string) (f : bool) (sp : string) (w : World R) :
  result (startBackgroundIndexing P f sp) w = Ok tt
  \/ exists e what,
       result (startBackgroundIndexing_try P f sp 0) w = Raise e
       /\ nullish e = Some what
       /\ result (startBackgroundIndexing P f sp) w
          = Raise (message_TypeError what)
       /\ after (startBackgroundIndexing P f sp) w
          = after (startBackgroundIndexing_try P f sp 0) w.
Proof.
  pose proof (task_cases P f sp w) as Ht.
  unfold result, after.
  destruct (startBackgroundIndexing_try P f sp 0 w) as [[[u|e] w1] evs].
  - left. by rewrite Ht.
  - destruct (nullish e) as [what|] eqn:Hn; cbv zeta in Ht; rewrite Ht.
    + right. by exists e, what.
    + by left.
Qed.

Lemma task_world (P : string) (f : bool) (sp : string) (w : World R) :
  (result (startBackgroundIndexing P f sp) w = Ok tt ->
   terminalRecord
     (snapshot (after (startBackgroundIndexing P f sp) w) !! P)
     (indexingStats (after (startBackgroundIndexing P f sp) w))
   /\ persisted (after (startBackgroundIndexing P f sp) w)
      = snapshot (after (startBackgroundIndexing P f sp) w))
  /\ (forall q, q <> P ->
        snapshot (after (startBackgroundIndexing P f sp) w) !! q
        = snapshot w !! q)
  /\ pending (after (startBackgroundIndexing P f sp) w) = pending w.
Proof.
  pose proof (task_cases P f sp w) as Ht. rewrite try_as_core in Ht.
  unfold result, after.
  pose proof (taskCore_world P 0 w) as Hw. cbv zeta in Hw.
  destruct (taskCore P 0 w) as [[[st|e] w1] evs]; cbn [fst snd] in *.
  - destruct Hw as (Hpend & Hframe & Hrec & Hstats & Hpers).
    rewrite Ht. cbn [fst snd]. rewrite Hrec. cbn. done.
  - destruct Hw as (Hpend & Hframe & Hstats).
    destruct (nullish e); cbv zeta in Ht; rewrite Ht; cbn [fst snd].
    + split; [intros [=]|done].
    + cbn. unfold setCodebaseIndexFailed. rewrite lookup_insert_eq. cbn.
      split; [done|]. split; [|done].
      intros q Hq. rewrite lookup_insert_ne by done. by apply Hframe.
Qed.

(** X12.  The background task ends in a terminal state that is saved,
    unless its [try] block throws [undefined] or [null].  When the task
    resolves, the record of its path is [indexed], with [indexingStats]
    holding its files and chunks, or [indexfailed], never [indexing],
    and the saved snapshot is the one in memory.  It resolves when its
    [try] block returns and when that block throws an error or a
    string.  When the block throws [undefined] or [null] the task
    rejects with the [TypeError] of reading [error.message]: the state
    is as the [try] block left it, and a record that was [indexing]
    stays [indexing].  In every case the record of every other path and
    the queue of tasks are as they were. *)
Theorem task_ends_terminal (P : string) (f : bool) (sp : string)
    (w : World R) :
  (result (startBackgroundIndexing P f sp) w = Ok tt ->
   terminalRecord
     (snapshot (after (startBackgroundIndexing P f sp) w) !! P)
     (indexingStats (after (startBackgroundIndexing P f sp) w))
   /\ persisted (after (startBackgroundIndexing P f sp) w)
      = snapshot (after (startBackgroundIndexing P f sp) w))
  /\ match result (startBackgroundIndexing_try P f sp 0) w with
     | Ok _ => result (startBackgroundIndexing P f sp) w = Ok tt
     | Raise e =>
         match nullish e with
         | None => result (startBackgroundIndexing P f sp) w = Ok tt
         | Some what =>
             result (startBackgroundIndexing P f sp) w
             = Raise (message_TypeError what)
             /\ after (startBackgroundIndexing P f sp) w
                = after (startBackgroundIndexing_try P f sp 0) w
             /\ (getCodebaseStatus P (snapshot w) = st_indexing ->
                 getCodebaseStatus P
                   (snapshot (after (startBackgroundIndexing P f sp) w))
                 = st_indexing)
         end
     end
  /\ (forall q, q <> P ->
        snapshot (after (startBackgroundIndexing P f sp) w) !! q
        = snapshot w !! q)
  /\ pending (after (startBackgroundIndexing P f sp) w) = pending w.
Proof.
  destruct (task_world P f sp w) as (Hterm & Hframe & Hpend).
  split; [exact Hterm|]. split; [|done].
  pose proof (task_cases P f sp w) as Ht.
  pose proof (failed_try_keeps_indexing P f sp w) as Hkeep.
  unfold result, after in *.
  destruct (startBackgroundIndexing_try P f sp 0 w) as [[[u|e] w1] evs];
    cbn [fst snd] in *.
  - by rewrite Ht.
  - specialize (Hkeep e eq_refl).
    destruct (nullish e); cbv zeta in Ht; by rewrite Ht.
Qed.


Lemma after_bind_ok {A B} (m : M R A) (k : A -> M R B) (w w1 : World R)
    (x : A) (ev1 : list Event) :
  m w = (Ok x, w1, ev1) -> after (bind m k) w = after (k x) w1.
Proof.
  intros Hm. unfold after, bind. rewrite Hm.
  by destruct (k x w1) as [[r2 w2] ev2].
Qed.

Lemma runNextTask_head (t : Task) (rest : list Task) (w : World R) :
  pending w = t :: rest ->
  runNextTask w
  = startBackgroundIndexing (task_path t) (task_force t) (task_splitter t)
      (mkWorld (snapshot w) (persisted w) (indexingStats w) (remote w) rest).
Proof. intros Hp. unfold runNextTask. by rewrite Hp. Qed.

Lemma result_bind_ok {A B} (m : M R A) (k : A -> M R B) (w w1 : World R)
    (x : A) (ev1 : list Event) :
  m w = (Ok x, w1, ev1) -> result (bind m k) w = result (k x) w1.
Proof.
  intros Hm. unfold result, bind. rewrite Hm.
  by destruct (k x w1) as [[r2 w2] ev2].
Qed.

(** X13.  An acknowledged request, followed by its task, ends in a
    terminal state unless the task rejects: when no task was waiting
    and [handleIndexCodebase] started one, then after the task has run
    no task is waiting, and, when the task resolved, the record of the
    path is [indexed] or [indexfailed] and it is saved.  The task
    rejects only with the [TypeError] of reading [message] of an
    [undefined] or [null] that its [try] block threw; the record of the
    path then stays [indexing]. *)
Theorem acknowledged_request_ends_terminal (a : IndexArgs) (w : World R)
    (t : Task) :
  pending w = [] ->
  EvStartBackgroundIndexing t ∈ events (handleIndexCodebase (ArgsObject a)) w ->
  match result (handleIndexCodebase (ArgsObject a) ;; runNextTask) w with
  | Ok _ =>
      terminalRecord
        (snapshot (after (handleIndexCodebase (ArgsObject a) ;; runNextTask) w)
           !! task_path t)
        (indexingStats
           (after (handleIndexCodebase (ArgsObject a) ;; runNextTask) w))
      /\ persisted (after (handleIndexCodebase (ArgsObject a) ;; runNextTask) w)
         = snapshot (after (handleIndexCodebase (ArgsObject a) ;; runNextTask) w)
  | Raise e =>
      (exists what, e = message_TypeError what)
      /\ getCodebaseStatus (task_path t)
           (snapshot
              (after (handleIndexCodebase (ArgsObject a) ;; runNextTask) w))
         = st_indexing
  end
  /\ pending (after (handleIndexCodebase (ArgsObject a) ;; runNextTask) w) = [].
Proof.
  intros Hempty Hin.
  destruct (started_run a w t Hin) as (response & Hres & Hpend & Hrec).
  rewrite Hempty in Hpend. change ([] ++ [t]) with [t] in Hpend.
  unfold result, after in Hres, Hpend, Hrec.
  destruct (handleIndexCodebase (ArgsObject a) w) as [[res w1] ev1] eqn:Hrun.
  cbn [fst snd] in *. subst res.
  rewrite (after_bind_ok _ _ w w1 response ev1 Hrun).
  rewrite (result_bind_ok _ _ w w1 response ev1 Hrun).
  unfold result, after. rewrite (runNextTask_head t [] w1 Hpend).
  match goal with
  | |- context [startBackgroundIndexing ?P ?f ?sp ?w0] =>
      destruct (task_world P f sp w0) as (Hterm & _ & Hp);
      destruct (task_settles P f sp w0) as [Hok|(e & what & Hr & Hn & Hrej & Haft)];
      pose proof (failed_try_keeps_indexing P f sp w0) as Hkeep
  end.
  - unfold result, after in *. rewrite Hok in *. split; [by apply Hterm|done].
  - unfold result, after in *. rewrite Hrej. split; [|done].
    split; [by exists what|]. rewrite Haft.
    apply (Hkeep e Hr). cbn [snapshot].
    destruct Hrec as [now Hrec]. apply status_indexing_lookup. eauto.
Qed.

(** X14.  Clearing a path that is being indexed does not cancel its
    task.  The clear succeeds and leaves the path [not_found], the task
    stays in the queue, and once it has run and resolved the path has a
    record again, [indexed] or [indexfailed]. *)
Theorem clear_does_not_cancel_task (a : IndexArgs) (w : World R) (P : string)
    (pct t0 : Z) (r' : R) (f : bool) (sp : string) (rest : list Task) :
  ensureAbsolutePath (arg_path a) = Ok P ->
  fs_existsSync P (remote w) = true ->
  fs_statSync_isDirectory P (remote w) = Ok true ->
  snapshot w !! P = Some (RecIndexing pct t0) ->
  context_clearIndex P (remote w) = (Ok tt, r') ->
  pending w = mkTask P f sp :: rest ->
  getCodebaseStatus P (snapshot (after (handleClearIndex (ArgsObject a)) w))
  = st_not_found
  /\ pending (after (handleClearIndex (ArgsObject a)) w) = pending w
  /\ (result (handleClearIndex (ArgsObject a) ;; runNextTask) w = Ok tt ->
      terminalRecord
        (snapshot (after (handleClearIndex (ArgsObject a) ;; runNextTask) w)
           !! P)
        (indexingStats
           (after (handleClearIndex (ArgsObject a) ;; runNextTask) w))).
Proof.
  intros Hpath Hex Hdir Hl Hclear Hpend.
  destruct (clear_run a w P (RecIndexing pct t0) r' Hpath Hex Hdir Hl
              (or_intror eq_refl) Hclear)
    as ((response & Hres & _) & _ & Hst & _ & _ & _ & Hp).
  split; [exact Hst|]. split; [exact Hp|].
  unfold result, after in Hres, Hp.
  destruct (handleClearIndex (ArgsObject a) w) as [[res w1] ev1] eqn:Hrun.
  cbn [fst snd] in *. subst res.
  rewrite (after_bind_ok _ _ w w1 response ev1 Hrun).
  rewrite (result_bind_ok _ _ w w1 response ev1 Hrun).
  rewrite Hpend in Hp.
  unfold result, after. rewrite (runNextTask_head _ rest w1 Hp).
  match goal with
  | |- context [startBackgroundIndexing ?P ?f ?sp ?w0] =>
      destruct (task_world P f sp w0) as (Hterm & _)
  end.
  intros Hok. by apply Hterm.
Qed.

End TaskProperties.

(** ** Reconciliation, further *)

Section ReconcileProperties.
Context {R : Type} `{Env R}.

(** How the loop over the collections was left. *)
Lemma checkCollection_queries (acc : gset string) (c : string) (w : World R) :
  exists res w' evs,
    checkCollection acc c w = (res, w', evs)
    /\ queriedCollections evs = (if isCodeCollection c then [c] else [])
    /\ (isCodeCollection c = false -> res = Ok acc)
    /\ (forall te, res = Raise te ->
          exists e what, EvQuery c (Raise e) ∈ evs /\ nullish e = Some what).
Proof.
  unfold checkCollection, try_catch, lift, message_or, bind, external,
    ret, throw, isCodeCollection.
  destruct (startsWith c "code_chunks_"),
    (startsWith c "hybrid_code_chunks_"); cbn.
  4:{ eexists _, _, _. split; [reflexivity|]. done. }
  all: destruct (vectorDb_query c (remote w)) as [[rows0|e] r'] eqn:Hq; cbn.
  all: try (destruct (nullish e) as [what|] eqn:Hn; cbn;
            eexists _, _, _; (split; [reflexivity|]);
            (split; [done|]); (split; [done|]);
            intros te [=]; exists e, what; split; [|done];
            rewrite ?app_nil_r; apply list_elem_of_singleton; done).
  all: destruct rows0 as [|firstResult rest];
    [|destruct (metadata firstResult) as [metadataStr|];
      [destruct (String.eqb metadataStr "");
        [|destruct (JSON_parse_codebasePath metadataStr) as [[p|]|e];
          [destruct (String.eqb p "")| |]]|]];
    (eexists _, _, _; split; [reflexivity|]; done).
Qed.

Lemma collect_queries (acc : gset string) (cols : list string) (w : World R) :
  exists res w' evs,
    foldM checkCollection acc cols w = (res, w', evs)
    /\ match res with
       | Ok cloud =>
           queriedCollections evs
           = filter (fun c => isCodeCollection c = true) cols
           /\ (Forall (fun c => isCodeCollection c = false) cols ->
               cloud = acc)
       | Raise _ =>
           exists pre c post e what,
             filter (fun c => isCodeCollection c = true) cols
             = pre ++ c :: post
             /\ queriedCollections evs = pre ++ [c]
             /\ EvQuery c (Raise e) ∈ evs
             /\ nullish e = Some what
       end.
Proof.
  revert acc w. induction cols as [|c cols IH]; intros acc w.
  - eexists _, _, _. split; [reflexivity|]. done.
  - destruct (checkCollection_queries acc c w)
      as (res1 & w1 & ev1 & Hrun1 & Hq1 & Hc1 & Hr1).
    destruct res1 as [cloud1|te].
    + destruct (IH cloud1 w1) as (res2 & w2 & ev2 & Hrun2 & Hres2).
      exists res2, w2, (ev1 ++ ev2).
      split; [cbn [foldM]; unfold bind; by rewrite Hrun1, Hrun2|].
      assert (Hq : queriedCollections (ev1 ++ ev2)
                   = (if isCodeCollection c then [c] else [])
                     ++ queriedCollections ev2).
      { unfold queriedCollections in *. by rewrite omap_app, Hq1. }
      rewrite Hq, filter_cons.
      destruct res2 as [cloud2|te2].
      * destruct Hres2 as [Hq2 Hc2]. split.
        { rewrite Hq2.
          destruct (isCodeCollection c); destruct (decide _); done. }
        intros Hall. apply Forall_cons in Hall as [Hc Hall].
        rewrite (Hc2 Hall). specialize (Hc1 Hc). by injection Hc1.
      * destruct Hres2 as (pre & c0 & post & e & what & Hf & Hq2 & Hin & Hn).
        rewrite Hf, Hq2.
        destruct (isCodeCollection c) eqn:Hcode; destruct (decide _);
          try done.
        -- exists (c :: pre), c0, post, e, what.
           split; [done|]. split; [done|]. split; [|done].
           apply elem_of_app. by right.
        -- exists pre, c0, post, e, what.
           split; [done|]. split; [done|]. split; [|done].
           apply elem_of_app. by right.
    + exists (Raise te), w1, ev1.
      split; [cbn [foldM]; unfold bind; by rewrite Hrun1|].
      destruct (Hr1 te eq_refl) as (e & what & Hin & Hn).
      destruct (isCodeCollection c) eqn:Hcode.
      2:{ specialize (Hc1 eq_refl). discriminate Hc1. }
      exists [], c, (filter (fun c => isCodeCollection c = true) cols), e, what.
      rewrite filter_cons. destruct (decide _); [|congruence].
      done.
Qed.

Lemma queried_removes (l : list string) :
  queriedCollections (map EvRemoveIndexedCodebase l) = [].
Proof. by induction l. Qed.

Lemma queried_sync (w : World R) :
  queriedCollections (events syncIndexedCodebasesFromCloud w)
  = queriedCollections (cloudView (remote w)).2.
Proof.
  unfold events. rewrite sync_run. cbn [snd].
  unfold queriedCollections. rewrite !omap_app.
  fold queriedCollections. rewrite queried_removes.
  assert (Hsave : forall b : bool,
            queriedCollections (if b then [EvSaveCodebaseSnapshot] else []) = [])
    by (by intros []).
  by rewrite Hsave, !app_nil_r.
Qed.

Lemma reconcile_queries_code_collections_aux (w : World R) :
  match (vectorDb_listCollections (remote w)).1 with
  | Ok collections =>
      let code := filter (fun c => isCodeCollection c = true) collections in
      queriedCollections (events syncIndexedCodebasesFromCloud w) = code
      \/ exists pre c post e what,
           code = pre ++ c :: post
           /\ queriedCollections (events syncIndexedCodebasesFromCloud w)
              = pre ++ [c]
           /\ EvQuery c (Raise e) ∈ events syncIndexedCodebasesFromCloud w
           /\ nullish e = Some what
  | Raise _ =>
      queriedCollections (events syncIndexedCodebasesFromCloud w) = []
  end.
Proof.
  rewrite queried_sync.
  assert (Hev : forall x, x ∈ (cloudView (remote w)).2 ->
                  x ∈ events syncIndexedCodebasesFromCloud w).
  { intros x Hx. unfold events. rewrite sync_run. cbn [snd].
    apply elem_of_app. by left. }
  unfold cloudView in *.
  destruct (vectorDb_listCollections (remote w)) as [[cols|e] r1]; [|done].
  destruct (collect_queries ∅ cols (blank r1)) as (res & w' & evs & Hrun & Hres).
  rewrite Hrun in *. cbn [fst snd] in *. cbv zeta.
  change (queriedCollections (EvListCollections (Ok cols) :: evs))
    with (queriedCollections evs).
  destruct res as [cloud|te].
  - left. by destruct Hres.
  - right. destruct Hres as (pre & c & post & e & what & Hf & Hq & Hin & Hn).
    exists pre, c, post, e, what.
    split; [done|]. split; [done|]. split; [|done].
    apply Hev. apply elem_of_cons. by right.
Qed.

(** X15.  Reconciliation queries only collections it was listed whose
    name starts with [code_chunks_] or [hybrid_code_chunks_], once each
    and in the listed order; a collection of any other name is never
    queried, and nothing is queried when the listing rejects.  It
    queries every such collection, unless a query rejects with
    [undefined] or [null]: the loop ends there, and the collections
    queried are those up to the one whose query rejected so. *)
Theorem reconcile_queries_code_collections (w : World R) :
  match (vectorDb_listCollections (remote w)).1 with
  | Ok collections =>
      let code := filter (fun c => isCodeCollection c = true) collections in
      queriedCollections (events syncIndexedCodebasesFromCloud w) = code
      \/ exists pre c post e what,
           code = pre ++ c :: post
           /\ queriedCollections (events syncIndexedCodebasesFromCloud w)
              = pre ++ [c]
           /\ EvQuery c (Raise e) ∈ events syncIndexedCodebasesFromCloud w
           /\ nullish e = Some what
  | Raise _ =>
      queriedCollections (events syncIndexedCodebasesFromCloud w) = []
  end.
Proof. apply reconcile_queries_code_collections_aux. Qed.

(** X16.  When the cloud lists no code collection (none at all, or only
    collections of other names), reconciliation removes every [indexed]
    record without a query: no path is [indexed] afterwards, every
    record that was not [indexed] is kept, and when a record was
    removed the snapshot is saved. *)
Theorem cloud_without_code_collections_clears (w : World R)
    (cols : list string) (r' : R) :
  vectorDb_listCollections (remote w) = (Ok cols, r') ->
  Forall (fun c => isCodeCollection c = false) cols ->
  getIndexedCodebases (snapshot (after syncIndexedCodebasesFromCloud w)) = []
  /\ (forall p r,
        snapshot w !! p = Some r -> isIndexed r = false ->
        snapshot (after syncIndexedCodebasesFromCloud w) !! p = Some r)
  /\ (getIndexedCodebases (snapshot w) <> [] ->
      persisted (after syncIndexedCodebasesFromCloud w)
      = snapshot (after syncIndexedCodebasesFromCloud w))
  /\ queriedCollections (events syncIndexedCodebasesFromCloud w) = [].
Proof.
  intros Hl Hall.
  assert (Hview : (cloudView (remote w)).1.1 = Some ∅).
  { unfold cloudView. rewrite Hl.
    destruct (collect_queries ∅ cols (blank r'))
      as (res & w' & evs & Hrun & Hres).
    rewrite Hrun. cbn. destruct res as [cloud|te].
    - destruct Hres as [_ Hc]. by rewrite (Hc Hall).
    - destruct Hres as (pre & c & post & e & what & Hf & _). exfalso.
      assert (Hin : c ∈ filter (fun c => isCodeCollection c = true) cols).
      { rewrite Hf. apply elem_of_app. right. left. }
      apply list_elem_of_filter in Hin as [Hcode Hin].
      rewrite Forall_forall in Hall. specialize (Hall c Hin). congruence. }
  assert (Hsnap : snapshot (after syncIndexedCodebasesFromCloud w)
                  = keepReported ∅ (snapshot w))
    by (by rewrite sync_snapshot, Hview).
  assert (Hnone : getIndexedCodebases (keepReported ∅ (snapshot w)) = []).
  { destruct (getIndexedCodebases _) as [|p l] eqn:Hi; [done|].
    assert (Hin : p ∈ getIndexedCodebases (keepReported ∅ (snapshot w)))
      by (rewrite Hi; left).
    apply elem_of_getIndexedCodebases in Hin as (r & Hr & Hidx).
    rewrite lookup_keepReported in Hr.
    destruct (snapshot w !! p) as [r0|]; [|done].
    destruct (decide _) as [Hd|Hd]; [|done]. injection Hr as ->.
    specialize (Hd Hidx). set_solver. }
  split; [by rewrite Hsnap|].
  split; [intros p r; apply sync_keeps_not_indexed|].
  split.
  - intros Hne. rewrite sync_persisted, Hsnap.
    rewrite bool_decide_eq_true_2; [done|].
    intros Heq. rewrite Heq in Hnone. done.
  - assert (Hcode : filter (fun c => isCodeCollection c = true) cols = []).
    { clear Hl Hview. induction Hall as [|c l Hc Hall IH]; [done|].
      rewrite filter_cons. destruct (decide _); [congruence|exact IH]. }
    pose proof (reconcile_queries_code_collections_aux w) as Hq.
    rewrite Hl in Hq. cbn [fst] in Hq. cbv zeta in Hq. rewrite Hcode in Hq.
    destruct Hq as [Hq|(pre & c & post & e & what & Hf & _)]; [done|].
    by destruct pre.
Qed.

(** X17.  Reconciliation writes the snapshot file exactly when it
    removed a record: the saved snapshot becomes the one in memory when
    the snapshot changed and is left alone otherwise.  It touches
    neither [indexingStats] nor the queue of tasks. *)
Theorem reconcile_saves_iff_changed (w : World R) :
  persisted (after syncIndexedCodebasesFromCloud w)
  = (if bool_decide (snapshot (after syncIndexedCodebasesFromCloud w)
                     = snapshot w)
     then persisted w
     else snapshot (after syncIndexedCodebasesFromCloud w))
  /\ (EvSaveCodebaseSnapshot ∈ events syncIndexedCodebasesFromCloud w
      <-> snapshot (after syncIndexedCodebasesFromCloud w) <> snapshot w)
  /\ indexingStats (after syncIndexedCodebasesFromCloud w) = indexingStats w
  /\ pending (after syncIndexedCodebasesFromCloud w) = pending w.
Proof.
  split.
  { rewrite sync_persisted.
    destruct (decide (snapshot (after syncIndexedCodebasesFromCloud w)
                      = snapshot w)) as [Heq|Hne].
    - rewrite bool_decide_eq_false_2 by (intros Hx; by apply Hx).
      by rewrite bool_decide_eq_true_2.
    - rewrite bool_decide_eq_true_2 by done.
      by rewrite bool_decide_eq_false_2. }
  split; [|split; [apply sync_indexingStats|apply sync_pending]].
  rewrite sync_snapshot. unfold events. rewrite sync_run. cbn [snd].
  pose proof (cloudView_calls (remote w)) as Hcalls.
  split.
  - intros Hin. event_cases Hin.
    + apply list_elem_of_fmap in Hin as (p & Hp & _). discriminate Hp.
    + destruct (bool_decide _) eqn:Hb.
      * by apply bool_decide_eq_true in Hb.
      * by apply elem_of_nil in Hin.
  - intros Hne. rewrite bool_decide_eq_true_2 by done.
    apply elem_of_app. right. apply elem_of_app. right. left.
Qed.

End ReconcileProperties.

(** ** Searching *)

Import SearchHandlers.

#[local] Arguments buildFilterExpr : simpl never.
#[local] Arguments resultLimitOf : simpl never.
#[local] Arguments noResultsMessage : simpl never.
#[local] Arguments resultMessage : simpl never.
#[local] Arguments notIndexedText : simpl never.
#[local] Arguments invalidExtensionsText : simpl never.
#[local] Arguments statusMessage : simpl never.
#[local] Arguments getCodebaseInfo : simpl never.
#[local] Arguments Z.min : simpl never.
#[local] Arguments search_path : simpl never.
#[local] Arguments search_query : simpl never.
#[local] Arguments search_limit : simpl never.
#[local] Arguments search_extensionFilter : simpl never.

(** Starts the path-by-path run of [handleSearchCode_object a w] held in
    [Hrun]. *)
Ltac run_search_paths Hrun w :=
  let Hs := fresh "Hs" in
  sync_cases Hs w;
  unfold handleSearchCode_object, try_catchS in Hrun;
  unfold bindS at 1 in Hrun; unfold inHandler at 1 in Hrun;
  rewrite Hs in Hrun; clear Hs;
  unfold readsResult in Hrun;
  unfold bindS, inHandler, externalS, retS, lift, reads, gets, external, ret,
    throw in Hrun;
  run_path Hrun;
  first [helper_throws | injection Hrun as <- <- <-].

(** Membership of a search call in the events of a run. *)
Ltac in_search_events H :=
  repeat match type of H with
         | _ ∈ _ ++ _ => apply elem_of_app in H; destruct H as [H|H]
         | _ ∈ _ :: _ => apply elem_of_cons in H; destruct H as [H|H]
         | _ ∈ [] => by apply elem_of_nil in H
         | _ ∈ map SevHandler _ =>
             let e := fresh "e" in
             let He := fresh "He" in
             apply list_elem_of_fmap in H as (e & He & _); discriminate He
         end;
  try match type of H with
      | _ = _ => try discriminate H
      end.

Section SearchProperties.
Context {R : Type} `{HE : Env R} `{HS : SearchEnv R}.

Lemma listed_after_check (P : string) (s : Snapshot) :
  (negb (includes P (getIndexedCodebases s))
   && negb (includes P (getIndexingCodebases s)))%bool = false ->
  P ∈ getIndexedCodebases s \/ P ∈ getIndexingCodebases s.
Proof.
  intros Hb. apply andb_false_iff in Hb as [Hb|Hb];
    apply negb_false_iff in Hb; apply includes_true in Hb; tauto.
Qed.

(** X18.  Every call of [semanticSearch] that [handleSearchCode] makes
    is for the resolved path of the request and its query, asks for at
    most 50 results (the smaller of 50 and the requested limit, 10 when
    the limit is absent or 0), carries the filter built from an
    extension list without invalid entries, and is for a path that is
    [indexed] or [indexing] after reconciliation. *)
Theorem search_calls_are_bounded (a : SearchArgs) (w : World R) (p : string)
    (q : option string) (k : Z) (f : option string)
    (r : Result (list SearchResult)) :
  SevSemanticSearch p q k f r
    ∈ eventsS (handleSearchCode (SearchArgsObject a)) w ->
  ensureAbsolutePath (search_path a) = Ok p
  /\ q = search_query a
  /\ k = Z.min (resultLimitOf a) 50
  /\ k <= 50
  /\ buildFilterExpr (search_extensionFilter a) = inr f
  /\ (p ∈ getIndexedCodebases
            (snapshot (after syncIndexedCodebasesFromCloud w))
      \/ p ∈ getIndexingCodebases
               (snapshot (after syncIndexedCodebasesFromCloud w))).
Proof.
  unfold eventsS. cbn [handleSearchCode].
  destruct (handleSearchCode_object a w) as [[res w'] evs] eqn:Hrun.
  cbn [fst snd]. intros Hin.
  fold (after syncIndexedCodebasesFromCloud w) in *.
  run_search_paths Hrun w.
  all: try (in_search_events Hin; fail).
  all: in_search_events Hin.
  all: injection Hin as -> -> -> -> ->.
  all: match goal with
       | Hb : (negb (includes _ _) && _)%bool = false |- _ =>
           apply listed_after_check in Hb
       end.
  all: repeat split; try done; try apply Z.le_min_r.
Qed.


Lemma search_rejected (a : SearchArgs) (w : World R) (P : string)
    (r2 : R) :
  result syncIndexedCodebasesFromCloud w = Ok tt ->
  ensureAbsolutePath (search_path a) = Ok P ->
  fs_existsSync P (remote (after syncIndexedCodebasesFromCloud w)) = true ->
  fs_statSync_isDirectory P (remote (after syncIndexedCodebasesFromCloud w))
  = Ok true ->
  trackCodebasePath P (remote (after syncIndexedCodebasesFromCloud w))
  = (Ok tt, r2) ->
  P ∉ getIndexedCodebases (snapshot (after syncIndexedCodebasesFromCloud w)) ->
  P ∉ getIndexingCodebases (snapshot (after syncIndexedCodebasesFromCloud w)) ->
  resultS (handleSearchCode (SearchArgsObject a)) w
  = Ok (errorResponse (notIndexedText P))
  /\ eventsS (handleSearchCode (SearchArgsObject a)) w
     = map SevHandler (events syncIndexedCodebasesFromCloud w
                       ++ [EvTrackCodebasePath P (Ok tt)]).
Proof.
  intros Hsync Hpath Hex Hdir Htrack Hnd Hni.
  apply includes_false in Hnd, Hni.
  unfold resultS, eventsS. cbn [handleSearchCode].
  destruct (handleSearchCode_object a w) as [[res w'] evs] eqn:Hrun.
  cbn [fst snd].
  fold (after syncIndexedCodebasesFromCloud w) in *.
  fold (events syncIndexedCodebasesFromCloud w) in *.
  run_search_paths Hrun w.
  all: try rewrite Hpath in *.
  all: simplify_eq.
  all: rewrite ?Hex, ?Hdir, ?Htrack in *; simplify_eq/=.
  all: rewrite ?Hnd, ?Hni in *; simplify_eq/=.
  split; [done|]. by rewrite map_app.
Qed.

(** X20.  A search changes no record: whatever it answers, the
    snapshot and the saved snapshot after [handleSearchCode] are those
    reconciliation left, and [indexingStats] and the queue of tasks are
    as they were. *)
Theorem search_changes_nothing_itself (a : SearchArgs) (w : World R) :
  snapshot (afterS (handleSearchCode (SearchArgsObject a)) w)
  = snapshot (after syncIndexedCodebasesFromCloud w)
  /\ persisted (afterS (handleSearchCode (SearchArgsObject a)) w)
     = persisted (after syncIndexedCodebasesFromCloud w)
  /\ indexingStats (afterS (handleSearchCode (SearchArgsObject a)) w)
     = indexingStats w
  /\ pending (afterS (handleSearchCode (SearchArgsObject a)) w) = pending w.
Proof.
  rewrite <- (sync_indexingStats w).
  unfold resultS, afterS. cbn [handleSearchCode].
  destruct (handleSearchCode_object a w) as [[res w'] evs] eqn:Hrun.
  cbn [fst snd].
  fold (after syncIndexedCodebasesFromCloud w) in *.
  run_search_paths Hrun w.
  all: done.
Qed.

Lemma search_object_returns (a : SearchArgs) (w : World R) :
  exists response,
    resultS (handleSearchCode (SearchArgsObject a)) w = Ok response.
Proof.
  unfold resultS. cbn [handleSearchCode].
  destruct (handleSearchCode_object a w) as [[res w'] evs] eqn:Hrun.
  cbn [fst snd].
  run_search_paths Hrun w.
  all: eauto.
Qed.

(** X21.  When [semanticSearch] rejects, the answer depends on the
    message of what was thrown (the string itself, or the [message] of
    an error object): when it is, or contains, [COLLECTION_LIMIT_MESSAGE]
    the answer is that message and not an error; otherwise it is the
    error [Error searching code: ...]. *)
Theorem collection_limit_is_a_final_answer (a : SearchArgs) (w : World R)
    (p : string) (q : option string) (k : Z) (f : option string)
    (e : Thrown) :
  SevSemanticSearch p q k f (Raise e)
    ∈ eventsS (handleSearchCode (SearchArgsObject a)) w ->
  resultS (handleSearchCode (SearchArgsObject a)) w
  = Ok (if (String.eqb (caughtMessage e) COLLECTION_LIMIT_MESSAGE
            || str_includes COLLECTION_LIMIT_MESSAGE (caughtMessage e))%bool
        then textResponse COLLECTION_LIMIT_MESSAGE
        else errorResponse
               ("Error searching code: " +:+ caughtMessage e
                +:+ " Please check if the codebase has been indexed first.")).
Proof.
  unfold resultS, eventsS. cbn [handleSearchCode].
  destruct (handleSearchCode_object a w) as [[res w'] evs] eqn:Hrun.
  cbn [fst snd]. intros Hin.
  run_search_paths Hrun w.
  all: try (in_search_events Hin; fail).
  all: in_search_events Hin.
  all: injection Hin as -> -> -> -> ->.
  all: match goal with
       | Hb : (String.eqb _ _ || _)%bool = _ |- _ => by rewrite Hb
       end.
Qed.


(** X22.  A path that is being indexed can be searched: with
    reconciliation resolved, for an existing directory whose record is
    [indexing], the search is run
    and its results are returned without an error, the text says that
    the codebase is still being indexed, and the record stays
    [indexing]. *)
Theorem search_while_indexing_is_served (a : SearchArgs) (w : World R)
    (P : string) (pct t : Z) (r2 r3 r4 : R) (f : option string)
    (results : list SearchResult) :
  result syncIndexedCodebasesFromCloud w = Ok tt ->
  ensureAbsolutePath (search_path a) = Ok P ->
  fs_existsSync P (remote (after syncIndexedCodebasesFromCloud w)) = true ->
  fs_statSync_isDirectory P (remote (after syncIndexedCodebasesFromCloud w))
  = Ok true ->
  snapshot w !! P = Some (RecIndexing pct t) ->
  trackCodebasePath P (remote (after syncIndexedCodebasesFromCloud w))
  = (Ok tt, r2) ->
  context_prepare getEmbedding P r2 = (Ok tt, r3) ->
  buildFilterExpr (search_extensionFilter a) = inr f ->
  context_semanticSearch P (search_query a) (Z.min (resultLimitOf a) 50) f r3
  = (Ok results, r4) ->
  (exists response,
      resultS (handleSearchCode (SearchArgsObject a)) w = Ok response
      /\ isError response = false
      /\ text response
         = (if Nat.eqb (length results) 0
            then noResultsMessage (search_query a) P true
            else resultMessage (search_query a) P true results)
      /\ str_includes "This codebase is still being indexed" (text response)
         = true)
  /\ snapshot (afterS (handleSearchCode (SearchArgsObject a)) w) !! P
     = Some (RecIndexing pct t).
Proof.
  intros Hsync Hpath Hex Hdir Hrec Htrack Hprep Hfilter Hsearch.
  assert (Hrec1 : snapshot (after syncIndexedCodebasesFromCloud w) !! P
                  = Some (RecIndexing pct t))
    by (by apply sync_keeps_not_indexed).
  assert (Hni : includes P (getIndexingCodebases
                  (snapshot (after syncIndexedCodebasesFromCloud w))) = true).
  { apply includes_true, elem_of_getIndexingCodebases. eauto. }
  assert (Hnd : includes P (getIndexedCodebases
                  (snapshot (after syncIndexedCodebasesFromCloud w))) = false).
  { apply includes_false. intros Hx.
    apply elem_of_getIndexedCodebases in Hx as (r & Hl & Hi).
    rewrite Hrec1 in Hl. by injection Hl as <-. }
  unfold resultS, afterS. cbn [handleSearchCode].
  destruct (handleSearchCode_object a w) as [[res w'] evs] eqn:Hrun.
  cbn [fst snd].
  fold (after syncIndexedCodebasesFromCloud w) in *.
  run_search_paths Hrun w.
  all: try rewrite Hpath in *.
  all: simplify_eq.
  all: rewrite ?Hex, ?Hdir, ?Htrack in *; simplify_eq/=.
  all: rewrite ?Hnd, ?Hni, ?Hprep in *; simplify_eq/=.
  all: rewrite ?Hfilter in *; simplify_eq/=.
  all: rewrite ?Hsearch in *; simplify_eq/=.
  all: (split; [|exact Hrec1]).
  all: eexists; split; [reflexivity|]; split; [reflexivity|].
  all: cbn [text textResponse].
  all: match goal with
       | Hb : Nat.eqb _ _ = _ |- _ => rewrite ?Hb
       end.
  all: (split; [reflexivity|]).
  all: unfold noResultsMessage, resultMessage.
  all: repeat (apply str_includes_right; try (vm_compute; reflexivity)).
Qed.

(** X19.  A search of an existing directory that is neither [indexed]
    nor [indexing] after a reconciliation that resolved is refused with
    the "not
    indexed, index it first" error: beyond reconciliation the call only
    tracks the path, and [semanticSearch] is not called. *)
Theorem search_requires_index (a : SearchArgs) (w : World R) (P : string)
    (r2 : R) :
  result syncIndexedCodebasesFromCloud w = Ok tt ->
  ensureAbsolutePath (search_path a) = Ok P ->
  fs_existsSync P (remote (after syncIndexedCodebasesFromCloud w)) = true ->
  fs_statSync_isDirectory P (remote (after syncIndexedCodebasesFromCloud w))
  = Ok true ->
  trackCodebasePath P (remote (after syncIndexedCodebasesFromCloud w))
  = (Ok tt, r2) ->
  P ∉ getIndexedCodebases (snapshot (after syncIndexedCodebasesFromCloud w)) ->
  P ∉ getIndexingCodebases (snapshot (after syncIndexedCodebasesFromCloud w)) ->
  resultS (handleSearchCode (SearchArgsObject a)) w
  = Ok (errorResponse (notIndexedText P))
  /\ eventsS (handleSearchCode (SearchArgsObject a)) w
     = map SevHandler (events syncIndexedCodebasesFromCloud w
                       ++ [EvTrackCodebasePath P (Ok tt)]).
Proof. apply search_rejected. Qed.

Lemma cleaned_blank (l : list (option string)) :
  Forall blankEntry l -> cleanedExtensions l = [].
Proof.
  unfold cleanedExtensions.
  induction 1 as [|v l Hv Hall IH]; [done|].
  destruct v as [s|]; [|exact IH].
  cbn [omap id map List.filter option_bind mbind] in *.
  simpl in Hv. cbn. rewrite Hv. exact IH.
Qed.

(** X23.  An extension filter that is not empty but holds only entries
    the cleaning drops (values that are not strings, strings that are
    blank) passes the validation and gives the filter expression
    [fileExtension in []]. *)
Theorem blank_extension_filter_is_empty_list (first : option string)
    (others : list (option string)) :
  Forall blankEntry (first :: others) ->
  buildFilterExpr (Some (first :: others))
  = inr (Some "fileExtension in []").
Proof.
  intros Hall. unfold buildFilterExpr.
  rewrite (cleaned_blank _ Hall). reflexivity.
Qed.

(** X29.  When reconciliation rejects, which it does only when
    [listCollections] rejects with [undefined] or [null], the handlers
    that start with it answer with an error and do nothing else:
    [handleIndexCodebase] answers [Error starting indexing: ...] with
    the message of the [TypeError], [handleSearchCode] gives the answer
    of its [catch] block to that message; the world and the events of
    both calls are those of the reconciliation, which changed neither
    the snapshot nor the saved snapshot. *)
Theorem rejected_reconciliation_is_answered (a : IndexArgs) (sa : SearchArgs)
    (w : World R) (what : string) :
  result syncIndexedCodebasesFromCloud w = Raise (message_TypeError what) ->
  handleIndexCodebase (ArgsObject a) w
  = (Ok (errorResponse
           ("Error starting indexing: " +:+ "Cannot read properties of "
            +:+ what +:+ " (reading 'message')")),
     after syncIndexedCodebasesFromCloud w,
     events syncIndexedCodebasesFromCloud w)
  /\ handleSearchCode (SearchArgsObject sa) w
     = (Ok (let errorMessage := caughtMessage (message_TypeError what) in
            if (String.eqb errorMessage COLLECTION_LIMIT_MESSAGE
                || str_includes COLLECTION_LIMIT_MESSAGE errorMessage)%bool
            then textResponse COLLECTION_LIMIT_MESSAGE
            else errorResponse
                   ("Error searching code: " +:+ errorMessage
                    +:+ " Please check if the codebase has been indexed first.")),
        after syncIndexedCodebasesFromCloud w,
        map SevHandler (events syncIndexedCodebasesFromCloud w))
  /\ snapshot (after syncIndexedCodebasesFromCloud w) = snapshot w
  /\ persisted (after syncIndexedCodebasesFromCloud w) = persisted w
  /\ exists e r' what',
       vectorDb_listCollections (remote w) = (Raise e, r')
       /\ nullish e = Some what'.
Proof.
  intros Hsync.
  assert (Hlist : exists e r' what',
             vectorDb_listCollections (remote w) = (Raise e, r')
             /\ nullish e = Some what').
  { rewrite sync_result in Hsync. unfold syncOutcome in Hsync.
    destruct (vectorDb_listCollections (remote w)) as [[cols|e] r'];
      [discriminate Hsync|].
    destruct (nullish e) as [what'|] eqn:Hn; [|discriminate Hsync].
    by exists e, r', what'. }
  assert (Hsame : snapshot (after syncIndexedCodebasesFromCloud w) = snapshot w
                  /\ persisted (after syncIndexedCodebasesFromCloud w)
                     = persisted w).
  { destruct Hlist as (e & r' & what' & Hl & _).
    rewrite sync_persisted, sync_snapshot. unfold cloudView. rewrite Hl.
    split; [done|].
    by rewrite bool_decide_eq_false_2 by (intros Hne; by apply Hne). }
  unfold result, after, events in *.
  destruct (syncIndexedCodebasesFromCloud w) as [[res w1] ev1] eqn:Hs.
  cbn [fst snd] in *. subst res.
  split; [|split; [|split; [apply Hsame|split; [apply Hsame|exact Hlist]]]].
  - cbn [handleIndexCodebase].
    unfold handleIndexCodebase_object, try_catch. unfold bind at 1.
    rewrite Hs. unfold bind, lift. rewrite message_or_TypeError.
    unfold ret. by rewrite !app_nil_r.
  - cbn [handleSearchCode].
    unfold handleSearchCode_object, try_catchS. unfold bindS at 1.
    unfold inHandler at 1. rewrite Hs. cbv zeta.
    destruct (_ || _)%bool; unfold retS; by rewrite !app_nil_r.
Qed.

End SearchProperties.

(** ** The status report and the blocking index *)

Ltac status_paths Hrun :=
  unfold handleGetIndexingStatus_object, try_catch in Hrun;
  unfold readsResult in Hrun;
  unfold bind, lift, reads, gets, ret, throw, message_or in Hrun;
  run_path Hrun;
  first [helper_throws | injection Hrun as <- <- <-].

Ltac blocking_paths Hrun :=
  unfold indexCodebase, try_catch in Hrun;
  unfold readsResult in Hrun;
  unfold bind, lift, reads, gets, external, emit, ret, throw,
    setIndexingStats, message_or in Hrun;
  run_path Hrun;
  first [helper_throws | injection Hrun as <- <- <-].

Section StatusProperties.
Context {R : Type} `{HE : Env R} `{HS : SearchEnv R}.

Lemma status_run (a : IndexArgs) (w : World R) :
  exists response,
    handleGetIndexingStatus (ArgsObject a) w = (Ok response, w, []).
Proof.
  cbn [handleGetIndexingStatus].
  destruct (handleGetIndexingStatus_object a w) as [[res w'] evs] eqn:Hrun.
  status_paths Hrun.
  all: destruct w; eauto.
Qed.

(** X24.  [handleGetIndexingStatus] only reads: called with an
    argument object it returns a payload, changes nothing and calls no
    collaborator; in particular it does not reconcile with the cloud. *)
Theorem status_is_read_only (a : IndexArgs) (w : World R) :
  exists response,
    handleGetIndexingStatus (ArgsObject a) w = (Ok response, w, []).
Proof. apply status_run. Qed.

Lemma status_text (a : IndexArgs) (w : World R) (P : string) :
  ensureAbsolutePath (arg_path a) = Ok P ->
  fs_existsSync P (remote w) = true ->
  fs_statSync_isDirectory P (remote w) = Ok true ->
  result (handleGetIndexingStatus (ArgsObject a)) w
  = Ok (textResponse
          (statusMessage P (getCodebaseStatus P (snapshot w))
             (getCodebaseInfo P (snapshot w))
           +:+ (if bool_decide (arg_path a = Some P) then ""
                else nl +:+ "Note: Input path '" +:+ show_opt (arg_path a)
                     +:+ "' was resolved to absolute path '" +:+ P +:+ "'"))).
Proof.
  intros Hpath Hex Hdir.
  unfold result. cbn [handleGetIndexingStatus].
  destruct (handleGetIndexingStatus_object a w) as [[res w'] evs] eqn:Hrun.
  cbn [fst snd].
  status_paths Hrun.
  all: try rewrite Hpath in *.
  all: simplify_eq.
  all: rewrite ?Hex, ?Hdir in *; simplify_eq/=.
  all: match goal with
       | Hb : bool_decide _ = _ |- _ => by rewrite Hb
       end.
Qed.

(** X25.  For a path that is [indexed] locally and that the cloud does
    not report, the two tools disagree: [handleGetIndexingStatus], which
    does not reconcile, answers that the codebase is fully indexed and
    ready for search, and [handleSearchCode], which reconciles first,
    refuses the search because the codebase is not indexed. *)
Theorem stale_index_status_and_search_disagree (a : IndexArgs)
    (sa : SearchArgs) (w : World R) (P : string) (f c : Z) (st : IndexStatus)
    (t : Z) (cloud : gset string) (r2 : R) :
  ensureAbsolutePath (arg_path a) = Ok P ->
  ensureAbsolutePath (search_path sa) = Ok P ->
  snapshot w !! P = Some (RecIndexed f c st t) ->
  (cloudView (remote w)).1.1 = Some cloud ->
  P ∉ cloud ->
  fs_existsSync P (remote w) = true ->
  fs_statSync_isDirectory P (remote w) = Ok true ->
  fs_existsSync P (remote (after syncIndexedCodebasesFromCloud w)) = true ->
  fs_statSync_isDirectory P (remote (after syncIndexedCodebasesFromCloud w))
  = Ok true ->
  trackCodebasePath P (remote (after syncIndexedCodebasesFromCloud w))
  = (Ok tt, r2) ->
  (exists response,
      result (handleGetIndexingStatus (ArgsObject a)) w = Ok response
      /\ isError response = false
      /\ startsWith (text response)
           ("✅ Codebase '" +:+ P
            +:+ "' is fully indexed and ready for search.") = true)
  /\ resultS (handleSearchCode (SearchArgsObject sa)) w
     = Ok (errorResponse (notIndexedText P)).
Proof.
  intros Hpa Hps Hrec Hview Hnc Hex Hdir Hex1 Hdir1 Htrack.
  split.
  - rewrite (status_text a w P Hpa Hex Hdir).
    eexists. split; [reflexivity|]. split; [reflexivity|].
    cbn [text textResponse].
    unfold getCodebaseStatus, getCodebaseInfo, statusMessage. rewrite Hrec.
    unfold startsWith. prefix_of_append.
  - assert (Hgone : snapshot (after syncIndexedCodebasesFromCloud w) !! P = None).
    { rewrite sync_snapshot, Hview. cbn. rewrite lookup_keepReported, Hrec.
      destruct (decide _) as [Hd|Hd]; [|done]. exfalso. by apply Hnc, Hd. }
    assert (Hsync : result syncIndexedCodebasesFromCloud w = Ok tt).
    { rewrite sync_result. revert Hview. unfold cloudView, syncOutcome.
      by destruct (vectorDb_listCollections (remote w)) as [[cols|e] r1]. }
    destruct (search_rejected sa w P r2 Hsync Hps Hex1 Hdir1 Htrack)
      as [Hres _].
    + intros Hin. apply elem_of_getIndexedCodebases in Hin as (r & Hl & _).
      congruence.
    + intros Hin. apply elem_of_getIndexingCodebases in Hin as (r & Hl & _).
      congruence.
    + exact Hres.
Qed.

Lemma blocking_run (p : option string) (o : IndexOptions) (w : World R) :
  ((exists response, result (indexCodebase p o) w = Ok response)
   \/ (exists P e what,
         events (indexCodebase p o) w
         = [EvIndexCodebase P; EvIndexCodebaseSettled P (Raise e)]
         /\ nullish e = Some what
         /\ result (indexCodebase p o) w = Raise (message_TypeError what)))
  /\ snapshot (after (indexCodebase p o) w) = snapshot w
  /\ persisted (after (indexCodebase p o) w) = persisted w
  /\ pending (after (indexCodebase p o) w) = pending w.
Proof.
  unfold result, after, events.
  destruct (indexCodebase p o w) as [[res w'] evs] eqn:Hrun.
  cbn [fst snd].
  blocking_paths Hrun.
  all: cbn; (split; [|done]).
  all: first [ left; eexists; reflexivity
             | right; eexists _, _, _; split; [reflexivity|];
               split; [eassumption|reflexivity] ].
Qed.

(** X26.  [indexCodebase] never touches the snapshot, and it rejects in
    one case only.  Whatever it is given and however the core answers,
    the snapshot, the saved snapshot and the queue of tasks are as they
    were.  It returns a payload, unless the core's [indexCodebase]
    rejects with [undefined] or [null]: the [catch] block then cannot
    read [error.message], and the call rejects with that [TypeError]
    after the one call on the core. *)
Theorem blocking_index_leaves_snapshot (p : option string) (o : IndexOptions)
    (w : World R) :
  ((exists response, result (indexCodebase p o) w = Ok response)
   \/ (exists P e what,
         events (indexCodebase p o) w
         = [EvIndexCodebase P; EvIndexCodebaseSettled P (Raise e)]
         /\ nullish e = Some what
         /\ result (indexCodebase p o) w = Raise (message_TypeError what)))
  /\ snapshot (after (indexCodebase p o) w) = snapshot w
  /\ persisted (after (indexCodebase p o) w) = persisted w
  /\ pending (after (indexCodebase p o) w) = pending w.
Proof. apply blocking_run. Qed.

(** X27.  A codebase indexed through [indexCodebase] is not reported
    as indexed: when the path has no record and [indexCodebase] has
    indexed it with success, [handleGetIndexingStatus] called next for
    that path still answers that the codebase is not indexed. *)
Theorem blocking_index_is_not_reported (p : option string) (o : IndexOptions)
    (a : IndexArgs) (w : World R) (P : string) (stats : Stats) :
  ensureAbsolutePath p = Ok P ->
  ensureAbsolutePath (arg_path a) = Ok P ->
  snapshot w !! P = None ->
  EvIndexCodebaseSettled P (Ok stats) ∈ events (indexCodebase p o) w ->
  fs_existsSync P (remote (after (indexCodebase p o) w)) = true ->
  fs_statSync_isDirectory P (remote (after (indexCodebase p o) w)) = Ok true ->
  exists response,
    result (indexCodebase p o ;; handleGetIndexingStatus (ArgsObject a)) w
    = Ok response
    /\ startsWith (text response)
         ("❌ Codebase '" +:+ P
          +:+ "' is not indexed. Please use the index_codebase tool to index it first.")
       = true.
Proof.
  intros Hp Hpa Hnone Hin Hex Hdir.
  destruct (blocking_run p o w)
    as ([(response & Hres)|(P' & e & what & Hev & _)] & Hsnap & _).
  2:{ rewrite Hev in Hin. event_cases Hin. }
  pose proof (status_text a (after (indexCodebase p o) w) P Hpa Hex Hdir) as Hst.
  unfold result, after in *.
  unfold bind.
  destruct (indexCodebase p o w) as [[res w1] ev1]. cbn [fst snd] in *.
  subst res.
  destruct (handleGetIndexingStatus (ArgsObject a) w1) as [[res2 w2] ev2].
  cbn [fst snd] in *. subst res2.
  eexists. split; [reflexivity|].
  cbn [text textResponse].
  unfold getCodebaseStatus, getCodebaseInfo, statusMessage.
  rewrite Hsnap, Hnone. unfold startsWith. prefix_of_append.
Qed.

(** X28.  Called without an argument object, [handleSearchCode] and
    [handleGetIndexingStatus] reject with the [TypeError] of the
    destructuring that stands above their [try], and do nothing; called
    with an argument object, both always return a payload. *)
Theorem search_and_status_boundary (w : World R) :
  handleSearchCode SearchArgsUndefined w
  = (Raise (destructure_TypeError "undefined"), w, [])
  /\ handleSearchCode SearchArgsNull w
     = (Raise (destructure_TypeError "null"), w, [])
  /\ handleGetIndexingStatus ArgsUndefined w
     = (Raise (destructure_TypeError "undefined"), w, [])
  /\ handleGetIndexingStatus ArgsNull w
     = (Raise (destructure_TypeError "null"), w, [])
  /\ (forall a, exists response,
         resultS (handleSearchCode (SearchArgsObject a)) w = Ok response)
  /\ (forall a, exists response,
         result (handleGetIndexingStatus (ArgsObject a)) w = Ok response).
Proof.
  split; [reflexivity|]. split; [reflexivity|]. split; [reflexivity|].
  split; [reflexivity|].
  split; intros a; [apply search_object_returns|].
  destruct (status_run a w) as (response & Hrun).
  exists response. unfold result. by rewrite Hrun.
Qed.

End StatusProperties.

(** * The claims on concrete runs

    Each statement above that has a hypothesis is applied to a run of the
    scripted world, and each claim that the code does not meet as it is
    worded is refuted on one. *)

Import Scripted.

(** Decides a closed proposition by evaluation. *)
Ltac by_evaluation := apply (bool_decide_unpack _); vm_compute; exact I.

(** C1 on a fresh snapshot and a cloud without capacity. *)
Lemma capacity_exceeded_witness :
  EvCheckCollectionLimit (Ok false)
    ∈ events (handleIndexCodebase (request "/repo" false None)) overCapacityFresh
  /\ result (handleIndexCodebase (request "/repo" false None)) overCapacityFresh
     = Ok (errorResponse COLLECTION_LIMIT_MESSAGE).
Proof.
  assert (Hin : EvCheckCollectionLimit (Ok false)
                  ∈ events (handleIndexCodebase (request "/repo" false None))
                      overCapacityFresh) by by_evaluation.
  split; [exact Hin|].
  exact (proj1 (capacity_exceeded_is_terminal
                  (requestFor "/repo" false None) overCapacityFresh Hin)).
Defined.







(** C7 on a snapshot with one stale record. *)
Lemma reconcile_settles_witness :
  (cloudView (remote (after syncIndexedCodebasesFromCloud staleWorld))).1.1
  = (cloudView (remote staleWorld)).1.1
  /\ dom (snapshot (after syncIndexedCodebasesFromCloud staleWorld))
     ⊆ dom (snapshot staleWorld)
  /\ snapshot (after syncIndexedCodebasesFromCloud
                 (after syncIndexedCodebasesFromCloud staleWorld))
     = snapshot (after syncIndexedCodebasesFromCloud staleWorld).
Proof.
  destruct (reconcile_shrinks_and_settles staleWorld) as [Hdom Hsame].
  assert (Hview : (cloudView (remote (after syncIndexedCodebasesFromCloud
                                        staleWorld))).1.1
                  = (cloudView (remote staleWorld)).1.1)
    by (vm_compute; reflexivity).
  split; [exact Hview|]. split; [exact Hdom|].
  exact (proj1 (Hsame Hview)).
Defined.

(** C8 (amended) on a run that ends with [limit_reached]. *)
Lemma limit_reached_witness :
  EvIndexCodebaseSettled "/repo" (Ok cappedStats)
    ∈ events (startBackgroundIndexing "/repo" false "ast") cappedRun
  /\ snapshot (after (startBackgroundIndexing "/repo" false "ast") cappedRun)
       !! "/repo"
     = Some (RecIndexed 42 310 limit_reached 1000).
Proof.
  assert (Hin : EvIndexCodebaseSettled "/repo" (Ok cappedStats)
                  ∈ events (startBackgroundIndexing "/repo" false "ast")
                      cappedRun) by by_evaluation.
  split; [exact Hin|].
  destruct (limit_reached_is_indexed "/repo" false "ast" cappedRun cappedStats
              Hin eq_refl) as (_ & Hrec & _).
  rewrite Hrec. vm_compute. reflexivity.
Defined.

(** C8 as worded fails: the response the caller holds does not name the
    chunk limit. *)
Lemma limit_warning_counterexample :
  ~ Worded.limitWarningReachesCaller (request "/repo" false None) "/repo"
      cappedFresh.
Proof.
  intros (_ & response & Hres & Hwarn).
  vm_compute in Hres. injection Hres as <-.
  vm_compute in Hwarn. discriminate Hwarn.
Qed.



(** C5, the second way out of [handleIndexCodebase]: a forced request
    for the indexed [/repo] whose [clearIndex] rejects with [undefined]
    rejects with the [TypeError] of its [catch] block. *)
Example forced_request_rejects_on_undefined :
  result (@handleIndexCodebase Cloud ScriptedRuns.undefinedClear
            (request "/repo" true None)) indexedWorld
  = Raise (message_TypeError "undefined").
Proof. vm_compute. reflexivity. Qed.

(** * The further properties on concrete runs

    Each statement above that has a hypothesis, applied to a run of the
    scripted world. *)

Import Scripted ScriptedRuns.

(** X1 on a clear of the indexed [/repo]. *)
Lemma clear_removes_only_requested_witness :
  snapshot indexedWorld !! "/repo" = Some (RecIndexed 42 310 completed 900)
  /\ events (handleClearIndex (request "/repo" false None)) indexedWorld
     = [EvClearIndex "/repo" (Ok tt); EvRemoveCodebaseCompletely "/repo";
        EvSaveCodebaseSnapshot].
Proof.
  assert (Hrec : snapshot indexedWorld !! "/repo"
                 = Some (RecIndexed 42 310 completed 900))
    by (vm_compute; reflexivity).
  split; [exact Hrec|].
  destruct (clear_removes_only_requested (requestFor "/repo" false None)
              indexedWorld) as (_ & _ & _ & Hgone).
  destruct (Hgone "/repo" _ Hrec) as [Hstay|(_ & _ & Hev)].
  - vm_compute in Hstay. discriminate Hstay.
  - exact Hev.
Defined.

(** X2 on the same clear. *)
Lemma clear_success_witness :
  getCodebaseStatus "/repo"
    (snapshot (after (handleClearIndex (request "/repo" false None))
                 indexedWorld))
  = st_not_found
  /\ indexingStats (after (handleClearIndex (request "/repo" false None))
                      indexedWorld) = None.
Proof.
  destruct (clear_success (requestFor "/repo" false None) indexedWorld "/repo"
              (RecIndexed 42 310 completed 900)
              (clearIndex "/repo" repoCloud).2)
    as (_ & _ & Hst & _ & _ & Hstats & _).
  - reflexivity.
  - vm_compute. reflexivity.
  - vm_compute. reflexivity.
  - vm_compute. reflexivity.
  - left. reflexivity.
  - reflexivity.
  - split; [exact Hst|exact Hstats].
Defined.

(** X3 on a clear that the core refuses, with an error and with
    [undefined]. *)
Lemma clear_failure_witness :
  (result (@handleClearIndex Cloud refusingClear (request "/repo" false None))
     indexedWorld
   = Ok (errorResponse "Failed to clear /repo: permission denied")
   /\ snapshot (after (@handleClearIndex Cloud refusingClear
                         (request "/repo" false None)) indexedWorld)
      = snapshot indexedWorld)
  /\ (result (@handleClearIndex Cloud undefinedClear
                (request "/repo" false None)) indexedWorld
      = Ok (errorResponse
              "Error clearing index: Cannot read properties of undefined (reading 'message')")
      /\ snapshot (after (@handleClearIndex Cloud undefinedClear
                            (request "/repo" false None)) indexedWorld)
         = snapshot indexedWorld).
Proof.
  split.
  - destruct (@clear_failure_keeps_record Cloud refusingClear
                (requestFor "/repo" false None) indexedWorld "/repo"
                (RecIndexed 42 310 completed 900) refusedClear repoCloud)
      as (Hres & _ & Hsnap & _).
    + reflexivity.
    + vm_compute. reflexivity.
    + vm_compute. reflexivity.
    + vm_compute. reflexivity.
    + left. reflexivity.
    + reflexivity.
    + split; [exact Hres|exact Hsnap].
  - destruct (@clear_failure_keeps_record Cloud undefinedClear
                (requestFor "/repo" false None) indexedWorld "/repo"
                (RecIndexed 42 310 completed 900) ThrownUndefined repoCloud)
      as (Hres & _ & Hsnap & _).
    + reflexivity.
    + vm_compute. reflexivity.
    + vm_compute. reflexivity.
    + vm_compute. reflexivity.
    + left. reflexivity.
    + reflexivity.
    + split; [|exact Hsnap].
      etrans; [exact Hres|]. vm_compute. reflexivity.
Defined.

(** X4 on the failed [/repo] beside an indexed [/old]. *)
Lemma failed_record_witness :
  handleClearIndex (request "/repo" false None) failedBesideIndexed
  = (Ok (errorResponse
           "Error: Codebase '/repo' is not indexed or being indexed."),
     failedBesideIndexed, []).
Proof.
  rewrite (failed_record_is_not_cleared (requestFor "/repo" false None)
             failedBesideIndexed "/repo" "embedding API timeout" (Some 37) 900).
  - vm_compute. reflexivity.
  - reflexivity.
  - vm_compute. reflexivity.
  - vm_compute. reflexivity.
  - vm_compute. reflexivity.
Defined.

(** X5 on a first request for [/repo]. *)
Lemma acknowledged_request_witness :
  EvStartBackgroundIndexing (mkTask "/repo" false "ast")
    ∈ events (handleIndexCodebase (request "/repo" false None)) freshWorld
  /\ persisted (after (handleIndexCodebase (request "/repo" false None))
                  freshWorld)
     = snapshot (after (handleIndexCodebase (request "/repo" false None))
                   freshWorld)
  /\ pending (after (handleIndexCodebase (request "/repo" false None))
                freshWorld)
     = [mkTask "/repo" false "ast"].
Proof.
  assert (Hin : EvStartBackgroundIndexing (mkTask "/repo" false "ast")
                  ∈ events (handleIndexCodebase (request "/repo" false None))
                      freshWorld) by by_evaluation.
  split; [exact Hin|].
  destruct (acknowledged_request_is_recorded (requestFor "/repo" false None)
              freshWorld _ Hin) as (_ & _ & _ & _ & _ & Hpers & Hpend & _).
  split; [exact Hpers|exact Hpend].
Defined.

(** X6 on a request for the failed [/repo]. *)
Lemma failed_path_retry_witness :
  snapshot failedWorld !! "/repo"
  = Some (RecIndexFailed "embedding API timeout" (Some 37) 900)
  /\ snapshot (after (handleIndexCodebase (request "/repo" false None))
                 failedWorld) !! "/repo"
     = Some (RecIndexing 0 1000)
  /\ pending (after (handleIndexCodebase (request "/repo" false None))
                failedWorld)
     = [mkTask "/repo" false "ast"].
Proof.
  assert (Hrec : snapshot failedWorld !! "/repo"
                 = Some (RecIndexFailed "embedding API timeout" (Some 37) 900))
    by (vm_compute; reflexivity).
  split; [exact Hrec|].
  destruct (failed_path_can_be_retried (requestFor "/repo" false None)
              failedWorld "/repo" "embedding API timeout" (Some 37) 900
              true repoCloud repoCloud repoCloud)
    as (_ & Hnow & _ & Hpend).
  - vm_compute. reflexivity.
  - reflexivity.
  - left. reflexivity.
  - reflexivity.
  - reflexivity.
  - reflexivity.
  - vm_compute. reflexivity.
  - vm_compute. reflexivity.
  - exact Hrec.
  - vm_compute. reflexivity.
  - reflexivity.
  - reflexivity.
  - split; [exact Hnow|exact Hpend].
Defined.

(** X7 on a second request for the indexed [/repo]. *)
Lemma indexed_needs_force_witness :
  result (handleIndexCodebase (request "/repo" false None)) indexedWorld
  = Ok (errorResponse
          "Codebase '/repo' is already indexed. Use force=true to re-index.")
  /\ pending (after (handleIndexCodebase (request "/repo" false None))
                indexedWorld) = [].
Proof.
  destruct (indexed_needs_force (requestFor "/repo" false None) indexedWorld
              "/repo" 42 310 completed 900 true repoCloud)
    as (Hres & _ & _ & _ & Hpend).
  - vm_compute. reflexivity.
  - reflexivity.
  - left. reflexivity.
  - reflexivity.
  - vm_compute. reflexivity.
  - vm_compute. reflexivity.
  - vm_compute. reflexivity.
  - vm_compute. reflexivity.
  - split; [exact Hres|exact Hpend].
Defined.

(** X8 on a request for a path that does not exist. *)
Lemma invalid_directory_witness :
  handleIndexCodebase (request "/nowhere" false None) staleWorld
  = (Ok (errorResponse
           "Error: Path '/nowhere' does not exist. Original input: '/nowhere'"),
     after syncIndexedCodebasesFromCloud staleWorld,
     events syncIndexedCodebasesFromCloud staleWorld).
Proof.
  rewrite (invalid_directory_only_reconciles
             (requestFor "/nowhere" false None) staleWorld "/nowhere").
  - vm_compute. reflexivity.
  - vm_compute. reflexivity.
  - left. reflexivity.
  - reflexivity.
  - left. vm_compute. reflexivity.
Defined.

(** X9 on a request whose tracking throws. *)
Lemma failed_tracking_witness :
  EvTrackCodebasePath "/repo" (Raise trackError)
    ∈ events (@handleIndexCodebase Cloud failingTrack
                (request "/repo" false None)) freshWorld
  /\ result (@handleIndexCodebase Cloud failingTrack
               (request "/repo" false None)) freshWorld
     = Ok (errorResponse
             "Error starting indexing: EACCES: permission denied")
  /\ getCodebaseStatus "/repo"
       (snapshot (after (@handleIndexCodebase Cloud failingTrack
                           (request "/repo" false None)) freshWorld))
     = st_indexing.
Proof.
  assert (Hin : EvTrackCodebasePath "/repo" (Raise trackError)
                  ∈ events (@handleIndexCodebase Cloud failingTrack
                              (request "/repo" false None)) freshWorld)
    by by_evaluation.
  split; [exact Hin|].
  destruct (@failed_tracking_leaves_indexing Cloud failingTrack
              (requestFor "/repo" false None) freshWorld "/repo" trackError
              Hin) as (Hres & (now & Hrec) & _).
  split; [exact Hres|].
  unfold request, getCodebaseStatus. by rewrite Hrec.
Defined.

(** X10 on a request for [/repo] beside the record of [/old]. *)
Lemma index_request_frame_witness :
  ensureAbsolutePath (arg_path (requestFor "/repo" false None)) <> Ok "/old"
  /\ snapshot (after (handleIndexCodebase (request "/repo" false None))
                 failedBesideIndexed) !! "/old"
     = snapshot (after syncIndexedCodebasesFromCloud failedBesideIndexed)
         !! "/old".
Proof.
  assert (Hne : ensureAbsolutePath (arg_path (requestFor "/repo" false None))
                <> Ok "/old") by by_evaluation.
  split; [exact Hne|].
  exact (index_request_touches_one_path (requestFor "/repo" false None)
           failedBesideIndexed "/old" Hne).
Defined.

(** X11 on a run that reports at 5000, 5500, 7000 and 7001 ms: the
    file is written at 5000 and at 7000. *)
Lemma progress_saves_witness :
  saveTimes fourReports (events (indexCodebase_ "/repo" 0) reportingWorld)
  = [5000; 7000]
  /\ spaced 0 [5000; 7000]
  /\ savesOf (events (indexCodebase_ "/repo" 0) reportingWorld) = 2
  /\ 2000 * savesOf (events (indexCodebase_ "/repo" 0) reportingWorld)
     <= 7001 - 0.
Proof.
  destruct (progress_saves_are_debounced "/repo" 0 reportingWorld)
    as (Hdue & Hspaced & Hcount & Hbound).
  change (context_indexCodebase "/repo" (remote reportingWorld)).1.1
    with fourReports in *.
  assert (Htimes : dueTimes 0 fourReports = [5000; 7000])
    by (vm_compute; reflexivity).
  rewrite Htimes in Hdue. rewrite Hdue in Hspaced, Hcount.
  split; [exact Hdue|]. split; [exact Hspaced|]. split; [exact Hcount|].
  apply Hbound; [lia|by_evaluation].
Defined.

(** X12 on the task of [/repo], beside the record of [/old], and on a
    run that rejects with [undefined]. *)
Lemma task_ends_terminal_witness :
  ("/old" <> "/repo"
   /\ snapshot (after (startBackgroundIndexing "/repo" false "ast") staleWorld)
        !! "/old"
      = snapshot staleWorld !! "/old")
  /\ (result (startBackgroundIndexing "/repo" false "ast") cappedRun = Ok tt
      /\ terminalRecord
           (snapshot (after (startBackgroundIndexing "/repo" false "ast")
                        cappedRun) !! "/repo")
           (indexingStats (after (startBackgroundIndexing "/repo" false "ast")
                             cappedRun)))
  /\ result (startBackgroundIndexing "/repo" false "ast") undefinedAt37
     = Raise (message_TypeError "undefined").
Proof.
  assert (Hne : "/old" <> "/repo") by by_evaluation.
  split; [|split].
  - split; [exact Hne|].
    destruct (task_ends_terminal "/repo" false "ast" staleWorld)
      as (_ & _ & Hframe & _).
    exact (Hframe "/old" Hne).
  - destruct (task_ends_terminal "/repo" false "ast" cappedRun)
      as (Hterm & Hcase & _).
    assert (Hok : result (startBackgroundIndexing_try "/repo" false "ast" 0)
                    cappedRun = Ok tt) by (vm_compute; reflexivity).
    rewrite Hok in Hcase. split; [exact Hcase|].
    exact (proj1 (Hterm Hcase)).
  - destruct (task_ends_terminal "/repo" false "ast" undefinedAt37)
      as (_ & Hcase & _).
    assert (Hthrow : result (startBackgroundIndexing_try "/repo" false "ast" 0)
                       undefinedAt37 = Raise ThrownUndefined)
      by (vm_compute; reflexivity).
    rewrite Hthrow in Hcase. exact (proj1 Hcase).
Defined.

(** X13 on a first request for [/repo] and its task. *)
Lemma acknowledged_request_ends_witness :
  pending freshWorld = []
  /\ EvStartBackgroundIndexing (mkTask "/repo" false "ast")
       ∈ events (handleIndexCodebase (request "/repo" false None)) freshWorld
  /\ terminalRecord
       (snapshot (after (handleIndexCodebase (request "/repo" false None)
                         ;; runNextTask) freshWorld) !! "/repo")
       (indexingStats (after (handleIndexCodebase (request "/repo" false None)
                              ;; runNextTask) freshWorld))
  /\ pending (after (handleIndexCodebase (request "/repo" false None)
                     ;; runNextTask) freshWorld) = [].
Proof.
  assert (Hin : EvStartBackgroundIndexing (mkTask "/repo" false "ast")
                  ∈ events (handleIndexCodebase (request "/repo" false None))
                      freshWorld) by by_evaluation.
  split; [reflexivity|]. split; [exact Hin|].
  destruct (acknowledged_request_ends_terminal
              (requestFor "/repo" false None) freshWorld _ eq_refl Hin)
    as (Hcase & Hpend).
  split; [|exact Hpend].
  assert (Hok : result (handleIndexCodebase (request "/repo" false None)
                        ;; runNextTask) freshWorld = Ok tt)
    by (vm_compute; reflexivity).
  unfold request in Hok. rewrite Hok in Hcase. exact (proj1 Hcase).
Defined.

(** X14 on a clear of [/repo] while its task is queued. *)
Lemma clear_does_not_cancel_witness :
  getCodebaseStatus "/repo"
    (snapshot (after (handleClearIndex (request "/repo" false None))
                 taskQueued))
  = st_not_found
  /\ pending (after (handleClearIndex (request "/repo" false None)) taskQueued)
     = [mkTask "/repo" false "ast"]
  /\ terminalRecord
       (snapshot (after (handleClearIndex (request "/repo" false None)
                         ;; runNextTask) taskQueued) !! "/repo")
       (indexingStats (after (handleClearIndex (request "/repo" false None)
                              ;; runNextTask) taskQueued)).
Proof.
  destruct (clear_does_not_cancel_task (requestFor "/repo" false None)
              taskQueued "/repo" 12 900 (clearIndex "/repo" repoCloud).2
              false "ast" [])
    as (Hst & Hpend & Hterm).
  - reflexivity.
  - vm_compute. reflexivity.
  - vm_compute. reflexivity.
  - vm_compute. reflexivity.
  - reflexivity.
  - reflexivity.
  - split; [exact Hst|]. split; [exact Hpend|].
    apply Hterm. vm_compute. reflexivity.
Defined.

(** X16 on the indexed [/repo] and a cloud that lists no code
    collection. *)
Lemma cloud_without_code_collections_witness :
  vectorDb_listCollections (remote strandedWorld)
  = (Ok ["documents"], remote strandedWorld)
  /\ getIndexedCodebases
       (snapshot (after syncIndexedCodebasesFromCloud strandedWorld)) = [].
Proof.
  split; [reflexivity|].
  destruct (cloud_without_code_collections_clears strandedWorld ["documents"]
              (remote strandedWorld)) as (Hnone & _).
  - reflexivity.
  - by_evaluation.
  - exact Hnone.
Defined.

(** X17 on a snapshot with one stale record. *)
Lemma reconcile_saves_witness :
  snapshot (after syncIndexedCodebasesFromCloud staleWorld)
  <> snapshot staleWorld
  /\ EvSaveCodebaseSnapshot ∈ events syncIndexedCodebasesFromCloud staleWorld.
Proof.
  assert (Hne : snapshot (after syncIndexedCodebasesFromCloud staleWorld)
                <> snapshot staleWorld) by by_evaluation.
  split; [exact Hne|].
  destruct (reconcile_saves_iff_changed staleWorld) as (_ & Hiff & _).
  exact (proj2 Hiff Hne).
Defined.

Import ScriptedSearch.

(** X18 on a search of the indexed [/repo] that asks for 1000
    results. *)
Lemma search_calls_witness :
  SevSemanticSearch "/repo" (Some "main function") 50 None (Ok [hit])
    ∈ eventsS (handleSearchCode (HS := finds)
                 (SearchArgsObject (searchFor "/repo" (Some 1000) None)))
        indexedWorld
  /\ 50 <= 50
  /\ "/repo" ∈ getIndexedCodebases
                 (snapshot (after syncIndexedCodebasesFromCloud indexedWorld)).
Proof.
  assert (Hin : SevSemanticSearch "/repo" (Some "main function") 50 None
                  (Ok [hit])
                  ∈ eventsS (handleSearchCode (HS := finds)
                               (SearchArgsObject
                                  (searchFor "/repo" (Some 1000) None)))
                      indexedWorld) by by_evaluation.
  split; [exact Hin|].
  destruct (search_calls_are_bounded (HS := finds)
              (searchFor "/repo" (Some 1000) None) indexedWorld _ _ _ _ _ Hin)
    as (_ & _ & _ & Hle & _ & [Hidx|Hidx]).
  - split; [exact Hle|exact Hidx].
  - exfalso. revert Hidx. by_evaluation.
Defined.

(** X19 on a search of [/repo] before it was indexed. *)
Lemma search_requires_index_witness :
  resultS (handleSearchCode (HS := finds)
             (SearchArgsObject (searchFor "/repo" None None))) freshWorld
  = Ok (errorResponse
          "Error: Codebase '/repo' is not indexed. Please index it first using the index_codebase tool.").
Proof.
  destruct (search_requires_index (HS := finds) (searchFor "/repo" None None)
              freshWorld "/repo" repoCloud) as (Hres & _).
  - vm_compute. reflexivity.
  - reflexivity.
  - vm_compute. reflexivity.
  - vm_compute. reflexivity.
  - vm_compute. reflexivity.
  - by_evaluation.
  - by_evaluation.
  - exact Hres.
Defined.

(** X21 on a search that is refused at the collection limit. *)
Lemma collection_limit_witness :
  SevSemanticSearch "/repo" (Some "main function") 10 None
    (Raise (ThrownString COLLECTION_LIMIT_MESSAGE))
    ∈ eventsS (handleSearchCode (HS := refuses)
                 (SearchArgsObject (searchFor "/repo" None None))) indexedWorld
  /\ resultS (handleSearchCode (HS := refuses)
                (SearchArgsObject (searchFor "/repo" None None))) indexedWorld
     = Ok (textResponse COLLECTION_LIMIT_MESSAGE).
Proof.
  assert (Hin : SevSemanticSearch "/repo" (Some "main function") 10 None
                  (Raise (ThrownString COLLECTION_LIMIT_MESSAGE))
                  ∈ eventsS (handleSearchCode (HS := refuses)
                               (SearchArgsObject (searchFor "/repo" None None)))
                      indexedWorld) by by_evaluation.
  split; [exact Hin|].
  rewrite (collection_limit_is_a_final_answer (HS := refuses)
             (searchFor "/repo" None None) indexedWorld _ _ _ _ _ Hin).
  vm_compute. reflexivity.
Defined.

(** X22 on a search of [/repo] while it is at 12%. *)
Lemma search_while_indexing_witness :
  snapshot indexingWorld !! "/repo" = Some (RecIndexing 12 900)
  /\ exists response,
       resultS (handleSearchCode (HS := finds)
                  (SearchArgsObject (searchFor "/repo" None None)))
         indexingWorld
       = Ok response
       /\ isError response = false
       /\ str_includes "This codebase is still being indexed" (text response)
          = true.
Proof.
  assert (Hrec : snapshot indexingWorld !! "/repo" = Some (RecIndexing 12 900))
    by (vm_compute; reflexivity).
  split; [exact Hrec|].
  destruct (search_while_indexing_is_served (HS := finds)
              (searchFor "/repo" None None) indexingWorld "/repo" 12 900
              repoCloud repoCloud repoCloud None [hit])
    as ((response & Hres & Herr & _ & Hinc) & _).
  - vm_compute. reflexivity.
  - reflexivity.
  - vm_compute. reflexivity.
  - vm_compute. reflexivity.
  - exact Hrec.
  - vm_compute. reflexivity.
  - reflexivity.
  - reflexivity.
  - reflexivity.
  - exists response. split; [exact Hres|]. split; [exact Herr|exact Hinc].
Defined.

(** X23 on a filter that holds a blank string and a number. *)
Lemma blank_extension_filter_witness :
  Forall (blankEntry (H := finds)) [Some "  "; None]
  /\ buildFilterExpr (HS := finds) (Some [Some "  "; None])
     = inr (Some "fileExtension in []").
Proof.
  assert (Hall : Forall (blankEntry (H := finds)) [Some "  "; None]).
  { apply List.Forall_cons; [vm_compute; reflexivity|].
    apply List.Forall_cons; [exact I|]. apply List.Forall_nil. }
  split; [exact Hall|].
  exact (blank_extension_filter_is_empty_list (HS := finds) _ _ Hall).
Defined.

(** X25 on the indexed [/repo] that the cloud does not report. *)
Lemma stale_index_witness :
  snapshot strandedWorld !! "/repo" = Some (RecIndexed 42 310 completed 900)
  /\ (cloudView (remote strandedWorld)).1.1 = Some ∅
  /\ (exists response,
         result (handleGetIndexingStatus (HS := finds)
                   (ArgsObject (statusOf "/repo"))) strandedWorld
         = Ok response
         /\ isError response = false)
  /\ resultS (handleSearchCode (HS := finds)
                (SearchArgsObject (searchFor "/repo" None None))) strandedWorld
     = Ok (errorResponse (notIndexedText "/repo")).
Proof.
  assert (Hrec : snapshot strandedWorld !! "/repo"
                 = Some (RecIndexed 42 310 completed 900))
    by (vm_compute; reflexivity).
  assert (Hview : (cloudView (remote strandedWorld)).1.1 = Some ∅)
    by (vm_compute; reflexivity).
  split; [exact Hrec|]. split; [exact Hview|].
  destruct (stale_index_status_and_search_disagree (HS := finds)
              (statusOf "/repo") (searchFor "/repo" None None) strandedWorld
              "/repo" 42 310 completed 900 ∅ (remote strandedWorld))
    as ((response & Hres & Herr & _) & Hsearch).
  - reflexivity.
  - reflexivity.
  - exact Hrec.
  - exact Hview.
  - by_evaluation.
  - vm_compute. reflexivity.
  - vm_compute. reflexivity.
  - vm_compute. reflexivity.
  - vm_compute. reflexivity.
  - vm_compute. reflexivity.
  - split; [|exact Hsearch]. exists response. split; [exact Hres|exact Herr].
Defined.

(** X27 on [/repo] indexed through [indexCodebase]. *)
Lemma blocking_index_witness :
  snapshot freshWorld !! "/repo" = None
  /\ EvIndexCodebaseSettled "/repo" (Ok (mkStats 42 310 completed))
       ∈ events (indexCodebase (HS := finds) (Some "/repo")
                   (mkIndexOptions None None None)) freshWorld
  /\ exists response,
       result (indexCodebase (HS := finds) (Some "/repo")
                 (mkIndexOptions None None None)
               ;; handleGetIndexingStatus (HS := finds)
                    (ArgsObject (statusOf "/repo"))) freshWorld
       = Ok response
       /\ startsWith (text response)
            "❌ Codebase '/repo' is not indexed. Please use the index_codebase tool to index it first."
          = true.
Proof.
  assert (Hin : EvIndexCodebaseSettled "/repo" (Ok (mkStats 42 310 completed))
                  ∈ events (indexCodebase (HS := finds) (Some "/repo")
                              (mkIndexOptions None None None)) freshWorld)
    by by_evaluation.
  split; [reflexivity|]. split; [exact Hin|].
  apply (blocking_index_is_not_reported (HS := finds) (Some "/repo")
           (mkIndexOptions None None None) (statusOf "/repo") freshWorld
           "/repo" (mkStats 42 310 completed)).
  - reflexivity.
  - reflexivity.
  - reflexivity.
  - exact Hin.
  - vm_compute. reflexivity.
  - vm_compute. reflexivity.
Defined.

(** X29 on a request for [/repo] when [listCollections] rejects with
    [undefined]. *)
Lemma rejected_reconciliation_witness :
  result syncIndexedCodebasesFromCloud undefinedListing
  = Raise (message_TypeError "undefined")
  /\ result (handleIndexCodebase (request "/repo" false None)) undefinedListing
     = Ok (errorResponse
             "Error starting indexing: Cannot read properties of undefined (reading 'message')")
  /\ snapshot (after (handleIndexCodebase (request "/repo" false None))
                 undefinedListing)
     = snapshot undefinedListing.
Proof.
  assert (Hsync : result syncIndexedCodebasesFromCloud undefinedListing
                  = Raise (message_TypeError "undefined"))
    by (vm_compute; reflexivity).
  split; [exact Hsync|].
  destruct (rejected_reconciliation_is_answered (HS := finds)
              (requestFor "/repo" false None) (searchFor "/repo" None None)
              undefinedListing "undefined" Hsync)
    as (Hidx & _ & Hsnap & _).
  unfold request, result, after. rewrite Hidx. cbn [fst snd].
  split; [reflexivity|exact Hsnap].
Defined.
